(* ===== verification/_CoqProject ===== *)
-Q . S2P
Prelude.v
Unicode.v
Json.v
JsonText.v
Categorizer.v
Batching.v
Http.v
Synchronizer.v
ImportDriver.v
LibraryReader.v
ExportDriver.v
Browser.v
CredentialExtractor.v
LoginMachine.v
Liveness.v
Html.v
ExportFiles.v
OutputInvariant.v
EndToEnd.v
