(* ===== verification/Prelude.v ===== *)
(** * A verification development for stremio-library-exporter

    The repository is a small Python tool. It logs into the Stremio web
    application with a headless browser and recovers the session's auth key
    from the page's localStorage. With that key it reads the user's library
    through the private datastore API. The exporter turns the library into a
    watched list and a watchlist. The importer writes a saved library back in
    batches of fifty items. This development models the parts of the program
    that carry logic, as executable Rocq functions over an explicit model of
    Python's JSON values and exceptions, and proves what they do.

    ** The program and how its parts interact

    - [src/auth_extractor.py], class [StremioAuthExtractor]: it loads
      credentials from the environment ([_load_credentials]) and picks a
      browser engine ([_launch_browser]). It drives the page through the
      login flow ([_navigate_and_login], [_perform_login],
      [_fill_credentials]), reads localStorage and extracts [auth.key]
      ([_extract_auth_key_from_storage]). The browser is closed in a
      [finally] block ([extract_auth_key]).
    - [src/movie_extractor.py]: [make_api_request] posts to
      [datastoreGet] and returns the decoded body. [parse_library_data]
      normalises each raw library item and splits the items into watched and
      watchlist by [state.timesWatched > 0]. [main] chains extraction,
      request, parsing and the output sinks.
    - [src/library_importer.py]: [load_backup] accepts a raw API response
      or a bare list. [restore_library] posts the items to [datastorePut] in
      slices [items[i:i+50]] for [i] in [range(0, len(items), 50)]. It counts
      the items of the batches the server acknowledges. A failed batch is
      logged and skipped. [main] checks the backup file, loads it, extracts
      a key and restores.
    - [src/html_generator.py]: [generate_html] writes one f-string page with
      the generation time, the two list lengths and the two grids;
      [_generate_grid_items] renders one card per item.

    The credential flows from the extractor to the reader (export path) or to
    the importer (restore path). The reader's JSON output flows into the
    categoriser.

    ** Files, in dependency order

    - [Prelude] (this file): the result monad for Python exceptions with its
      notation scope [py_scope], the [pyrun] hint database, the [py_run]
      tactic, generic list and string lemmas, and the double quote and
      backslash characters that the sources write inside literals.
    - [Unicode]: the UTF-8 codec between the model's byte strings and
      Python's code points, with the [surrogateescape] handler so that
      every byte string is a [str]. Encoding what was decoded gives the
      bytes back, and decoded code points are scalar values. [Json] uses it
      for what Python does on a [str]: [len], iteration and slicing see its
      code points, not its bytes.
    - [Json]: Python's view of a decoded JSON document. This covers the value
      type [json] (objects as ordered key lists, like a Python dict) with its
      nested induction principle and decidable equality. It also covers the
      Python operations the program applies to JSON values: truthiness,
      [dict.get], the [in] operator (key, substring or element test by
      container type), subscripting with a string, comparison [> 0],
      equality with ["ok"] and [True], [len] and iteration. Each operation
      raises the exception Python raises on the wrong type.
    - [JsonText]: the text of [output/library_backup.json]. The encoder of
      [json.dump(data, f, indent=2)] ([_make_iterencode], ensure_ascii
      escapes, integer [repr] with its 4300-digit limit) and the reader of
      [json.load(f)] (strict UTF-8, universal newlines, the BOM check and
      the C scanner: strings with surrogate pairs, the number grammar,
      arrays, and dicts built key by key). Both checked byte for byte
      against CPython 3.11 on a few hundred texts. The theorem: a value
      with distinct dict keys that the exporter dumps reads back as itself
      in the importer. The lemma [EndToEnd.json_load_file_text] derives
      from the same lemmas that the value-level read of the backup is what
      Python does on the text.
    - [Categorizer]: [parse_item] and [parse_library_data], the whole loop of
      [movie_extractor.parse_library_data]. It comes with the abstract
      specification [categorize] (a stable partition of the kept items) and
      a refinement theorem. The theorems are the drop filter, the watched
      threshold, exact error behaviour and the spec's end-to-end scenario.
    - [Batching]: Python's [range(start, stop, step)] and list slicing, the
      batch list of [restore_library], and its equivalence with a reference
      chunking function defined by well-founded recursion (Equations). The
      theorem of spec property 5 combines coverage in order, batch sizes,
      and the ceil(N/50) count.
    - [Http]: the answer of a [requests.post] (a transport exception, or a
      status with an optional decoded body), [raise_for_status] and
      [response.json()], shared by the reader and the synchronizer.
    - [Synchronizer]: [restore_library] against a stateful server oracle, and
      [load_backup]. The loop is generic in what it slices (the elements of
      a list, or the code points of a str) and in how a batch is serialised.
      The theorems are the tally (exactly the items of acknowledged
      batches), that a failed batch never stops the loop (every batch is
      posted once, in order), the bounds of the tally, and the acceptance
      rule of a response (["ok"] or a value equal to [True]).
    - [ImportDriver]: [library_importer.main]: the backup-file check,
      [load_backup], [restore_library] on whatever the backup's ["result"]
      holds, and the exit codes. The theorems are the exact success
      condition, exit code 0 on a partial failure, no login on a bad
      backup, and what a str or dict ["result"] does (a str is posted in
      substrings of 50 code points that join back to it; a dict logs in and
      then fails).
    - [LibraryReader]: [make_api_request] against the same server oracle:
      when it returns the body, and the exception a malformed body raises.
    - [ExportDriver]: [movie_extractor.main] as a function from the
      extraction's outcome and the server to the exit code, the list of
      output steps run (with their data) and the final server state. The
      theorems are the exact success condition, the roundtrip from the
      exporter's JSON backup (the response the report's lists came from)
      through the importer's [load_backup], and the export of an answer
      without ["result"], whose backup the importer rejects.
    - [Browser]: the browser interface as a typeclass [BrowserSession] (the
      Playwright calls the extractor makes) and a state monad [bm] that
      records every call and its outcome in a trace.
    - [CredentialExtractor]: the extractor over any [BrowserSession]. This
      covers the localStorage snapshot (the page script's
      [JSON.parse]-or-string rule), the profile scan, the distinct failure
      messages, and the [finally: close()] guarantee. It also covers the
      constructor (the object's attributes as a record) and the module's own
      command line [main], with its exit status.
    - [LoginMachine]: the spec's login state machine as a labelled step
      relation on trace events, with invariants proved by rule induction.
      The refinement theorem says every trace of [extract_auth_key], on any
      page, is a run of the machine that ends in the state its result names.
      Consequences: the key comes from a storage snapshot the page returned,
      and credentials are typed only on the login branch.
    - [Liveness]: the class [ReliablePage] of laws over a [BrowserSession]:
      every call returns except the wait for the login control to hide.
      On such a page [extract_auth_key] always reaches the storage read and
      the close, and returns the profile check's verdict. This is the
      spec's two-tier completion check: a timeout of the primary signal
      never stops the flow.
    - [Html]: Python's [str()] and [repr()] of JSON values, the card and
      grid of [_generate_grid_items], and the page of [generate_html]. The
      page's fixed text is copied byte for byte from the source. The
      theorems go from the API answer to the page: the name of every kept
      item appears unescaped in a [data-title] attribute, and every kept
      item without a year has a card that shows ["None"].
    - [ExportFiles]: the [output/] directory as a stdpp [gmap] from file
      names to contents, and the exporter's recorded steps run on it: the
      CSV rows [csv.DictWriter] receives, the HTML page, the raw JSON backup,
      and the ZIP of [create_backup_zip] (glob on the timestamp, suffix
      test, renamed raw backup). The theorems give the archive's exact
      contents and show that the report's restore command names a file the
      archive does not hold.
    - [OutputInvariant]: the well-formedness of the output directory. CSV
      files have the [fieldnames] header and five-cell rows, and archives
      have distinct entry names. Every sequence of output steps preserves
      it, from a directory without [library_backup_<ts>.json]; with such a
      file, the ZIP repeats a name.
    - [EndToEnd]: the importer's two reads of [output/library_backup.json]
      ([Path.exists] in [main], [open] and [json.load] in [load_backup]) on
      the directory the exporter leaves. The theorem composes both programs.
      After an export that exits 0, the file holds the API's answer. The
      importer on that file either rejects it before logging in (no
      ["result"]), or exits 0 after posting exactly the items the exporter
      parsed, in batches of 50 and in order.

    ** Modelling choices, bounds and fuel

    - JSON numbers are integers ([Z]); the library data uses integers for
      [timesWatched] and [year]. Floats are not modelled.
    - A JSON object is a list of (key, value) pairs in insertion order. A
      Python dict decoded by [json.load] has unique keys. Lookup takes the
      first entry with the key, which is the only one in a decoded dict.
    - Python exceptions are the constructors of [py_exn]; a [try/except]
      is a match on [Err]. Log lines are recorded as events where a
      property depends on them.
    - [range] is defined with fuel [stop - start]. A step is at least 1, so
      the fuel is never exhausted: [Batching.range_fuel_adequate] proves that
      any larger fuel gives the same list, and [Batching.batches_concat] that
      the slices cover the whole list.
    - The HTTP server and the browser page are oracles: Section variables
      or typeclass instances with a state of their own. The theorems hold for
      every oracle.
    - The auth key is a [json] value: the extractor returns whatever
      [auth.key] holds, and the drivers pass it on unchanged.
    - In [ExportDriver], the CSV write and [webbrowser.open] are parameters
      that may raise. The HTML, JSON-backup and ZIP steps catch their own
      exceptions, so they are recorded as effects that always succeed: their
      failure paths (a [False] return, a partial JSON file after a [json.dump]
      error, no archive) are not modelled, and an exit code 0 of the real
      program does not by itself imply these files. The
      directory holds the backup as the value dumped; that [json.load] of
      the dumped text gives it back is [EndToEnd.json_load_file_text].
      What [json.load] raises on a file that is not JSON is a parameter.
    - The JSON scanner runs on fuel [2 * length s + 1]: every call but the
      one that enters an array or a dict reads a character first, so the
      fuel bounds the nesting and the elements. The roundtrip proves the
      text of a value parses within it. A float literal decodes to a
      parameter [parse_float]: the model's [json] has no floats.

    ** Not modelled

    The bytes of the ZIP (compression) and the text of the CSV files
    (the quoting of the standard library's [csv] writer: the model keeps
    the rows [DictWriter] receives, [ExportFiles.csv_rows]), Python's recursion limit on deeply nested JSON,
    the position and byte in the messages of [JSONDecodeError] and
    [UnicodeDecodeError], opening the report ([webbrowser.open]), the
    importer's argument parsing, [setup_logging] and the
    [if __name__ == "__main__"] wrappers are not modelled: the files are
    their contents as values, the rest are parameters or recorded effects,
    and the wrappers only pass [main]'s return value to [exit]. The
    extractor's own [--browser] option is modelled, with its choices.
    In the HTML report, [datetime.now()] is an input and the file write a
    parameter. [repr] keeps bytes from 128 up as they are, which is what
    Python does for printable non-ASCII characters; Python's escapes of
    non-printable non-ASCII characters (such as U+00A0) are not modelled.
    The [async_playwright] context manager and the Playwright library
    itself are outside the repository: the [BrowserSession] interface
    states only what the extractor relies on.

    ** Plan

    Done: every component above, with mutants for the main properties,
    including a liveness property of the login flow and a well-formedness
    invariant of the output directory, the CSV text and the JSON text with
    their roundtrips. What is left is outside the repository's logic:
    logging configuration, argument parsing of the importer, the
    [__main__] wrappers and the bytes of ZIP compression. *)

From Stdlib Require Import String Ascii ZArith List Lia.
From stdpp Require Import base.
Import ListNotations.

(** ** Characters the sources write inside string literals *)

(** A double quote and a backslash, written by their codes because a Rocq
    string literal escapes the first and a reader may misread the second. *)
Definition dq : string := String (ascii_of_nat 34) EmptyString.
Definition backslash : string := String (ascii_of_nat 92) EmptyString.
Definition newline : string := String (ascii_of_nat 10) EmptyString.
Definition quoted (s : string) : string := (dq ++ s ++ dq)%string.

(** ** Python exceptions and the result monad *)

(** The exceptions the modelled code can raise or catch. [ValueError]
    and [csv.Error] carry their message and [FileNotFoundError] the path
    [open] was given; the others carry no payload because the code never
    inspects it. *)
Inductive py_exn : Type :=
| AttributeError
| TypeError
| KeyError
| ValueError (msg : string)
| HTTPError (status : Z)
| ConnectionError
| JSONDecodeError
| TimeoutError
| FileNotFoundError (path : string)
| CsvError (msg : string).

(** A Python computation returns a value or raises. *)
Inductive result (A : Type) : Type :=
| Ok (a : A)
| Err (e : py_exn).
Arguments Ok {A} a.
Arguments Err {A} e.

Definition bind {A B : Type} (m : result A) (k : A -> result B) : result B :=
  match m with
  | Ok a => k a
  | Err e => Err e
  end.

Definition ret {A : Type} (a : A) : result A := Ok a.

Definition is_ok {A : Type} (m : result A) : bool :=
  match m with Ok _ => true | Err _ => false end.

(** [mapM f l] runs [f] over [l] left to right and stops at the first
    exception, like a Python [for] loop whose body may raise. *)
Fixpoint mapM {A B : Type} (f : A -> result B) (l : list A) : result (list B) :=
  match l with
  | [] => Ok []
  | x :: l' =>
      bind (f x) (fun y => bind (mapM f l') (fun ys => Ok (y :: ys)))
  end.

(** [filter_some l] keeps the values of the [Some] entries, in order. *)
Fixpoint filter_some {A : Type} (l : list (option A)) : list A :=
  match l with
  | [] => []
  | Some x :: l' => x :: filter_some l'
  | None :: l' => filter_some l'
  end.

(** Sum of a list of naturals. *)
Definition sum_nat (l : list nat) : nat := fold_right Nat.add 0 l.

Declare Scope py_scope.
Delimit Scope py_scope with py.
Notation "'let*' x ':=' c1 'in' c2" := (bind c1 (fun x => c2))
  (at level 10, x name, c1 at level 100, c2 at level 200) : py_scope.
Notation "'let*'' p ':=' c1 'in' c2" := (bind c1 (fun x => match x with p => c2 end))
  (at level 10, p pattern, c1 at level 100, c2 at level 200) : py_scope.
Notation "'raise' e" := (Err e) (at level 10) : py_scope.
Open Scope py_scope.

(** ** Generic lemmas *)

Create HintDb pyrun discriminated.
Create Rewrite HintDb pyrun.

Lemma bind_Ok {A B} (a : A) (k : A -> result B) : bind (Ok a) k = k a.
Proof. reflexivity. Qed.

Lemma bind_Err {A B} (e : py_exn) (k : A -> result B) : bind (Err e) k = Err e.
Proof. reflexivity. Qed.

Lemma Ok_inj {A} (a b : A) : Ok a = Ok b -> a = b.
Proof. congruence. Qed.

Lemma bind_eq_Ok {A B} (m : result A) (k : A -> result B) (b : B) :
  bind m k = Ok b <-> exists a, m = Ok a /\ k a = Ok b.
Proof.
  destruct m as [a|e]; simpl; split.
  - eauto.
  - intros (a' & Ha & Hk). congruence.
  - discriminate.
  - intros (a' & Ha & _). discriminate.
Qed.

Lemma bind_eq_Err {A B} (m : result A) (k : A -> result B) (e : py_exn) :
  bind m k = Err e <-> m = Err e \/ exists a, m = Ok a /\ k a = Err e.
Proof.
  destruct m as [a|e']; simpl; split.
  - eauto.
  - intros [H | (a' & Ha & Hk)]; [discriminate | congruence].
  - intros H; injection H as ->; left; reflexivity.
  - intros [H | (a' & Ha & _)]; [injection H as ->; reflexivity | discriminate].
Qed.

Lemma mapM_length {A B} (f : A -> result B) (l : list A) (l' : list B) :
  mapM f l = Ok l' -> length l' = length l.
Proof.
  revert l'. induction l as [|x l IH]; simpl; intros l' H.
  - injection H as <-. reflexivity.
  - destruct (f x); simpl in H; [|discriminate].
    destruct (mapM f l) eqn:E; simpl in H; [|discriminate].
    injection H as <-. simpl. f_equal. apply IH. reflexivity.
Qed.

Lemma mapM_Forall2 {A B} (f : A -> result B) (l : list A) (l' : list B) :
  mapM f l = Ok l' -> Forall2 (fun x y => f x = Ok y) l l'.
Proof.
  revert l'. induction l as [|x l IH]; intros l' H; simpl in H.
  - injection H as <-. constructor.
  - destruct (f x) as [y|e] eqn:E; simpl in H; [| discriminate].
    destruct (mapM f l) as [ys|e] eqn:E'; simpl in H; [| discriminate].
    injection H as <-. constructor; auto.
Qed.

Lemma mapM_is_ok {A B} (f : A -> result B) (l : list A) :
  is_ok (mapM f l) = forallb (fun x => is_ok (f x)) l.
Proof.
  induction l as [|x l IH]; [reflexivity |]. simpl.
  destruct (f x); simpl; [| reflexivity]. rewrite <- IH. destruct (mapM f l); reflexivity.
Qed.

Lemma is_ok_bind_ret {A B} (m : result A) (f : A -> B) :
  is_ok (bind m (fun x => Ok (f x))) = is_ok m.
Proof. destruct m; reflexivity. Qed.

Lemma forallb_Forall_eq {A} (f g : A -> bool) (l : list A) :
  Forall (fun x => f x = g x) l -> forallb f l = forallb g l.
Proof. induction 1 as [|x l Hx _ IH]; [reflexivity |]. simpl. rewrite Hx, IH. reflexivity. Qed.

Lemma mapM_Ok_iff {A B} (f : A -> result B) (l : list A) :
  is_ok (mapM f l) = true <-> Forall (fun x => is_ok (f x) = true) l.
Proof.
  induction l as [|x l IH]; simpl.
  - split; auto.
  - rewrite Forall_cons_iff, <- IH.
    destruct (f x); simpl; [|split; [discriminate | intros []; discriminate]].
    destruct (mapM f l); simpl; split; intros H; try split; try destruct H;
      try reflexivity; try discriminate.
Qed.

Lemma sum_nat_app (l1 l2 : list nat) :
  sum_nat (l1 ++ l2) = sum_nat l1 + sum_nat l2.
Proof. induction l1; simpl; lia. Qed.

Lemma filter_some_app {A} (l1 l2 : list (option A)) :
  filter_some (l1 ++ l2) = filter_some l1 ++ filter_some l2.
Proof. induction l1 as [|[x|] l1 IH]; simpl; rewrite ?IH; reflexivity. Qed.

#[export] Hint Rewrite @bind_Ok @bind_Err : pyrun.
#[export] Hint Rewrite sum_nat_app @filter_some_app : pyrun.
#[export] Hint Resolve mapM_length : pyrun.

(** ** Strings *)

Lemma string_app_assoc (a b c : string) : ((a ++ b) ++ c)%string = (a ++ (b ++ c))%string.
Proof. induction a as [|ch a IH]; simpl; [reflexivity | rewrite IH; reflexivity]. Qed.

Lemma string_app_nil_r (a : string) : (a ++ EmptyString)%string = a.
Proof. induction a as [|ch a IH]; simpl; [reflexivity | rewrite IH; reflexivity]. Qed.

(** [String.concat ""] of a non-empty list peels its head. *)
Lemma string_concat_cons (x : string) (l : list string) :
  String.concat EmptyString (x :: l) = (x ++ String.concat EmptyString l)%string.
Proof. destruct l; simpl; [rewrite string_app_nil_r |]; reflexivity. Qed.

(** [needle] occurs in [hay]. *)
Definition occurs_in (needle hay : string) : Prop :=
  exists pre post, hay = (pre ++ needle ++ post)%string.

Lemma occurs_in_refl (s : string) : occurs_in s s.
Proof. exists EmptyString, EmptyString. simpl. rewrite string_app_nil_r. reflexivity. Qed.

Lemma occurs_in_app_l (s a b : string) : occurs_in s a -> occurs_in s (a ++ b).
Proof.
  intros (pre & post & ->). exists pre, (post ++ b)%string. rewrite !string_app_assoc. reflexivity.
Qed.

Lemma occurs_in_app_r (s a b : string) : occurs_in s b -> occurs_in s (a ++ b).
Proof. intros (pre & post & ->). exists (a ++ pre)%string, post. rewrite !string_app_assoc. reflexivity. Qed.

Lemma occurs_in_trans (s t u : string) : occurs_in s t -> occurs_in t u -> occurs_in s u.
Proof.
  intros (p1 & q1 & ->) (p2 & q2 & ->). exists (p2 ++ p1)%string, (q1 ++ q2)%string.
  rewrite !string_app_assoc. reflexivity.
Qed.

(** Each piece of a [String.concat ""] occurs in it. *)
Lemma occurs_in_concat (x : string) (l : list string) :
  In x l -> occurs_in x (String.concat EmptyString l).
Proof.
  induction l as [|y l IH]; [intros [] | intros [-> | Hin]]; rewrite string_concat_cons.
  - apply occurs_in_app_l, occurs_in_refl.
  - apply occurs_in_app_r, IH, Hin.
Qed.

Lemma string_length_app (a b : string) :
  String.length (a ++ b) = String.length a + String.length b.
Proof. induction a as [|ch a IH]; simpl; [reflexivity | rewrite IH; reflexivity]. Qed.

#[export] Hint Rewrite string_app_assoc string_app_nil_r string_concat_cons : pyrun.

(** [py_run] unfolds a monadic computation as far as its binds let it. *)
Ltac py_run :=
  repeat (autorewrite with pyrun in *; cbn [bind ret] in *).

(** [py_case] splits on the first [bind] of the goal whose scrutinee is
    not yet a value, keeping an equation for it. *)
Ltac py_case :=
  match goal with
  | |- context [bind ?m _] =>
      lazymatch m with
      | Ok _ => fail
      | Err _ => fail
      | _ => let E := fresh "E" in destruct m eqn:E
      end
  end; py_run.
