(* ===== verification/Unicode.v ===== *)
(** * Unicode: the UTF-8 codec between the model's strings and Python's

    A [string] of the model is a sequence of bytes; a Python [str] is a
    sequence of code points. They meet where the programs read and write
    text files with [encoding='utf-8']. This file gives the correspondence
    as Python itself does for arbitrary bytes: UTF-8, with the
    [surrogateescape] error handler. A byte that does not begin a valid
    sequence stands for the lone surrogate [U+DC80..U+DCFF] of its value
    ([utf8_decode]), and such a surrogate is written back as that byte
    ([utf8_encode]). The decoder follows CPython's [utf8_decode]
    ([Objects/stringlib/codecs.h]): the well-formed sequences of Table
    3-7 of the Unicode standard, code points assembled as
    [(ch << 6) + ch2 - ((0xC0 << 6) + 0x80)] and the like. A text is
    valid UTF-8 ([utf8_valid]), and a strict read succeeds, when no byte
    had to be escaped.

    The theorem is that encoding a decoded text gives the bytes back, so
    every byte string is the encoding of the [str] it decodes to. *)

From Stdlib Require Import String Ascii ZArith List Bool Lia.
From S2P Require Import Prelude.
Import ListNotations.
Local Open Scope Z_scope.

(** ** Bytes and code points *)

Definition byte (c : ascii) : Z := Z.of_nat (nat_of_ascii c).
Definition of_byte (z : Z) : ascii := ascii_of_nat (Z.to_nat z).

Definition in_range (lo hi x : Z) : bool := (lo <=? x) && (x <=? hi).

(** A continuation byte [10xxxxxx]. *)
Definition cont (x : Z) : bool := in_range 0x80 0xBF x.

(** The second byte of a three-byte sequence: [E0] excludes the overlong
    forms and [ED] the surrogates. *)
Definition second3_ok (x y : Z) : bool :=
  if x =? 0xE0 then in_range 0xA0 0xBF y
  else if x =? 0xED then in_range 0x80 0x9F y
  else cont y.

(** The second byte of a four-byte sequence: [F0] excludes the overlong
    forms and [F4] the code points above [U+10FFFF]. *)
Definition second4_ok (x y : Z) : bool :=
  if x =? 0xF0 then in_range 0x90 0xBF y
  else if x =? 0xF4 then in_range 0x80 0x8F y
  else cont y.

Definition cp2 (x y : Z) : Z := x * 64 + y - (0xC0 * 64 + 0x80).
Definition cp3 (x y z : Z) : Z := (x * 64 + y) * 64 + z - ((0xE0 * 64 + 0x80) * 64 + 0x80).
Definition cp4 (x y z w : Z) : Z :=
  ((x * 64 + y) * 64 + z) * 64 + w - (((0xF0 * 64 + 0x80) * 64 + 0x80) * 64 + 0x80).

(** [surrogateescape]: the byte [x] that starts no valid sequence. *)
Definition escape_byte (x : Z) : Z := 0xDC00 + x.

(** ** The codec *)

(** [bytes.decode('utf-8', 'surrogateescape')]. *)
Fixpoint utf8_decode (s : list ascii) : list Z :=
  match s with
  | [] => []
  | b0 :: r =>
      let x := byte b0 in
      if x <? 0x80 then x :: utf8_decode r else
      match r with
      | [] => escape_byte x :: utf8_decode r
      | b1 :: r1 =>
          if in_range 0xC2 0xDF x && cont (byte b1) then cp2 x (byte b1) :: utf8_decode r1 else
          match r1 with
          | [] => escape_byte x :: utf8_decode r
          | b2 :: r2 =>
              if in_range 0xE0 0xEF x && second3_ok x (byte b1) && cont (byte b2)
              then cp3 x (byte b1) (byte b2) :: utf8_decode r2 else
              match r2 with
              | [] => escape_byte x :: utf8_decode r
              | b3 :: r3 =>
                  if in_range 0xF0 0xF4 x && second4_ok x (byte b1) && cont (byte b2) && cont (byte b3)
                  then cp4 x (byte b1) (byte b2) (byte b3) :: utf8_decode r3
                  else escape_byte x :: utf8_decode r
              end
          end
      end
  end.

(** [bytes.decode('utf-8')] succeeds: no byte was escaped. *)
Definition utf8_valid (s : list ascii) : bool :=
  forallb (fun cp => negb (in_range 0xDC80 0xDCFF cp)) (utf8_decode s).

(** One code point of [str.encode('utf-8', 'surrogateescape')]: a lone
    surrogate [U+DC80..U+DCFF] is the byte it escaped. Any other code
    point takes its one to four bytes. A code point above [U+10FFFF]
    does not occur in a Python [str]. *)
Definition encode_cp (cp : Z) : list ascii :=
  map of_byte
    (if cp <? 0x80 then [cp]
     else if in_range 0xDC80 0xDCFF cp then [cp - 0xDC00]
     else if cp <? 0x800 then [0xC0 + cp / 64; 0x80 + cp mod 64]
     else if cp <? 0x10000 then [0xE0 + cp / 4096; 0x80 + cp / 64 mod 64; 0x80 + cp mod 64]
     else [0xF0 + cp / 262144; 0x80 + cp / 4096 mod 64; 0x80 + cp / 64 mod 64; 0x80 + cp mod 64]).

Definition utf8_encode (cps : list Z) : list ascii := flat_map encode_cp cps.

(** ** Tactics *)

(** Turn the boolean tests on [Z] in the context into arithmetic. *)
Ltac zbool :=
  repeat match goal with
  | H : in_range _ _ _ = _ |- _ => unfold in_range in H
  | H : (_ && _) = true |- _ => apply andb_true_iff in H as [? ?]
  | H : (_ && _) = false |- _ => apply andb_false_iff in H as [H | H]
  | H : (_ <? _) = true |- _ => apply Z.ltb_lt in H
  | H : (_ <? _) = false |- _ => apply Z.ltb_ge in H
  | H : (_ <=? _) = true |- _ => apply Z.leb_le in H
  | H : (_ <=? _) = false |- _ => apply Z.leb_gt in H
  | H : (_ =? _) = true |- _ => apply Z.eqb_eq in H
  | H : (_ =? _) = false |- _ => apply Z.eqb_neq in H
  end.

(** Linear arithmetic with division and remainder by constants. *)
Ltac zdiv := Z.to_euclidean_division_equations; lia.

(** Decide every test of the goal, closing the branches the context
    rules out. *)
Ltac decide_ifs :=
  repeat match goal with
  | |- context [if ?c then _ else _] =>
      let E := fresh "E" in destruct c eqn:E; zbool; try (exfalso; lia)
  end.

(** ** Lemmas *)

Lemma byte_range (c : ascii) : 0 <= byte c < 256.
Proof. unfold byte. pose proof (nat_ascii_bounded c). lia. Qed.

Lemma of_byte_eq (v : Z) (c : ascii) : v = byte c -> of_byte v = c.
Proof. intros ->. unfold of_byte, byte. rewrite Nat2Z.id. apply ascii_nat_embedding. Qed.

Lemma utf8_encode_cons (cp : Z) (cps : list Z) :
  utf8_encode (cp :: cps) = encode_cp cp ++ utf8_encode cps.
Proof. reflexivity. Qed.

Lemma utf8_encode_app (a b : list Z) : utf8_encode (a ++ b) = utf8_encode a ++ utf8_encode b.
Proof. apply flat_map_app. Qed.

(** The bytes of each branch of [encode_cp]. *)
Ltac solve_bytes :=
  unfold encode_cp, cp2, cp3, cp4, in_range in *; decide_ifs; cbn [map];
  repeat f_equal; apply of_byte_eq; zdiv.

Lemma encode_ascii (b : ascii) : byte b < 0x80 -> encode_cp (byte b) = [b].
Proof. pose proof (byte_range b). intros. solve_bytes. Qed.

Lemma encode_escape (b : ascii) : 0x80 <= byte b -> encode_cp (escape_byte (byte b)) = [b].
Proof. pose proof (byte_range b). unfold escape_byte, in_range. intros. solve_bytes. Qed.

Lemma encode_cp2 (b0 b1 : ascii) :
  in_range 0xC2 0xDF (byte b0) && cont (byte b1) = true -> encode_cp (cp2 (byte b0) (byte b1)) = [b0; b1].
Proof.
  pose proof (byte_range b0). pose proof (byte_range b1).
  unfold in_range, cont. intros. zbool. solve_bytes.
Qed.

Lemma encode_cp3 (b0 b1 b2 : ascii) :
  in_range 0xE0 0xEF (byte b0) && second3_ok (byte b0) (byte b1) && cont (byte b2) = true ->
  encode_cp (cp3 (byte b0) (byte b1) (byte b2)) = [b0; b1; b2].
Proof.
  pose proof (byte_range b0). pose proof (byte_range b1). pose proof (byte_range b2).
  unfold second3_ok, in_range, cont. decide_ifs; intros; zbool; solve_bytes.
Qed.

Lemma encode_cp4 (b0 b1 b2 b3 : ascii) :
  in_range 0xF0 0xF4 (byte b0) && second4_ok (byte b0) (byte b1) && cont (byte b2) && cont (byte b3) = true ->
  encode_cp (cp4 (byte b0) (byte b1) (byte b2) (byte b3)) = [b0; b1; b2; b3].
Proof.
  pose proof (byte_range b0). pose proof (byte_range b1). pose proof (byte_range b2). pose proof (byte_range b3).
  unfold second4_ok, in_range, cont. decide_ifs; intros; zbool; solve_bytes.
Qed.

(** A code point of a Python [str] that [json] writes and reads back
    one for one: at most [U+10FFFF], and not a high surrogate. *)
Definition scalar_cp (cp : Z) : Prop := 0 <= cp <= 0x10FFFF /\ ~ (0xD800 <= cp <= 0xDBFF).

(** One step of the decoder: a code point and the non-empty group of
    bytes it encodes to. *)
Lemma utf8_decode_step (b0 : ascii) (r : list ascii) :
  exists cp bs r', b0 :: r = bs ++ r' /\ bs <> [] /\
    utf8_decode (b0 :: r) = cp :: utf8_decode r' /\ encode_cp cp = bs /\ scalar_cp cp.
Proof.
  pose proof (byte_range b0) as Hb. cbn [utf8_decode]. unfold scalar_cp.
  destruct (byte b0 <? 0x80) eqn:Ha; zbool.
  { exists (byte b0), [b0], r. rewrite encode_ascii by lia. repeat split; auto; try lia; discriminate. }
  assert (Hesc : exists cp bs r', b0 :: r = bs ++ r' /\ bs <> [] /\
            escape_byte (byte b0) :: utf8_decode r = cp :: utf8_decode r' /\ encode_cp cp = bs /\
            (0 <= cp <= 0x10FFFF /\ ~ (0xD800 <= cp <= 0xDBFF))).
  { exists (escape_byte (byte b0)), [b0], r. rewrite encode_escape by lia.
    unfold escape_byte. repeat split; auto; try lia; discriminate. }
  destruct r as [|b1 r1]; [exact Hesc |].
  pose proof (byte_range b1).
  destruct (in_range 0xC2 0xDF (byte b0) && cont (byte b1)) eqn:H2.
  { exists (cp2 (byte b0) (byte b1)), [b0; b1], r1. rewrite encode_cp2 by exact H2.
    unfold cont, in_range, cp2 in *. zbool. repeat split; auto; try lia; discriminate. }
  destruct r1 as [|b2 r2]; [exact Hesc |].
  pose proof (byte_range b2).
  destruct (in_range 0xE0 0xEF (byte b0) && second3_ok (byte b0) (byte b1) && cont (byte b2)) eqn:H3.
  { exists (cp3 (byte b0) (byte b1) (byte b2)), [b0; b1; b2], r2. rewrite encode_cp3 by exact H3.
    unfold second3_ok, cont, in_range, cp3 in *. revert H3. decide_ifs; intros; zbool.
    all: repeat split; auto; try lia; discriminate. }
  destruct r2 as [|b3 r3]; [exact Hesc |].
  pose proof (byte_range b3).
  destruct (in_range 0xF0 0xF4 (byte b0) && second4_ok (byte b0) (byte b1) && cont (byte b2) && cont (byte b3)) eqn:H4.
  { exists (cp4 (byte b0) (byte b1) (byte b2) (byte b3)), [b0; b1; b2; b3], r3. rewrite encode_cp4 by exact H4.
    unfold second4_ok, cont, in_range, cp4 in *. revert H4. decide_ifs; intros; zbool.
    all: repeat split; auto; try lia; discriminate. }
  exact Hesc.
Qed.

(** Induction along the decoder: a property of the suffixes of [s]. *)
Lemma utf8_decode_ind (P : list ascii -> Prop) :
  P [] ->
  (forall cp bs r', bs <> [] -> encode_cp cp = bs -> scalar_cp cp -> P r' ->
     utf8_decode (bs ++ r') = cp :: utf8_decode r' -> P (bs ++ r')) ->
  forall s, P s.
Proof.
  intros H0 Hs s. induction s as [s IH] using (induction_ltof1 _ (@length ascii)). unfold ltof in IH.
  destruct s as [|b0 r]; [exact H0 |].
  destruct (utf8_decode_step b0 r) as (cp & bs & r' & Heq & Hne & Hd & He & Hc).
  rewrite Heq in Hd |- *. apply (Hs cp bs r'); auto.
  apply IH. rewrite Heq, length_app. destruct bs; [congruence | simpl; lia].
Qed.

(** ** Theorems *)

(** Encoding what was decoded gives the bytes back. *)
Theorem utf8_encode_decode (s : list ascii) : utf8_encode (utf8_decode s) = s.
Proof.
  induction s as [|cp bs r' _ Henc _ IH Hd] using utf8_decode_ind; [reflexivity |].
  rewrite Hd, utf8_encode_cons, Henc, IH. reflexivity.
Qed.

(** Every decoded code point is a scalar value or an escaped byte. *)
Lemma utf8_decode_scalar (s : list ascii) : Forall scalar_cp (utf8_decode s).
Proof.
  induction s as [|cp bs r' _ _ Hsc IH Hd] using utf8_decode_ind; [constructor |].
  rewrite Hd. constructor; assumption.
Qed.

(** ASCII text decodes to itself and is valid. *)
Lemma utf8_decode_ascii (t : list Z) :
  Forall (fun c => 0 <= c < 0x80) t -> utf8_decode (utf8_encode t) = t /\ utf8_valid (utf8_encode t) = true.
Proof.
  induction 1 as [|c t Hc _ [IH IV]]; [split; reflexivity |].
  assert (E : encode_cp c = [of_byte c]) by (unfold encode_cp; decide_ifs; reflexivity).
  assert (B : byte (of_byte c) = c) by (unfold byte, of_byte; rewrite nat_ascii_embedding; lia).
  unfold utf8_valid in *. rewrite utf8_encode_cons, E. cbn [app utf8_decode]. rewrite B.
  destruct (c <? 0x80) eqn:Hl; zbool; [| lia].
  rewrite IH in IV |- *. cbn [forallb]. rewrite IV.
  unfold in_range. rewrite (proj2 (Z.leb_gt 0xDC80 c)) by lia. split; reflexivity.
Qed.
