(* ===== verification/Json.v ===== *)
(** * Python's view of decoded JSON

    [json.load] and [response.json()] turn a JSON document into Python
    values: [None], [bool], [int], [str], [list] and [dict]. The program
    applies a handful of Python operations to these values: truthiness,
    [dict.get], the [in] operator, [d[k]], [> 0], [==], [len] and [for]
    iteration. Each of them raises on some types. This file gives the value
    type, its induction principle and decidable equality, and one definition
    per Python operation with the exception it raises on the wrong type. *)

From Stdlib Require Import String Ascii ZArith List Bool Lia.
From stdpp Require Import base decidable.
From S2P Require Import Prelude Unicode.
Import ListNotations.
Open Scope string_scope.

(** ** Values *)

Unset Elimination Schemes.
(** A decoded JSON value. An object keeps its entries in insertion order,
    as a Python dict does. *)
Inductive json : Type :=
| JNull
| JBool (b : bool)
| JInt (z : Z)
| JStr (s : string)
| JArr (l : list json)
| JObj (o : list (string * json)).
Set Elimination Schemes.

(** The induction principle for the nested type: the hypothesis for an
    array or object holds for every element or entry value. *)
Definition json_ind (P : json -> Prop)
  (HNull : P JNull)
  (HBool : forall b, P (JBool b))
  (HInt : forall z, P (JInt z))
  (HStr : forall s, P (JStr s))
  (HArr : forall l, Forall P l -> P (JArr l))
  (HObj : forall o, Forall (fun kv => P (snd kv)) o -> P (JObj o)) :
  forall v, P v :=
  fix go (v : json) : P v :=
    match v with
    | JNull => HNull
    | JBool b => HBool b
    | JInt z => HInt z
    | JStr s => HStr s
    | JArr l =>
        HArr l ((fix go_l (l : list json) : Forall P l :=
                   match l with
                   | [] => @Forall_nil _ P
                   | x :: l' => @Forall_cons _ P x l' (go x) (go_l l')
                   end) l)
    | JObj o =>
        HObj o ((fix go_o (o : list (string * json)) :
                   Forall (fun kv => P (snd kv)) o :=
                   match o with
                   | [] => @Forall_nil _ _
                   | kv :: o' => @Forall_cons _ (fun kv => P (snd kv)) kv o' (go (snd kv)) (go_o o')
                   end) o)
    end.

(** Structural equality, as a boolean function. *)
Fixpoint json_eqb (x y : json) : bool :=
  match x, y with
  | JNull, JNull => true
  | JBool a, JBool b => Bool.eqb a b
  | JInt a, JInt b => Z.eqb a b
  | JStr a, JStr b => String.eqb a b
  | JArr l1, JArr l2 =>
      (fix go (l1 l2 : list json) : bool :=
         match l1, l2 with
         | [], [] => true
         | a :: l1', b :: l2' => json_eqb a b && go l1' l2'
         | _, _ => false
         end) l1 l2
  | JObj o1, JObj o2 =>
      (fix go (o1 o2 : list (string * json)) : bool :=
         match o1, o2 with
         | [], [] => true
         | (k1, a) :: o1', (k2, b) :: o2' =>
             String.eqb k1 k2 && json_eqb a b && go o1' o2'
         | _, _ => false
         end) o1 o2
  | _, _ => false
  end.

Lemma json_eqb_eq (x y : json) : json_eqb x y = true <-> x = y.
Proof.
  revert y. induction x as [| b | z | s | l IH | o IH] using json_ind;
    intros [| b' | z' | s' | l' | o']; simpl;
    try (split; [discriminate | congruence]).
  - tauto.
  - rewrite Bool.eqb_true_iff. split; congruence.
  - rewrite Z.eqb_eq. split; congruence.
  - rewrite String.eqb_eq. split; congruence.
  - revert l'. induction IH as [| x l Hx Hl IHl]; intros [| y l'];
      try (split; [discriminate | congruence]); [tauto |].
    rewrite andb_true_iff, Hx, IHl. split; [intros [-> H]; congruence |].
    intros H; injection H as -> ->; auto.
  - revert o'. induction IH as [| [k x] o Hx Ho IHo]; intros [| [k' y] o'];
      try (split; [discriminate | congruence]); [tauto |].
    simpl in Hx. rewrite !andb_true_iff, String.eqb_eq, Hx, IHo.
    split; [intros [[-> ->] H]; congruence |].
    intros H; injection H as -> -> ->; auto.
Qed.

#[export] Instance json_eq_dec : EqDecision json.
Proof.
  intros x y. destruct (json_eqb x y) eqn:E.
  - left. apply json_eqb_eq, E.
  - right. intros H. apply json_eqb_eq in H. congruence.
Defined.

(** ** Python operations on values *)

(** First entry of an object with key [k]. *)
Fixpoint assoc_lookup (k : string) (o : list (string * json)) : option json :=
  match o with
  | [] => None
  | (k', v) :: o' => if String.eqb k k' then Some v else assoc_lookup k o'
  end.

(** [bool(v)]: [None], [False], [0], [""], [[]] and [{}] are false. *)
Definition py_truthy (v : json) : bool :=
  match v with
  | JNull => false
  | JBool b => b
  | JInt z => negb (Z.eqb z 0)
  | JStr s => negb (String.eqb s "")
  | JArr l => match l with [] => false | _ => true end
  | JObj o => match o with [] => false | _ => true end
  end.

(** [d.get(k, default)]: only a dict has [get]. *)
Definition py_get (d : json) (k : string) (default : json) : result json :=
  match d with
  | JObj o =>
      match assoc_lookup k o with
      | Some v => Ok v
      | None => Ok default
      end
  | _ => raise AttributeError
  end.

(** [needle in hay] on two strings: substring test ([""] is in every
    string). *)
Definition str_contains (needle hay : string) : bool :=
  match String.index 0 needle hay with
  | Some _ => true
  | None => false
  end.

(** [v == s] for a string literal [s]: only an equal string compares
    equal. *)
Definition py_eq_str (v : json) (s : string) : bool :=
  match v with
  | JStr s' => String.eqb s' s
  | _ => false
  end.

(** [v == True]: Python's [bool] is a subclass of [int], so [1 == True]. *)
Definition py_eq_true (v : json) : bool :=
  match v with
  | JBool b => b
  | JInt z => Z.eqb z 1
  | _ => false
  end.

(** [k in c] for a string [k]: a key test on a dict, a substring test on a
    string, an element test on a list; [TypeError] on [None], a [bool] or an
    [int] ("argument of type ... is not iterable"). *)
Definition py_in (k : string) (c : json) : result bool :=
  match c with
  | JObj o => Ok (match assoc_lookup k o with Some _ => true | None => false end)
  | JStr s => Ok (str_contains k s)
  | JArr l => Ok (existsb (fun v => py_eq_str v k) l)
  | _ => raise TypeError
  end.

(** [c[k]] for a string [k]: [KeyError] on a dict without [k];
    [TypeError] on every other type ("string indices must be integers",
    "'NoneType' object is not subscriptable", ...). *)
Definition py_getitem (c : json) (k : string) : result json :=
  match c with
  | JObj o =>
      match assoc_lookup k o with
      | Some v => Ok v
      | None => raise KeyError
      end
  | _ => raise TypeError
  end.

(** [v > 0]: defined on [int] and [bool]; [TypeError] on [None], [str],
    [list] and [dict]. *)
Definition py_gt_zero (v : json) : result bool :=
  match v with
  | JInt z => Ok (Z.ltb 0 z)
  | JBool b => Ok b
  | _ => raise TypeError
  end.

(** A [JStr] holds the UTF-8 bytes of a Python [str] (with
    [surrogateescape], see Unicode.v). The [str] itself is the sequence of
    its code points, which is what [len], iteration and slicing see. *)
Definition py_chars (s : string) : list Z := utf8_decode (list_ascii_of_string s).

(** The [str] of a sequence of code points, as bytes. *)
Definition of_chars (cps : list Z) : string := string_of_list_ascii (utf8_encode cps).

(** [len(v)]: defined on [str] (its code points), [list] and [dict]. *)
Definition py_len (v : json) : result nat :=
  match v with
  | JStr s => Ok (length (py_chars s))
  | JArr l => Ok (length l)
  | JObj o => Ok (length o)
  | _ => raise TypeError
  end.

(** [for x in v]: a list yields its elements, a dict its keys, a string its
    code points, each a one-character [str]; other types are not
    iterable. *)
Definition py_iter (v : json) : result (list json) :=
  match v with
  | JArr l => Ok l
  | JObj o => Ok (map (fun kv => JStr (fst kv)) o)
  | JStr s => Ok (map (fun cp => JStr (of_chars [cp])) (py_chars s))
  | _ => raise TypeError
  end.

(** The value [dict.get(k, d)] returns on a dict with entries [o]. *)
Definition field (o : list (string * json)) (k : string) (d : json) : json :=
  match assoc_lookup k o with Some v => v | None => d end.

(** A value is a dict. *)
Definition is_dict (v : json) : bool :=
  match v with JObj _ => true | _ => false end.

(** ** Lemmas *)

Lemma py_get_obj (o : list (string * json)) (k : string) (d : json) :
  py_get (JObj o) k d = Ok (match assoc_lookup k o with Some v => v | None => d end).
Proof. simpl. destruct (assoc_lookup k o); reflexivity. Qed.

Lemma py_get_field (o : list (string * json)) (k : string) (d : json) :
  py_get (JObj o) k d = Ok (field o k d).
Proof. unfold field. apply py_get_obj. Qed.

Lemma py_get_not_dict (v : json) (k : string) (d : json) :
  is_dict v = false -> py_get v k d = Err AttributeError.
Proof. destruct v; simpl; congruence. Qed.

Lemma py_get_Ok_dict (v : json) (k : string) (d r : json) :
  py_get v k d = Ok r -> is_dict v = true.
Proof. destruct v; simpl; congruence. Qed.

Lemma py_in_obj (o : list (string * json)) (k : string) :
  py_in k (JObj o) = Ok (match assoc_lookup k o with Some _ => true | None => false end).
Proof. reflexivity. Qed.

Lemma py_getitem_obj_present (o : list (string * json)) (k : string) (v : json) :
  assoc_lookup k o = Some v -> py_getitem (JObj o) k = Ok v.
Proof. simpl. intros ->. reflexivity. Qed.

Lemma assoc_lookup_head (k : string) (v : json) (o : list (string * json)) :
  assoc_lookup k ((k, v) :: o) = Some v.
Proof. simpl. rewrite String.eqb_refl. reflexivity. Qed.

Lemma py_truthy_str (s : string) : py_truthy (JStr s) = false <-> s = "".
Proof.
  simpl. destruct (String.eqb_spec s ""); simpl; split; congruence.
Qed.

Lemma string_of_list_ascii_app (a b : list ascii) :
  string_of_list_ascii (a ++ b) = (string_of_list_ascii a ++ string_of_list_ascii b)%string.
Proof. induction a as [|c a IH]; simpl; [reflexivity | rewrite IH; reflexivity]. Qed.

Lemma of_chars_app (a b : list Z) : of_chars (a ++ b) = (of_chars a ++ of_chars b)%string.
Proof. unfold of_chars, utf8_encode. rewrite flat_map_app. apply string_of_list_ascii_app. Qed.

(** The [str] of the code points of a [JStr] is the [JStr] itself. *)
Lemma of_chars_py_chars (s : string) : of_chars (py_chars s) = s.
Proof. unfold of_chars, py_chars. rewrite utf8_encode_decode. apply string_of_list_ascii_of_string. Qed.

(** Joining the [str]s of consecutive pieces is the [str] of the whole. *)
Lemma concat_of_chars (bs : list (list Z)) :
  String.concat "" (map of_chars bs) = of_chars (concat bs).
Proof.
  induction bs as [|b [|b' bs] IH]; [reflexivity | simpl; rewrite app_nil_r; reflexivity |].
  change (String.concat "" (map of_chars (b :: b' :: bs)))
    with (of_chars b ++ String.concat "" (map of_chars (b' :: bs)))%string.
  rewrite IH, <- of_chars_app. reflexivity.
Qed.

(** ** Substrings *)

Lemma substring_prefix (s b : string) : substring 0 (String.length s) (s ++ b) = s.
Proof. induction s as [|c s IH]; simpl; [destruct b; reflexivity | rewrite IH; reflexivity]. Qed.

Lemma substring_app (a s b : string) :
  substring (String.length a) (String.length s) (a ++ s ++ b) = s.
Proof. induction a as [|c a IH]; [exact (substring_prefix s b) | exact IH]. Qed.

(** A non-empty string occurs in any string built around it. *)
Lemma str_contains_app (s a b : string) : s <> EmptyString -> str_contains s (a ++ s ++ b) = true.
Proof.
  intros Hs. unfold str_contains.
  destruct (String.index 0 s (a ++ s ++ b)) eqn:E; [reflexivity | exfalso].
  exact (index_correct3 0 (String.length a) s _ E Hs (Nat.le_0_l _) (substring_app a s b)).
Qed.

(** A non-empty string that occurs in another is found there. *)
Lemma str_contains_occurs (s hay : string) :
  s <> EmptyString -> occurs_in s hay -> str_contains s hay = true.
Proof. intros Hs (pre & post & ->). apply str_contains_app, Hs. Qed.

Lemma substring_app_l (a b : string) (m k : nat) :
  substring (String.length a + m) k (a ++ b) = substring m k b.
Proof. induction a as [|c a IH]; [reflexivity | exact IH]. Qed.

(** What a string contains, its extensions contain. *)
Lemma str_contains_app_r (s a b : string) :
  str_contains s b = true -> str_contains s (a ++ b) = true.
Proof.
  unfold str_contains. intros Hb.
  destruct (String.index 0 s b) as [m|] eqn:Eb; [|discriminate].
  destruct (String.index 0 s (a ++ b)) eqn:E; [reflexivity | exfalso].
  destruct s as [|c s]; [destruct (a ++ b); discriminate E |].
  apply (index_correct3 0 (String.length a + m) _ _ E ltac:(discriminate) (Nat.le_0_l _)).
  rewrite substring_app_l. exact (index_correct1 _ _ _ _ Eb).
Qed.

#[export] Hint Rewrite py_get_field py_in_obj assoc_lookup_head : pyrun.
#[export] Hint Resolve py_get_Ok_dict py_get_not_dict : pyrun.
