(* ===== verification/JsonText.v ===== *)
(** * JsonText: the text of [output/library_backup.json]

    [save_json_backup] writes the API's answer with
    [json.dump(data, f, indent=2)] to a file opened with
    [encoding='utf-8'], and [load_backup] reads it back with
    [json.load(f)] from a file opened with [encoding='utf-8']. This file
    models both ends at the level of text:

    - the encoder of [json.dump] with [indent=2] (the pure-Python
      [_make_iterencode] that [indent] selects, with [ensure_ascii=True],
      [item_separator=','] and [key_separator=': ']). A [str] is escaped
      code point by code point ([py_encode_basestring_ascii]), an integer
      is its [repr], which raises [ValueError] past 4300 digits;
    - the reader: strict UTF-8 decoding and the universal-newline
      translation of [open(..., 'r')], then [json.loads]: the BOM check,
      [scan_once], [_parse_object] and [_parse_array] of the C scanner,
      [scanstring] with its surrogate pairs, and the number grammar with
      the 4300-digit limit of [int()].

    The model's [json] has no floats. What a float literal (with a
    fraction or an exponent, or [NaN], [Infinity], [-Infinity]) decodes
    to is left open as the parameter [parse_float]. A string of the model
    is bytes and a Python [str] is code points; they correspond by
    [Unicode.utf8_decode] and [Unicode.utf8_encode].

    The theorem is the roundtrip: a value whose dicts have distinct keys
    and whose integers have at most 4300 digits is dumped without error,
    and reading the file back gives the same value. *)

From Stdlib Require Import String Ascii ZArith List Bool Lia.
From S2P Require Import Prelude Json Unicode.
Import ListNotations.
Local Open Scope Z_scope.
Local Open Scope list_scope.

(** ** Text *)

(** A Python [str] is a list of code points; [str s] is the one written
    by the ASCII literal [s]. *)
Definition str (s : string) : list Z := map byte (list_ascii_of_string s).

Definition is_ws (c : Z) : bool := (c =? 32) || (c =? 9) || (c =? 10) || (c =? 13).
Definition is_digit (c : Z) : bool := in_range 48 57 c.

(** [sys.get_int_max_str_digits()], the default of CPython 3.11 and later. *)
Definition INT_MAX_STR_DIGITS : Z := 4300.

Definition MSG_INT_REPR : string :=
  "Exceeds the limit (4300 digits) for integer string conversion; use sys.set_int_max_str_digits() to increase the limit".

(** ** The encoder *)

(** A lower-case hex digit, as [format(n, '04x')] writes it. *)
Definition hex_digit (d : Z) : Z := if d <? 10 then 48 + d else 87 + d.

Definition hex4 (n : Z) : list Z :=
  map hex_digit [n / 4096 mod 16; n / 256 mod 16; n / 16 mod 16; n mod 16].

(** One code point of [py_encode_basestring_ascii]: the entries of
    [ESCAPE_DCT], the printable ASCII characters as they are, and
    [\uXXXX], with a surrogate pair above [U+FFFF]. *)
Definition escape_cp (c : Z) : list Z :=
  if c =? 34 then [92; 34]
  else if c =? 92 then [92; 92]
  else if c =? 8 then [92; 98]
  else if c =? 12 then [92; 102]
  else if c =? 10 then [92; 110]
  else if c =? 13 then [92; 114]
  else if c =? 9 then [92; 116]
  else if in_range 32 126 c then [c]
  else if c <? 0x10000 then 92 :: 117 :: hex4 c
  else let n := c - 0x10000 in
       92 :: 117 :: hex4 (0xD800 + n / 1024) ++ 92 :: 117 :: hex4 (0xDC00 + n mod 1024).

(** [encode_basestring_ascii(s)]: the quoted, escaped string. *)
Definition encode_string (s : string) : list Z :=
  34 :: flat_map escape_cp (utf8_decode (list_ascii_of_string s)) ++ [34].

(** The decimal digits of [n >= 0], most significant first; [fuel] bounds
    their number. *)
Fixpoint digits_go (fuel : nat) (n : Z) : list Z :=
  match fuel with
  | O => []
  | S f => if n <? 10 then [48 + n] else digits_go f (n / 10) ++ [48 + n mod 10]
  end.

(** A number below [2 ^ k] has at most [k] decimal digits. *)
Definition dec_digits (n : Z) : list Z := digits_go (S (Z.to_nat (Z.log2 n))) n.

(** [int.__repr__(z)]. *)
Definition int_repr (z : Z) : result (list Z) :=
  let ds := dec_digits (Z.abs z) in
  if INT_MAX_STR_DIGITS <? Z.of_nat (length ds) then raise (ValueError MSG_INT_REPR)
  else Ok (if z <? 0 then 45 :: ds else ds).

(** [_indent * level] after a line break. *)
Definition newline_indent (level : nat) : list Z := 10 :: concat (repeat (str "  ") level).

(** The chunks of a non-empty container joined as [_iterencode_list] and
    [_iterencode_dict] yield them. *)
Definition join_items (level : nat) (items : list (list Z)) : list Z :=
  match items with
  | [] => []
  | i :: rest => i ++ concat (map (fun x => 44 :: newline_indent (S level) ++ x) rest)
  end.

Definition container (open close : Z) (level : nat) (items : list (list Z)) : list Z :=
  open :: newline_indent (S level) ++ join_items level items ++ newline_indent level ++ [close].

(** [_iterencode(o, _current_indent_level)]. *)
Fixpoint iterencode (level : nat) (v : json) : result (list Z) :=
  match v with
  | JNull => Ok (str "null")
  | JBool true => Ok (str "true")
  | JBool false => Ok (str "false")
  | JInt z => int_repr z
  | JStr s => Ok (encode_string s)
  | JArr [] => Ok (str "[]")
  | JArr l =>
      let* items := mapM (iterencode (S level)) l in
      Ok (container 91 93 level items)
  | JObj [] => Ok (str "{}")
  | JObj o =>
      let* items := mapM (fun kv => let* t := iterencode (S level) (snd kv) in
                                    Ok (encode_string (fst kv) ++ str ": " ++ t)) o in
      Ok (container 123 125 level items)
  end.

(** [json.dump(data, f, indent=2)]: the text of the file, written as UTF-8. *)
Definition json_dump (data : json) : result string :=
  let* t := iterencode 0 data in
  Ok (string_of_list_ascii (utf8_encode t)).

(** The keys of a dict are distinct. *)
Fixpoint keys_distinct (ks : list string) : bool :=
  match ks with
  | [] => true
  | k :: ks' => negb (existsb (String.eqb k) ks') && keys_distinct ks'
  end.

(** A value that is a Python object: every dict in it has distinct keys.
    A [JObj] with a repeated key is not one. *)
Fixpoint distinct_keys (v : json) : bool :=
  match v with
  | JArr l => forallb distinct_keys l
  | JObj o => keys_distinct (map fst o) && forallb (fun kv => distinct_keys (snd kv)) o
  | _ => true
  end.

(** Every integer of the value has at most 4300 digits. *)
Fixpoint ints_fit (v : json) : bool :=
  match v with
  | JInt z => Z.of_nat (length (dec_digits (Z.abs z))) <=? INT_MAX_STR_DIGITS
  | JArr l => forallb ints_fit l
  | JObj o => forallb (fun kv => ints_fit (snd kv)) o
  | _ => true
  end.

(** ** The reader *)

(** [open(filepath, 'r')] with universal newlines: [\r\n] and a lone [\r]
    are read as [\n]. *)
Fixpoint translate_newlines (s : list Z) : list Z :=
  match s with
  | [] => []
  | c :: r =>
      if c =? 13 then
        match r with
        | d :: r' => if d =? 10 then 10 :: translate_newlines r' else 10 :: translate_newlines r
        | [] => [10]
        end
      else c :: translate_newlines r
  end.

(** [f.read()] on a file opened with [encoding='utf-8']: a byte that is
    not valid UTF-8 raises [UnicodeDecodeError], a [ValueError]; the
    model's message does not give the byte and its position. *)
Definition MSG_UTF8 : string := "'utf-8' codec can't decode byte".

Definition read_text (bytes : string) : result (list Z) :=
  let b := list_ascii_of_string bytes in
  if utf8_valid b then Ok (translate_newlines (utf8_decode b)) else raise (ValueError MSG_UTF8).

Fixpoint skip_ws (s : list Z) : list Z :=
  match s with
  | c :: r => if is_ws c then skip_ws r else s
  | [] => []
  end.

(** [p] is a prefix of [s]: the rest of [s]. *)
Fixpoint strip_prefix (p s : list Z) : option (list Z) :=
  match p, s with
  | [], _ => Some s
  | c :: p', d :: s' => if c =? d then strip_prefix p' s' else None
  | _ :: _, [] => None
  end.

Definition hex_value (c : Z) : option Z :=
  if in_range 48 57 c then Some (c - 48)
  else if in_range 97 102 c then Some (c - 87)
  else if in_range 65 70 c then Some (c - 55)
  else None.

(** [_decode_uXXXX]: four hex digits, in either case. *)
Definition decode_hex4 (a b c d : Z) : option Z :=
  match hex_value a, hex_value b, hex_value c, hex_value d with
  | Some x, Some y, Some z, Some w => Some (((x * 16 + y) * 16 + z) * 16 + w)
  | _, _, _, _ => None
  end.

(** [BACKSLASH]: the one-character escapes. *)
Definition simple_escape (e : Z) : option Z :=
  if e =? 34 then Some 34 else if e =? 92 then Some 92 else if e =? 47 then Some 47
  else if e =? 98 then Some 8 else if e =? 102 then Some 12 else if e =? 110 then Some 10
  else if e =? 114 then Some 13 else if e =? 116 then Some 9 else None.

Definition combine_surrogates (hi lo : Z) : Z := 0x10000 + (hi - 0xD800) * 1024 + (lo - 0xDC00).

(** [scanstring(s, end, strict=True)] after the opening quote: the code
    points read so far are [acc]. A raw control character, an unknown
    escape, a bad [\uXXXX] and a missing closing quote raise
    [JSONDecodeError]. A high surrogate followed by [\u] and a low
    surrogate is one code point. *)
Fixpoint scan_string (s : list Z) (acc : list Z) : result (list Z * list Z) :=
  match s with
  | [] => raise JSONDecodeError
  | c :: r =>
      if c =? 34 then Ok (acc, r)
      else if c =? 92 then
        match r with
        | [] => raise JSONDecodeError
        | e :: r1 =>
            if e =? 117 then
              match r1 with
              | a :: b :: c' :: d :: r2 =>
                  match decode_hex4 a b c' d with
                  | None => raise JSONDecodeError
                  | Some uni =>
                      if in_range 0xD800 0xDBFF uni then
                        match r2 with
                        | bs :: u :: a2 :: b2 :: c2 :: d2 :: r3 =>
                            if (bs =? 92) && (u =? 117) then
                              match decode_hex4 a2 b2 c2 d2 with
                              | None => raise JSONDecodeError
                              | Some uni2 =>
                                  if in_range 0xDC00 0xDFFF uni2
                                  then scan_string r3 (acc ++ [combine_surrogates uni uni2])
                                  else scan_string r2 (acc ++ [uni])
                              end
                            else scan_string r2 (acc ++ [uni])
                        | _ => scan_string r2 (acc ++ [uni])
                        end
                      else scan_string r2 (acc ++ [uni])
                  end
              | _ => raise JSONDecodeError
              end
            else
              match simple_escape e with
              | Some x => scan_string r1 (acc ++ [x])
              | None => raise JSONDecodeError
              end
        end
      else if c <? 32 then raise JSONDecodeError
      else scan_string r (acc ++ [c])
  end.

Fixpoint span_digits (s : list Z) : list Z * list Z :=
  match s with
  | c :: r => if is_digit c then let (ds, rest) := span_digits r in (c :: ds, rest) else ([], s)
  | [] => ([], [])
  end.

(** The three groups of [NUMBER_RE]: the integer part (an optional
    minus, then [0] or a non-zero digit and more digits), an optional
    fraction (a dot and digits) and an optional exponent ([e] or [E], an
    optional sign, digits). *)
Definition match_int (s : list Z) : option (list Z * list Z) :=
  let '(sign, s1) := match s with c :: r => if c =? 45 then ([45], r) else ([], s) | [] => ([], []) end in
  match s1 with
  | c :: r =>
      if c =? 48 then Some (sign ++ [c], r)
      else if in_range 49 57 c then let (ds, rest) := span_digits r in Some (sign ++ c :: ds, rest)
      else None
  | [] => None
  end.

Definition match_frac (s : list Z) : option (list Z * list Z) :=
  match s with
  | c :: d :: r => if (c =? 46) && is_digit d then let (ds, rest) := span_digits r in Some (c :: d :: ds, rest) else None
  | _ => None
  end.

Definition match_exp (s : list Z) : option (list Z * list Z) :=
  match s with
  | e :: r =>
      if (e =? 101) || (e =? 69) then
        let '(sg, r1) := match r with c :: r' => if (c =? 43) || (c =? 45) then ([c], r') else ([], r) | [] => ([], []) end in
        match r1 with
        | d :: r2 => if is_digit d then let (ds, rest) := span_digits r2 in Some (e :: sg ++ d :: ds, rest) else None
        | [] => None
        end
      else None
  | [] => None
  end.

(** The value of a string of decimal digits. *)
Definition digits_value (ds : list Z) : Z := fold_left (fun acc d => acc * 10 + (d - 48)) ds 0.

Definition MSG_INT_PARSE (n : nat) : string :=
  "Exceeds the limit (4300 digits) for integer string conversion: value has " ++
  string_of_list_ascii (map of_byte (dec_digits (Z.of_nat n))) ++
  " digits; use sys.set_int_max_str_digits() to increase the limit".

(** [int(integer)]: the digits without the sign are counted against the limit. *)
Definition parse_int (numstr : list Z) : result json :=
  let '(neg, ds) := match numstr with c :: r => if c =? 45 then (true, r) else (false, numstr) | [] => (false, []) end in
  if INT_MAX_STR_DIGITS <? Z.of_nat (length ds) then raise (ValueError (MSG_INT_PARSE (length ds)))
  else Ok (JInt (if neg then - digits_value ds else digits_value ds)).

(** [dict[key] = value]: a new key goes last, a repeated key keeps its
    place and takes the new value. *)
Fixpoint dict_setitem (o : list (string * json)) (k : string) (v : json) : list (string * json) :=
  match o with
  | [] => [(k, v)]
  | (k', v') :: o' => if String.eqb k k' then (k', v) :: o' else (k', v') :: dict_setitem o' k v
  end.

(** A decoded [str] as a string of the model. *)
Definition to_string (cps : list Z) : string := string_of_list_ascii (utf8_encode cps).

Section Decoder.

(** [parse_float] and [parse_constant]: what a float literal becomes. *)
Variable parse_float : list Z -> json.

(** [match_number]: an integer goes through [int()], a literal with a
    fraction or an exponent through [parse_float]. [None] is
    [StopIteration]: no number starts here. *)
Definition scan_number (s : list Z) : option (result (json * list Z)) :=
  match match_int s with
  | None => None
  | Some (integer, r1) =>
      let '(frac, r2) := match match_frac r1 with Some p => p | None => ([], r1) end in
      let '(exp, r3) := match match_exp r2 with Some p => p | None => ([], r2) end in
      Some (match frac, exp with
            | [], [] => let* v := parse_int integer in Ok (v, r3)
            | _, _ => Ok (parse_float (integer ++ frac ++ exp), r3)
            end)
  end.

(** The named constants of [scan_once]: [null], [true], [false], [NaN],
    [Infinity] and [-Infinity]. *)
Definition scan_constant (s : list Z) : option (json * list Z) :=
  match strip_prefix (str "null") s with Some r => Some (JNull, r) | None =>
  match strip_prefix (str "true") s with Some r => Some (JBool true, r) | None =>
  match strip_prefix (str "false") s with Some r => Some (JBool false, r) | None =>
  match strip_prefix (str "NaN") s with Some r => Some (parse_float (str "NaN"), r) | None =>
  match strip_prefix (str "Infinity") s with Some r => Some (parse_float (str "Infinity"), r) | None =>
  match strip_prefix (str "-Infinity") s with Some r => Some (parse_float (str "-Infinity"), r) | None =>
  None end end end end end end.

(** [scan_once(s, idx)], [_parse_array] and [_parse_object] of the C
    scanner. [parse_array] and [parse_object] start at an element or a
    key, after the opening bracket and its whitespace; [acc] holds what
    was read. A dict is built by [dict_setitem]. [fuel] bounds the depth
    of the calls; [json_loads] gives enough. *)
Fixpoint scan_once (fuel : nat) (s : list Z) {struct fuel} : result (json * list Z) :=
  match fuel with
  | O => raise JSONDecodeError
  | S f =>
      match s with
      | [] => raise JSONDecodeError
      | c :: r =>
          if c =? 34 then let*' (cps, rest) := scan_string r [] in Ok (JStr (to_string cps), rest)
          else if c =? 123 then
            match skip_ws r with
            | d :: r' => if d =? 125 then Ok (JObj [], r') else parse_object f (skip_ws r) []
            | [] => raise JSONDecodeError
            end
          else if c =? 91 then
            match skip_ws r with
            | d :: r' => if d =? 93 then Ok (JArr [], r') else parse_array f (skip_ws r) []
            | [] => raise JSONDecodeError
            end
          else
            match scan_constant s with
            | Some (v, rest) => Ok (v, rest)
            | None => match scan_number s with Some res => res | None => raise JSONDecodeError end
            end
      end
  end

with parse_array (fuel : nat) (s : list Z) (acc : list json) {struct fuel} : result (json * list Z) :=
  match fuel with
  | O => raise JSONDecodeError
  | S f =>
      let*' (v, r) := scan_once f s in
      match skip_ws r with
      | c :: r' =>
          if c =? 93 then Ok (JArr (acc ++ [v]), r')
          else if c =? 44 then parse_array f (skip_ws r') (acc ++ [v])
          else raise JSONDecodeError
      | [] => raise JSONDecodeError
      end
  end

with parse_object (fuel : nat) (s : list Z) (acc : list (string * json)) {struct fuel}
  : result (json * list Z) :=
  match fuel with
  | O => raise JSONDecodeError
  | S f =>
      match s with
      | c :: r =>
          if c =? 34 then
            let*' (k, r1) := scan_string r [] in
            match skip_ws r1 with
            | d :: r2 =>
                if d =? 58 then
                  let*' (v, r3) := scan_once f (skip_ws r2) in
                  let acc' := dict_setitem acc (to_string k) v in
                  match skip_ws r3 with
                  | e :: r4 =>
                      if e =? 125 then Ok (JObj acc', r4)
                      else if e =? 44 then parse_object f (skip_ws r4) acc'
                      else raise JSONDecodeError
                  | [] => raise JSONDecodeError
                  end
                else raise JSONDecodeError
            | [] => raise JSONDecodeError
            end
          else raise JSONDecodeError
      | [] => raise JSONDecodeError
      end
  end.

(** [json.loads(s)]: the BOM check, then [JSONDecoder.decode]: a value
    between whitespace and nothing after it. Every call of the scanner
    reads a character before the next but one, so [2 * length s + 1]
    calls are enough. *)
Definition json_loads (s : list Z) : result json :=
  if match s with c :: _ => c =? 0xFEFF | [] => false end then raise JSONDecodeError else
  let*' (v, rest) := scan_once (S (2 * length s)) (skip_ws s) in
  match skip_ws rest with [] => Ok v | _ => raise JSONDecodeError end.

(** [json.load(f)] on a file opened with [encoding='utf-8']. *)
Definition json_load (bytes : string) : result json :=
  let* s := read_text bytes in json_loads s.

End Decoder.

(** ** Lemmas: strings *)

Lemma hex_value_digit (d : Z) : 0 <= d < 16 -> hex_value (hex_digit d) = Some d.
Proof.
  intros. unfold hex_digit. destruct (d <? 10) eqn:E; zbool;
  unfold hex_value, in_range; decide_ifs; f_equal; lia.
Qed.

Lemma decode_hex4_hex4 (n : Z) :
  0 <= n < 0x10000 ->
  decode_hex4 (hex_digit (n / 4096 mod 16)) (hex_digit (n / 256 mod 16))
              (hex_digit (n / 16 mod 16)) (hex_digit (n mod 16)) = Some n.
Proof.
  intros Hn. unfold decode_hex4. rewrite !hex_value_digit by zdiv. f_equal. zdiv.
Qed.

(** A [\uXXXX] escape that is not a high surrogate. *)
Lemma scan_string_u (a b c d uni : Z) (s acc : list Z) :
  decode_hex4 a b c d = Some uni -> in_range 0xD800 0xDBFF uni = false ->
  scan_string (92 :: 117 :: a :: b :: c :: d :: s) acc = scan_string s (acc ++ [uni]).
Proof. intros Hu Hr. simpl. rewrite Hu, Hr. reflexivity. Qed.

(** A surrogate pair of escapes is one code point. *)
Lemma scan_string_pair (a b c d a2 b2 c2 d2 hi lo : Z) (s acc : list Z) :
  decode_hex4 a b c d = Some hi -> in_range 0xD800 0xDBFF hi = true ->
  decode_hex4 a2 b2 c2 d2 = Some lo -> in_range 0xDC00 0xDFFF lo = true ->
  scan_string (92 :: 117 :: a :: b :: c :: d :: 92 :: 117 :: a2 :: b2 :: c2 :: d2 :: s) acc =
  scan_string s (acc ++ [combine_surrogates hi lo]).
Proof. intros Hh Hr Hl Hr'. simpl. rewrite Hh, Hr, Hl, Hr'. reflexivity. Qed.

Lemma in_range_true (lo hi x : Z) : lo <= x <= hi -> in_range lo hi x = true.
Proof. intros. unfold in_range. apply andb_true_iff. split; apply Z.leb_le; lia. Qed.

Lemma in_range_false (lo hi x : Z) : ~ (lo <= x <= hi) -> in_range lo hi x = false.
Proof. intros H. unfold in_range. apply andb_false_iff. destruct (Z.leb_spec lo x); [right | left]; apply Z.leb_gt || reflexivity; lia. Qed.

(** The reader undoes the escape of one code point of a [str]. *)
Lemma scan_escape_cp (cp : Z) (s acc : list Z) :
  scalar_cp cp -> scan_string (escape_cp cp ++ s) acc = scan_string s (acc ++ [cp]).
Proof.
  intros [Hb Hs]. unfold escape_cp. decide_ifs; subst; try reflexivity.
  all: try (simpl; decide_ifs; reflexivity).
  all: cbn [app]; try rewrite <- app_assoc; unfold hex4; cbn [map app].
  all: first
    [ apply scan_string_u; [apply decode_hex4_hex4; lia | apply in_range_false; lia]
    | rewrite (scan_string_pair _ _ _ _ _ _ _ _ (0xD800 + (cp - 0x10000) / 1024) (0xDC00 + (cp - 0x10000) mod 1024))
        by (first [apply decode_hex4_hex4 | apply in_range_true]; zdiv);
      unfold combine_surrogates; do 3 f_equal; zdiv ].
Qed.

(** A string as [encode_basestring_ascii] escaped it, up to its closing
    quote. *)
Lemma scan_string_escaped (cps : list Z) (s acc : list Z) :
  Forall scalar_cp cps ->
  scan_string (flat_map escape_cp cps ++ 34 :: s) acc = Ok (acc ++ cps, s).
Proof.
  intros H. revert acc. induction H as [|c cps Hc _ IH]; intros acc.
  - rewrite app_nil_r. reflexivity.
  - cbn [flat_map]. rewrite <- app_assoc, scan_escape_cp, IH, <- app_assoc by exact Hc. reflexivity.
Qed.

Lemma to_string_decode (s : string) : to_string (utf8_decode (list_ascii_of_string s)) = s.
Proof. unfold to_string. rewrite utf8_encode_decode. apply string_of_list_ascii_of_string. Qed.

Lemma encode_string_scan (s : string) (rest : list Z) :
  exists cps, encode_string s ++ rest = 34 :: flat_map escape_cp cps ++ 34 :: rest /\
    scan_string (flat_map escape_cp cps ++ 34 :: rest) [] = Ok (cps, rest) /\ to_string cps = s.
Proof.
  exists (utf8_decode (list_ascii_of_string s)). unfold encode_string. split; [| split].
  - cbn [app]. rewrite <- app_assoc. reflexivity.
  - apply scan_string_escaped, utf8_decode_scalar.
  - apply to_string_decode.
Qed.

(** ** Lemmas: integers *)

Lemma digits_value_snoc (ds : list Z) (d : Z) :
  digits_value (ds ++ [d]) = digits_value ds * 10 + (d - 48).
Proof. unfold digits_value. rewrite fold_left_app. reflexivity. Qed.

Lemma digits_go_S (f : nat) (n : Z) :
  digits_go (S f) n = if n <? 10 then [48 + n] else digits_go f (n / 10) ++ [48 + n mod 10].
Proof. reflexivity. Qed.

(** The digits [digits_go] writes: decimal digits with the value [n], and
    no leading zero. *)
Lemma digits_go_spec (f : nat) (n : Z) :
  0 <= n < 10 ^ Z.of_nat (S f) ->
  exists d ds, digits_go (S f) n = d :: ds /\ Forall (fun x => is_digit x = true) (d :: ds) /\
    digits_value (d :: ds) = n /\ (d = 48 -> n = 0 /\ ds = []).
Proof.
  revert n. induction f as [|f IH]; intros n Hn; rewrite digits_go_S;
    rewrite Nat2Z.inj_succ, Z.pow_succ_r in Hn by lia.
  all: destruct (n <? 10) eqn:E; zbool.
  2: { rewrite Z.pow_0_r in Hn. lia. }
  1, 2: exists (48 + n), []; split; [reflexivity |];
    split; [constructor; [apply in_range_true; lia | constructor] |];
    split; [cbn [digits_value fold_left]; lia | intros; split; [lia | reflexivity]].
  destruct (IH (n / 10)) as (d & ds & Hg & Hdig & Hv & H0); [zdiv |].
  rewrite Hg. exists d, (ds ++ [48 + n mod 10]). split; [reflexivity |]. split; [| split].
  - rewrite app_comm_cons. apply Forall_app. split; [exact Hdig |].
    constructor; [apply in_range_true; zdiv | constructor].
  - rewrite app_comm_cons, digits_value_snoc, Hv. zdiv.
  - intros ->. destruct (H0 eq_refl) as [Hz _]. zdiv.
Qed.

Lemma dec_digits_spec (n : Z) :
  0 <= n ->
  exists d ds, dec_digits n = d :: ds /\ Forall (fun x => is_digit x = true) (d :: ds) /\
    digits_value (d :: ds) = n /\ (d = 48 -> n = 0 /\ ds = []).
Proof.
  intros Hn. unfold dec_digits. apply digits_go_spec. split; [exact Hn |].
  pose proof (Z.log2_nonneg n). rewrite Nat2Z.inj_succ, Z2Nat.id by lia.
  destruct (Z.eq_dec n 0) as [-> | Hn0]; [apply Z.pow_pos_nonneg; lia |].
  destruct (Z.log2_spec n) as [_ Hlt]; [lia |].
  eapply Z.lt_le_trans; [exact Hlt | apply Z.pow_le_mono_l; lia].
Qed.

(** What may follow a value in the text of [json.dump]: nothing, the
    item separator or a line break. *)
Definition delimited (rest : list Z) : bool :=
  match rest with [] => true | c :: _ => (c =? 44) || (c =? 10) end.

Lemma span_digits_app (ds rest : list Z) :
  Forall (fun x => is_digit x = true) ds -> delimited rest = true ->
  span_digits (ds ++ rest) = (ds, rest).
Proof.
  intros Hd Hr. induction Hd as [|x ds Hx _ IH]; cbn [app span_digits].
  - destruct rest as [|c r]; [reflexivity |]. cbn [span_digits].
    unfold delimited, is_digit, in_range in *. decide_ifs. reflexivity.
  - rewrite Hx, IH. reflexivity.
Qed.

Lemma digit_cases (d : Z) :
  is_digit d = true ->
  d = 48 \/ d = 49 \/ d = 50 \/ d = 51 \/ d = 52 \/ d = 53 \/ d = 54 \/ d = 55 \/ d = 56 \/ d = 57.
Proof. unfold is_digit, in_range. intros H. zbool. lia. Qed.

Lemma delimited_cases (rest : list Z) :
  delimited rest = true -> rest = [] \/ exists r, rest = 44 :: r \/ rest = 10 :: r.
Proof.
  destruct rest as [|c r]; [auto |]. unfold delimited. intros H.
  apply orb_true_iff in H as [H | H]; zbool; subst; eauto.
Qed.

(** The integer part of [NUMBER_RE] takes the whole number. *)
Lemma match_int_digits (sg : list Z) (d : Z) (ds rest : list Z) :
  sg = [] \/ sg = [45] -> Forall (fun x => is_digit x = true) (d :: ds) -> (d = 48 -> ds = []) ->
  delimited rest = true -> match_int (sg ++ d :: ds ++ rest) = Some (sg ++ d :: ds, rest).
Proof.
  intros Hs Hd H0 Hr. inversion Hd as [|? ? Hd1 Hds]; subst.
  apply digit_cases in Hd1 as Hc.
  destruct Hs as [-> | ->]; repeat destruct Hc as [-> | Hc]; try subst d;
    (try rewrite H0 by reflexivity); unfold match_int; simpl; (try rewrite span_digits_app by assumption); reflexivity.
Qed.

Lemma match_frac_exp_delimited (rest : list Z) :
  delimited rest = true -> match_frac rest = None /\ match_exp rest = None.
Proof.
  intros [-> | (r & [-> | ->])]%delimited_cases; [split; reflexivity | |];
    destruct r; split; reflexivity.
Qed.

Lemma parse_int_digits (sg : list Z) (d : Z) (ds : list Z) (z : Z) :
  (sg = [45] /\ z < 0 \/ sg = [] /\ 0 <= z) -> is_digit d = true ->
  digits_value (d :: ds) = Z.abs z -> (Z.of_nat (length (d :: ds)) <= INT_MAX_STR_DIGITS) ->
  parse_int (sg ++ d :: ds) = Ok (JInt z).
Proof.
  intros Hs Hd Hv Hl. apply digit_cases in Hd. unfold parse_int.
  assert (E : (INT_MAX_STR_DIGITS <? Z.of_nat (length (d :: ds))) = false) by (apply Z.ltb_ge; lia).
  destruct Hs as [[-> Hz] | [-> Hz]]; cbn [app].
  - rewrite Z.eqb_refl, E, Hv. do 2 f_equal. lia.
  - rewrite (proj2 (Z.eqb_neq d 45)) by lia. rewrite E, Hv. do 2 f_equal. lia.
Qed.

(** The shape of [int.__repr__]: an optional minus and digits without a
    leading zero, at most 4300 of them. *)
Lemma int_repr_shape (z : Z) (t : list Z) :
  int_repr z = Ok t ->
  exists sg d ds, t = sg ++ d :: ds /\ (sg = [45] /\ z < 0 \/ sg = [] /\ 0 <= z) /\
    Forall (fun x => is_digit x = true) (d :: ds) /\ (d = 48 -> ds = []) /\
    digits_value (d :: ds) = Z.abs z /\ Z.of_nat (length (d :: ds)) <= INT_MAX_STR_DIGITS.
Proof.
  unfold int_repr. destruct (dec_digits_spec (Z.abs z)) as (d & ds & Hd & Hdig & Hv & H0); [lia |].
  rewrite Hd. destruct (INT_MAX_STR_DIGITS <? Z.of_nat (length (d :: ds))) eqn:Hl; [discriminate |].
  zbool. intros [= <-]. destruct (z <? 0) eqn:Hz; zbool.
  - exists [45], d, ds. repeat split; auto. intros E. apply H0. exact E.
  - exists [], d, ds. repeat split; auto. intros E. apply H0. exact E.
Qed.

Section Decoding.
Variable parse_float : list Z -> json.
Local Abbreviation scan_constant := (scan_constant parse_float).
Local Abbreviation scan_number := (scan_number parse_float).
Local Abbreviation scan_once := (scan_once parse_float).
Local Abbreviation parse_array := (parse_array parse_float).
Local Abbreviation parse_object := (parse_object parse_float).

(** No named constant starts like a number. *)
Lemma scan_constant_number (sg : list Z) (d : Z) (s : list Z) :
  sg = [] \/ sg = [45] -> is_digit d = true -> scan_constant (sg ++ d :: s) = None.
Proof.
  intros Hs Hd. apply digit_cases in Hd.
  destruct Hs as [-> | ->]; repeat destruct Hd as [-> | Hd]; try subst d; reflexivity.
Qed.

(** [scan_once] at a character that opens no string, object or array. *)
Lemma scan_once_other (f : nat) (c : Z) (r : list Z) :
  c <> 34 -> c <> 123 -> c <> 91 ->
  scan_once (S f) (c :: r) =
    match scan_constant (c :: r) with
    | Some (v, rest) => Ok (v, rest)
    | None => match scan_number (c :: r) with Some res => res | None => raise JSONDecodeError end
    end.
Proof.
  intros H1 H2 H3. cbn [JsonText.scan_once].
  rewrite (proj2 (Z.eqb_neq _ _) H1), (proj2 (Z.eqb_neq _ _) H2), (proj2 (Z.eqb_neq _ _) H3).
  reflexivity.
Qed.

(** An integer as [int.__repr__] wrote it reads back. *)
Lemma scan_once_int (f : nat) (z : Z) (t rest : list Z) :
  int_repr z = Ok t -> delimited rest = true -> scan_once (S f) (t ++ rest) = Ok (JInt z, rest).
Proof.
  intros (sg & d & ds & -> & Hs & Hdig & H0 & Hv & Hl)%int_repr_shape Hr.
  assert (Hsg : sg = [] \/ sg = [45]) by (destruct Hs as [[-> _] | [-> _]]; auto).
  pose proof (Forall_inv Hdig) as Hd1. cbn beta in Hd1.
  assert (Hh : exists c r, sg ++ d :: ds ++ rest = c :: r /\ c <> 34 /\ c <> 123 /\ c <> 91).
  { apply digit_cases in Hd1. destruct Hsg as [-> | ->]; (eexists _, _; split; [reflexivity | lia]). }
  rewrite <- app_assoc. cbn [app]. destruct Hh as (c & r & Hc & N1 & N2 & N3).
  rewrite Hc, scan_once_other, <- Hc, scan_constant_number by assumption.
  unfold JsonText.scan_number. rewrite match_int_digits by assumption.
  destruct (match_frac_exp_delimited rest Hr) as [-> ->].
  rewrite (parse_int_digits sg d ds z) by assumption. reflexivity.
Qed.

(** ** Lemmas: the layout *)

Lemma skip_ws_app (w s : list Z) :
  Forall (fun c => is_ws c = true) w -> skip_ws (w ++ s) = skip_ws s.
Proof. induction 1 as [|c w Hc _ IH]; [reflexivity |]. cbn [app skip_ws]. rewrite Hc. exact IH. Qed.

Lemma skip_ws_cons (c : Z) (s : list Z) : is_ws c = false -> skip_ws (c :: s) = c :: s.
Proof. intros H. cbn [skip_ws]. rewrite H. reflexivity. Qed.

Lemma newline_indent_ws (level : nat) : Forall (fun c => is_ws c = true) (newline_indent level).
Proof.
  constructor; [reflexivity |]. induction level as [|level IH]; [constructor |].
  cbn [repeat concat]. apply Forall_app. split; [repeat constructor | exact IH].
Qed.

Lemma skip_ws_indent (level : nat) (c : Z) (s : list Z) :
  is_ws c = false -> skip_ws (newline_indent level ++ c :: s) = c :: s.
Proof. intros H. rewrite skip_ws_app by apply newline_indent_ws. apply skip_ws_cons, H. Qed.

(** Every dumped value starts with a character that is neither
    whitespace nor a closing bracket. *)
Definition starts_value (t : list Z) : Prop :=
  exists c r, t = c :: r /\ is_ws c = false /\ c <> 93 /\ c <> 125.

Lemma skip_ws_indent_app (level : nat) (t s : list Z) :
  starts_value t -> skip_ws (newline_indent level ++ t ++ s) = t ++ s.
Proof. intros (c & r & -> & Hc & _). apply skip_ws_indent, Hc. Qed.

(** After an opening bracket, a value is not the closing one. *)
Lemma starts_value_match {A : Type} (t s : list Z) (k : Z) (x : list Z -> A) (y z : A) :
  starts_value t -> k = 93 \/ k = 125 ->
  match t ++ s with d :: r' => if d =? k then x r' else y | [] => z end = y.
Proof.
  intros (c & r & -> & _ & H93 & H125) Hk. cbn [app].
  rewrite (proj2 (Z.eqb_neq c k)) by (destruct Hk; subst; assumption). reflexivity.
Qed.

Lemma iterencode_starts (level : nat) (v : json) (t : list Z) :
  iterencode level v = Ok t -> starts_value t.
Proof.
  unfold starts_value. destruct v as [| [] | z | s | [|x l] | [|kv o]]; cbn [iterencode];
    try (intros [= <-]; eexists _, _; split; [reflexivity | vm_compute; split; [reflexivity | split; discriminate]]).
  - intros (sg & d & ds & -> & Hs & Hd & _)%int_repr_shape.
    apply Forall_inv, digit_cases in Hd.
    destruct Hs as [[-> _] | [-> _]]; eexists _, _; (split; [reflexivity |]);
      repeat destruct Hd as [-> | Hd]; subst; (split; [reflexivity | lia]).
  - intros (items & _ & [= <-])%bind_eq_Ok. eexists _, _; split; [reflexivity | split; [reflexivity | lia]].
  - intros (items & _ & [= <-])%bind_eq_Ok. eexists _, _; split; [reflexivity | split; [reflexivity | lia]].
Qed.

(** One step of the scanner at each opening character. *)
Lemma scan_once_string (f : nat) (r : list Z) :
  scan_once (S f) (34 :: r) = let*' (cps, rest) := scan_string r [] in Ok (JStr (to_string cps), rest).
Proof. reflexivity. Qed.

Lemma scan_once_array (f : nat) (r : list Z) :
  scan_once (S f) (91 :: r) =
    match skip_ws r with
    | d :: r' => if d =? 93 then Ok (JArr [], r') else parse_array f (skip_ws r) []
    | [] => raise JSONDecodeError
    end.
Proof. reflexivity. Qed.

Lemma scan_once_object (f : nat) (r : list Z) :
  scan_once (S f) (123 :: r) =
    match skip_ws r with
    | d :: r' => if d =? 125 then Ok (JObj [], r') else parse_object f (skip_ws r) []
    | [] => raise JSONDecodeError
    end.
Proof. reflexivity. Qed.

Lemma parse_array_S (g : nat) (s : list Z) (acc : list json) :
  parse_array (S g) s acc =
    let*' (v, r) := scan_once g s in
    match skip_ws r with
    | c :: r' =>
        if c =? 93 then Ok (JArr (acc ++ [v]), r')
        else if c =? 44 then parse_array g (skip_ws r') (acc ++ [v])
        else raise JSONDecodeError
    | [] => raise JSONDecodeError
    end.
Proof. reflexivity. Qed.

Lemma parse_object_S (g : nat) (r : list Z) (acc : list (string * json)) :
  parse_object (S g) (34 :: r) acc =
    let*' (k, r1) := scan_string r [] in
    match skip_ws r1 with
    | d :: r2 =>
        if d =? 58 then
          let*' (v, r3) := scan_once g (skip_ws r2) in
          let acc' := dict_setitem acc (to_string k) v in
          match skip_ws r3 with
          | e :: r4 =>
              if e =? 125 then Ok (JObj acc', r4)
              else if e =? 44 then parse_object g (skip_ws r4) acc'
              else raise JSONDecodeError
          | [] => raise JSONDecodeError
          end
        else raise JSONDecodeError
    | [] => raise JSONDecodeError
    end.
Proof. reflexivity. Qed.

(** The items of a container joined by [,] and a line break. *)
Lemma join_items_cons2 (level : nat) (i i2 : list Z) (items : list (list Z)) :
  join_items level (i :: i2 :: items) = i ++ 44 :: newline_indent (S level) ++ join_items level (i2 :: items).
Proof. cbn [join_items map concat]. cbn [app]. rewrite <- app_assoc. reflexivity. Qed.

Lemma join_items_single (level : nat) (i : list Z) : join_items level [i] = i.
Proof. apply app_nil_r. Qed.

Lemma join_items_starts (level : nat) (i : list Z) (items : list (list Z)) :
  starts_value i -> starts_value (join_items level (i :: items)).
Proof.
  intros (c & r & -> & Hc). cbn [join_items].
  exists c, (r ++ concat (map (fun x => 44 :: newline_indent (S level) ++ x) items)). auto.
Qed.

(** What [json.dump] wrote for [v] reads back as [v], followed by what
    comes after it. *)
Definition decodes_back (v : json) : Prop :=
  forall level t f rest, iterencode level v = Ok t -> distinct_keys v = true ->
    (length t <= f)%nat -> delimited rest = true -> scan_once f (t ++ rest) = Ok (v, rest).

(** The elements of an array, up to its closing bracket. *)
Lemma parse_array_items (level : nat) (xs : list json) (items : list (list Z)) :
  Forall2 (fun x i => iterencode (S level) x = Ok i) xs items -> Forall decodes_back xs ->
  forallb distinct_keys xs = true ->
  forall acc g rest, items <> [] -> (length (join_items level items) < g)%nat ->
  parse_array g (join_items level items ++ newline_indent level ++ 93 :: rest) acc = Ok (JArr (acc ++ xs), rest).
Proof.
  induction 1 as [|x i xs items Hxi Hall IH]; intros Hd Hk acc g rest Hne Hg; [congruence |].
  inversion Hd as [|? ? Hx Hxs]; subst. cbn [forallb] in Hk. apply andb_true_iff in Hk as [Hkx Hks].
  destruct g as [|g]; [lia |]. rewrite parse_array_S.
  destruct items as [|i2 items].
  - inversion Hall; subst. rewrite join_items_single in *.
    rewrite (Hx (S level) i g) by (reflexivity || assumption || lia). cbn [bind].
    rewrite skip_ws_indent by reflexivity. reflexivity.
  - rewrite join_items_cons2 in Hg |- *. rewrite <- !app_assoc. cbn [app].
    rewrite (Hx (S level) i g) by (reflexivity || assumption || (rewrite length_app in Hg; lia)). cbn [bind].
    rewrite skip_ws_cons by reflexivity.
    rewrite (proj2 (Z.eqb_neq 44 93)), Z.eqb_refl by lia.
    inversion Hall as [|x2 ? ? ? Hx2]; subst.
    rewrite <- app_assoc, skip_ws_indent_app by exact (join_items_starts level i2 items (iterencode_starts _ _ _ Hx2)).
    rewrite IH by (assumption || discriminate || (rewrite !length_app in Hg; cbn [length] in Hg; rewrite !length_app in Hg; lia)).
    rewrite <- app_assoc. reflexivity.
Qed.

Lemma skip_ws_starts (t s : list Z) : starts_value t -> skip_ws (t ++ s) = t ++ s.
Proof. intros (c & r & -> & Hc & _). apply skip_ws_cons, Hc. Qed.

(** [dict[key] = value] with a new key appends the entry. *)
Lemma dict_setitem_fresh (o : list (string * json)) (k : string) (v : json) :
  ~ In k (map fst o) -> dict_setitem o k v = o ++ [(k, v)].
Proof.
  induction o as [|[k' v'] o IH]; intros Hk; [reflexivity |]. cbn [map In] in Hk. cbn [dict_setitem app].
  rewrite (proj2 (String.eqb_neq k k')) by (intros ->; tauto). rewrite IH by tauto. reflexivity.
Qed.

Lemma keys_distinct_NoDup (ks : list string) : keys_distinct ks = true -> NoDup ks.
Proof.
  induction ks as [|k ks IH]; cbn [keys_distinct]; intros H; [constructor |].
  apply andb_true_iff in H as [Hn Hd]. constructor; [| auto].
  intros Hin. apply negb_true_iff in Hn. rewrite (proj2 (existsb_exists _ _)) in Hn; [discriminate |].
  exists k. split; [exact Hin | apply String.eqb_refl].
Qed.

(** One entry [key: value] of a dict, and what follows it. *)
Lemma parse_object_entry (level g : nat) (k : string) (v : json) (tv rest : list Z)
  (acc : list (string * json)) :
  iterencode (S level) v = Ok tv -> decodes_back v -> distinct_keys v = true ->
  (length tv <= g)%nat -> delimited rest = true -> ~ In k (map fst acc) ->
  parse_object (S g) ((encode_string k ++ str ": " ++ tv) ++ rest) acc =
    match skip_ws rest with
    | e :: r4 =>
        if e =? 125 then Ok (JObj (acc ++ [(k, v)]), r4)
        else if e =? 44 then parse_object g (skip_ws r4) (acc ++ [(k, v)])
        else raise JSONDecodeError
    | [] => raise JSONDecodeError
    end.
Proof.
  intros Htv Hv Hkv Hg Hr Hk. rewrite <- !app_assoc.
  destruct (encode_string_scan k (str ": " ++ tv ++ rest)) as (cps & -> & Hscan & Hcps).
  rewrite parse_object_S, Hscan. cbn [bind].
  change (str ": ") with [58; 32]. cbn [app]. rewrite skip_ws_cons, Z.eqb_refl by reflexivity.
  change (skip_ws (32 :: tv ++ rest)) with (skip_ws (tv ++ rest)).
  rewrite skip_ws_starts by exact (iterencode_starts _ _ _ Htv).
  rewrite (Hv (S level) tv g rest) by assumption. cbn [bind].
  rewrite Hcps, dict_setitem_fresh by exact Hk. reflexivity.
Qed.

(** The entries of a dict, up to its closing brace. *)
Lemma parse_object_items (level : nat) (o : list (string * json)) (items : list (list Z)) :
  Forall2 (fun kv i => (let* t := iterencode (S level) (snd kv) in
                        Ok (encode_string (fst kv) ++ str ": " ++ t)) = Ok i) o items ->
  Forall (fun kv => decodes_back (snd kv)) o -> forallb (fun kv => distinct_keys (snd kv)) o = true ->
  forall acc g rest, items <> [] -> NoDup (map fst (acc ++ o)) -> (length (join_items level items) < g)%nat ->
  parse_object g (join_items level items ++ newline_indent level ++ 125 :: rest) acc =
    Ok (JObj (acc ++ o), rest).
Proof.
  induction 1 as [|[k v] i o items Hxi Hall IH]; intros Hd Hk acc g rest Hne Hnd Hg; [congruence |].
  inversion Hd as [|? ? Hx Hxs]; subst. cbn [forallb] in Hk. apply andb_true_iff in Hk as [Hkx Hks].
  apply bind_eq_Ok in Hxi as (tv & Htv & Hi). apply Ok_inj in Hi. subst i. cbn [fst snd] in *.
  assert (Hfresh : ~ In k (map fst acc)).
  { rewrite map_app in Hnd. cbn [map] in Hnd. apply NoDup_remove_2 in Hnd. rewrite in_app_iff in Hnd. tauto. }
  destruct g as [|g]; [lia |].
  destruct items as [|i2 items].
  - inversion Hall; subst. rewrite join_items_single in *.
    rewrite (parse_object_entry level g k v tv) by (reflexivity || assumption || (rewrite !length_app in Hg; lia)).
    rewrite skip_ws_indent by reflexivity. reflexivity.
  - rewrite join_items_cons2 in Hg |- *. rewrite <- app_assoc.
    rewrite (parse_object_entry level g k v tv) by (reflexivity || assumption || (rewrite !length_app in Hg; cbn [length] in Hg; rewrite !length_app in Hg; lia)).
    cbn [app]. rewrite skip_ws_cons by reflexivity.
    rewrite (proj2 (Z.eqb_neq 44 125)), Z.eqb_refl by lia.
    inversion Hall as [|kv2 ? ? ? Hx2]; subst. apply bind_eq_Ok in Hx2 as (tv2 & _ & Hi2).
    assert (Hs2 : starts_value i2).
    { injection Hi2 as <-. unfold encode_string. eexists _, _. split; [reflexivity | split; [reflexivity | lia]]. }
    rewrite <- app_assoc, skip_ws_indent_app by exact (join_items_starts level i2 items Hs2).
    rewrite IH by (assumption || discriminate || (rewrite <- app_assoc; exact Hnd) ||
                   (rewrite !length_app in Hg; cbn [length] in Hg; rewrite !length_app in Hg; lia)).
    rewrite <- app_assoc. reflexivity.
Qed.

Lemma iterencode_nonempty (level : nat) (v : json) (t : list Z) (f : nat) :
  iterencode level v = Ok t -> (length t <= f)%nat -> exists f', f = S f'.
Proof.
  intros (c & r & -> & _)%iterencode_starts Hf. destruct f as [|f']; [cbn in Hf; lia | eauto].
Qed.

(** Every value [json.dump] writes reads back, whatever follows it. *)
Lemma iterencode_decodes (v : json) : decodes_back v.
Proof.
  induction v as [| b | z | s | l IHl | o IHo] using json_ind; unfold decodes_back;
    intros level t f rest Ht Hk Hf Hr;
    destruct (iterencode_nonempty _ _ _ _ Ht Hf) as [f' ->].
  - apply Ok_inj in Ht. subst t. reflexivity.
  - destruct b; apply Ok_inj in Ht; subst t; reflexivity.
  - apply scan_once_int; assumption.
  - apply Ok_inj in Ht. subst t. destruct (encode_string_scan s rest) as (cps & -> & Hscan & Hcps).
    rewrite scan_once_string, Hscan. cbn [bind]. rewrite Hcps. reflexivity.
  - destruct l as [|x l]; [apply Ok_inj in Ht; subst t; reflexivity |].
    apply bind_eq_Ok in Ht as (items & Hm & Ht). apply Ok_inj in Ht. subst t.
    apply mapM_Forall2 in Hm as Hf2. inversion Hf2 as [|? i ? items' Hx]; subst.
    assert (Hst : starts_value (join_items level (i :: items'))) by exact (join_items_starts _ _ _ (iterencode_starts _ _ _ Hx)).
    unfold container. cbn [app]. rewrite scan_once_array, <- !app_assoc, skip_ws_indent_app by exact Hst.
    rewrite starts_value_match by (assumption || auto).
    cbn [app]. rewrite (parse_array_items level (x :: l) (i :: items') Hf2 IHl Hk) by
      (discriminate || (unfold container in Hf; cbn [length] in Hf; rewrite !length_app in Hf; cbn [length] in Hf; lia)).
    reflexivity.
  - destruct o as [|kv o]; [apply Ok_inj in Ht; subst t; reflexivity |].
    apply bind_eq_Ok in Ht as (items & Hm & Ht). apply Ok_inj in Ht. subst t.
    apply mapM_Forall2 in Hm as Hf2. inversion Hf2 as [|? i ? items' Hx]; subst.
    apply bind_eq_Ok in Hx as Hx'. destruct Hx' as (tv & _ & Hi). apply Ok_inj in Hi.
    assert (Hsi : starts_value i) by (rewrite <- Hi; eexists _, _; split; [reflexivity | split; [reflexivity | lia]]).
    assert (Hst : starts_value (join_items level (i :: items'))) by exact (join_items_starts _ _ _ Hsi).
    cbn [distinct_keys] in Hk. apply andb_true_iff in Hk as [Hkd Hkv].
    unfold container. cbn [app]. rewrite scan_once_object, <- !app_assoc, skip_ws_indent_app by exact Hst.
    rewrite starts_value_match by (assumption || auto).
    cbn [app]. rewrite (parse_object_items level (kv :: o) (i :: items') Hf2 IHo Hkv) by
      (discriminate || exact (keys_distinct_NoDup _ Hkd) ||
       (unfold container in Hf; cbn [length] in Hf; rewrite !length_app in Hf; cbn [length] in Hf; lia)).
    reflexivity.
Qed.

End Decoding.

(** ** Lemmas: the characters of the text *)

(** [json.dump] with [ensure_ascii=True] writes printable ASCII and line
    breaks only. *)
Definition printable (c : Z) : Prop := c = 10 \/ 32 <= c <= 126.

Lemma hex_digit_printable (d : Z) : 0 <= d < 16 -> printable (hex_digit d).
Proof. intros. unfold printable, hex_digit. decide_ifs; lia. Qed.

Lemma hex4_printable (n : Z) : Forall printable (hex4 n).
Proof.
  unfold hex4. cbn [map]. repeat apply Forall_cons; try apply Forall_nil;
    apply hex_digit_printable, Z.mod_pos_bound; lia.
Qed.

Ltac forall_printable :=
  repeat first
    [ apply hex4_printable | apply Forall_nil | apply Forall_app; split
    | apply Forall_cons; [unfold printable; lia |] ].

Lemma escape_cp_printable (cp : Z) : Forall printable (escape_cp cp).
Proof. unfold escape_cp. decide_ifs; forall_printable. Qed.

(** The text of a concrete literal. *)
Ltac literal_printable :=
  apply Forall_forall; intros ? Hc; vm_compute in Hc; unfold printable; lia.

Lemma newline_indent_printable (level : nat) : Forall printable (newline_indent level).
Proof.
  unfold newline_indent. apply Forall_cons; [left; reflexivity |].
  apply Forall_concat, Forall_forall. intros w Hw. apply repeat_spec in Hw as ->.
  literal_printable.
Qed.

Lemma container_printable (op cl : Z) (level : nat) (items : list (list Z)) :
  printable op -> printable cl -> Forall (Forall printable) items ->
  Forall printable (container op cl level items).
Proof.
  intros Ho Hc Hi. unfold container. constructor; [exact Ho |].
  pose proof (newline_indent_printable (S level)). pose proof (newline_indent_printable level).
  apply Forall_app; split; [assumption |]. apply Forall_app; split;
    [| apply Forall_app; split; [assumption | apply Forall_cons; [exact Hc | apply Forall_nil]]].
  destruct items as [|i items]; [constructor |]. inversion Hi; subst. cbn [join_items].
  apply Forall_app. split; [assumption |]. apply Forall_concat, Forall_map.
  eapply Forall_impl; [| eassumption]. intros x Hx. constructor; [unfold printable; lia |].
  apply Forall_app. auto.
Qed.

Lemma Forall2_lift {A B : Type} (R : A -> B -> Prop) (P : A -> Prop) (Q : B -> Prop) (l : list A) (l' : list B) :
  Forall2 R l l' -> Forall P l -> (forall x y, R x y -> P x -> Q y) -> Forall Q l'.
Proof. induction 1; intros HP HQ; inversion HP; subst; constructor; eauto. Qed.

Lemma iterencode_printable (level : nat) (v : json) (t : list Z) :
  iterencode level v = Ok t -> Forall printable t.
Proof.
  revert level t. induction v as [| b | z | s | l IHl | o IHo] using json_ind; intros level t Ht.
  - apply Ok_inj in Ht. subst t. literal_printable.
  - destruct b; apply Ok_inj in Ht; subst t; literal_printable.
  - apply int_repr_shape in Ht as (sg & d & ds & -> & Hs & Hd & _).
    apply Forall_app. split; [destruct Hs as [[-> _] | [-> _]]; literal_printable |].
    eapply Forall_impl; [| exact Hd]. intros x Hx. unfold is_digit in Hx. zbool. unfold printable. lia.
  - apply Ok_inj in Ht. subst t. unfold encode_string. constructor; [unfold printable; lia |].
    apply Forall_app. split; [| repeat constructor; unfold printable; lia].
    apply Forall_flat_map, Forall_forall. intros. apply escape_cp_printable.
  - destruct l as [|x l]; [apply Ok_inj in Ht; subst t; literal_printable |].
    apply bind_eq_Ok in Ht as (items & Hm & Ht). apply Ok_inj in Ht. subst t.
    apply container_printable; [unfold printable; lia | unfold printable; lia |].
    eapply Forall2_lift; [apply mapM_Forall2, Hm | exact IHl | cbv beta; eauto].
  - destruct o as [|kv o]; [apply Ok_inj in Ht; subst t; literal_printable |].
    apply bind_eq_Ok in Ht as (items & Hm & Ht). apply Ok_inj in Ht. subst t.
    apply container_printable; [unfold printable; lia | unfold printable; lia |].
    eapply Forall2_lift; [apply mapM_Forall2, Hm | exact IHo |].
    intros [k v] i Hi IH. apply bind_eq_Ok in Hi as (tv & Htv & Hi). apply Ok_inj in Hi. subst i.
    pose proof (IH _ _ Htv). cbn [fst].
    assert (Hk : Forall printable (encode_string k)).
    { unfold encode_string. constructor; [unfold printable; lia |].
      apply Forall_app. split; [| repeat constructor; unfold printable; lia].
      apply Forall_flat_map, Forall_forall. intros. apply escape_cp_printable. }
    repeat (apply Forall_app; split); auto. literal_printable.
Qed.

(** ** Lemmas: reading the file back *)

Lemma translate_newlines_id (t : list Z) : Forall (fun c => c <> 13) t -> translate_newlines t = t.
Proof.
  induction 1 as [|c t Hc _ IH]; [reflexivity |]. cbn [translate_newlines].
  rewrite (proj2 (Z.eqb_neq c 13) Hc), IH. reflexivity.
Qed.

(** The file [json.dump] wrote is read back as the text it wrote. *)
Lemma read_text_printable (t : list Z) :
  Forall printable t -> read_text (string_of_list_ascii (utf8_encode t)) = Ok t.
Proof.
  intros Hp. unfold read_text. rewrite list_ascii_of_string_of_list_ascii.
  destruct (utf8_decode_ascii t) as [Hd Hv].
  { eapply Forall_impl; [| exact Hp]. unfold printable. intros. lia. }
  rewrite Hv, Hd, translate_newlines_id; [reflexivity |].
  eapply Forall_impl; [| exact Hp]. unfold printable. intros. lia.
Qed.

(** [json.loads] of the text of a value. *)
Lemma json_loads_iterencode (parse_float : list Z -> json) (data : json) (t : list Z) :
  distinct_keys data = true -> iterencode 0 data = Ok t -> json_loads parse_float t = Ok data.
Proof.
  intros Hk Ht. pose proof (iterencode_starts _ _ _ Ht) as Hs.
  pose proof (iterencode_printable _ _ _ Ht) as Hp.
  unfold json_loads. destruct Hs as (c & r & Htc & Hc). rewrite Htc at 1.
  rewrite Htc in Hp. apply Forall_inv in Hp. unfold printable in Hp.
  rewrite (proj2 (Z.eqb_neq c 0xFEFF)) by lia.
  rewrite <- (app_nil_r t), skip_ws_starts by (exists c, r; exact (conj Htc Hc)).
  rewrite (iterencode_decodes parse_float data 0%nat t) by (reflexivity || assumption || (rewrite length_app; cbn [length]; lia)).
  reflexivity.
Qed.

Lemma iterencode_is_ok (level : nat) (v : json) : is_ok (iterencode level v) = ints_fit v.
Proof.
  revert level. induction v as [| b | z | s | l IHl | o IHo] using json_ind; intros level.
  - reflexivity.
  - destruct b; reflexivity.
  - cbn [iterencode ints_fit]. unfold int_repr.
    destruct (INT_MAX_STR_DIGITS <? _) eqn:E; zbool; symmetry; [apply Z.leb_gt | apply Z.leb_le]; lia.
  - reflexivity.
  - destruct l as [|x l]; [reflexivity |]. cbn [iterencode ints_fit].
    rewrite is_ok_bind_ret, mapM_is_ok. apply forallb_Forall_eq.
    eapply Forall_impl; [| exact IHl]. intros y Hy. apply Hy.
  - destruct o as [|kv o]; [reflexivity |]. cbn [iterencode ints_fit].
    rewrite is_ok_bind_ret, mapM_is_ok. apply forallb_Forall_eq.
    eapply Forall_impl; [| exact IHo]. intros y Hy. rewrite <- (Hy (S level)).
    destruct (iterencode (S level) (snd y)); reflexivity.
Qed.

(** ** Theorems *)

(** C22. The JSON backup reads back. Take any value whose dicts have
    distinct keys. If [json.dump(data, f, indent=2)] writes it without
    error, then [json.load] on the file it wrote gives the same value.
    This holds whatever the strings hold, non-ASCII text, astral
    characters, control characters and bytes that are not UTF-8
    included, and whatever a float literal would decode to. *)
Theorem json_backup_roundtrip (parse_float : list Z -> json) (data : json) (text : string) :
  distinct_keys data = true -> json_dump data = Ok text -> json_load parse_float text = Ok data.
Proof.
  intros Hk Hd. unfold json_dump in Hd. apply bind_eq_Ok in Hd as (t & Ht & Hd). apply Ok_inj in Hd. subst text.
  unfold json_load. rewrite read_text_printable by exact (iterencode_printable _ _ _ Ht).
  apply json_loads_iterencode; assumption.
Qed.

(** A library answer with one item, written and read back. *)
Definition sample_backup : json :=
  JObj [("result", JArr [JObj [("_id", JStr "tt0057012"); ("name", JStr "Dr. Strangelove");
                               ("state", JObj [("timesWatched", JInt 2)])]])].

Lemma json_backup_roundtrip_witness :
  exists text, distinct_keys sample_backup = true /\ json_dump sample_backup = Ok text /\
    json_load (fun _ => JNull) text = Ok sample_backup.
Proof.
  exists (match json_dump sample_backup with Ok t => t | Err _ => EmptyString end).
  assert (Hd : json_dump sample_backup = Ok (match json_dump sample_backup with Ok t => t | Err _ => EmptyString end))
    by (vm_compute; reflexivity).
  split; [reflexivity | split; [exact Hd |]].
  apply json_backup_roundtrip; [reflexivity | exact Hd].
Defined.

(** The text Python writes for a string with an accented letter, an
    astral character and a byte that is not UTF-8. *)
Example json_dump_escapes :
  json_dump (JStr (string_of_list_ascii (map of_byte [0xC3; 0xA9; 0xF0; 0x9F; 0x98; 0x80; 0x80]))) =
    Ok (dq ++ "\u00e9\ud83d\ude00\udc80" ++ dq)%string.
Proof. vm_compute. reflexivity. Qed.

(** A [JObj] with a repeated key is not a Python dict: the reader keeps
    the key once, with its last value. *)
Example json_duplicate_key_merged :
  let data := JObj [("a", JInt 1); ("b", JInt 2); ("a", JInt 3)] in
  exists text, json_dump data = Ok text /\
    json_load (fun _ => JNull) text = Ok (JObj [("a", JInt 3); ("b", JInt 2)]).
Proof.
  cbv zeta. exists (match json_dump (JObj [("a", JInt 1); ("b", JInt 2); ("a", JInt 3)]) with
                    | Ok t => t | Err _ => EmptyString end).
  split; vm_compute; reflexivity.
Qed.
