(* ===== verification/Categorizer.v ===== *)
(** * Categorizer: [movie_extractor.parse_library_data]

    Each raw library item of the API response is normalised into the dict
    [{imdbID, Title, poster, year, type}]. Items without a truthy [_id] or
    [name] are skipped. The others go to the watched list when
    [state.timesWatched > 0] and to the watchlist otherwise. This file
    translates the loop line by line ([parse_item], [parse_loop],
    [parse_library_data]) and states its contract abstractly ([normalize],
    [categorize]). *)

From Stdlib Require Import String ZArith List Bool Lia Permutation.
From stdpp Require Import base tactics.
From S2P Require Import Prelude Json.
Import ListNotations.
Open Scope string_scope.
Open Scope list_scope.

(** ** The normalised item *)

(** [movie_data] of lines 92-98: the five keys of the dict the code builds.
    [poster] and [year] are [None] ([JNull]) when absent. *)
Record movie : Type := mk_movie {
  imdbID : json;
  Title : json;
  poster : json;
  year : json;
  movie_type : json
}.

(** ** The code *)

(** Lines 78-80: [poster = item.get('poster')], then, when it is falsy and
    [item] has a [meta] entry containing ['poster'], [item['meta']['poster']].
    The [in] test on [meta] is a key test on a dict but a substring test on
    a string, and [item['meta']['poster']] then raises [TypeError]. *)
Definition resolve_poster (item : json) : result json :=
  let* poster0 := py_get item "poster" JNull in
  if py_truthy poster0 then ret poster0 else
  let* has_meta := py_in "meta" item in
  if negb has_meta then ret poster0 else
  let* meta := py_getitem item "meta" in
  let* has_poster := py_in "poster" meta in
  if has_poster then py_getitem meta "poster" else ret poster0.

(** Lines 82-84: [year = item.get('year')], then, when it is falsy and
    [item] has [meta], [item['meta'].get('year')] (which replaces a falsy
    year by [None] when [meta] has no year). *)
Definition resolve_year (item : json) : result json :=
  let* year0 := py_get item "year" JNull in
  if py_truthy year0 then ret year0 else
  let* has_meta := py_in "meta" item in
  if negb has_meta then ret year0 else
  let* meta := py_getitem item "meta" in
  py_get meta "year" JNull.

(** One iteration of the loop body, lines 71-104: [None] for a skipped
    item ([continue]), [Some (movie_data, watched)] otherwise. Every field
    is read before the skip test, as in the code, so a malformed field raises
    even for an item that would be skipped. *)
Definition parse_item (item : json) : result (option (movie * bool)) :=
  let* imdb_id := py_get item "_id" (JStr "") in
  let* name := py_get item "name" (JStr "") in
  let* state := py_get item "state" (JObj []) in
  let* flagged_watched := py_get state "timesWatched" (JInt 0) in
  let* poster := resolve_poster item in
  let* year := resolve_year item in
  let* item_type := py_get item "type" (JStr "movie") in
  if negb (py_truthy imdb_id) || negb (py_truthy name) then ret None else
  let movie_data := mk_movie imdb_id name poster year item_type in
  let* w := py_gt_zero flagged_watched in
  ret (Some (movie_data, w)).

(** The [for] loop, lines 70-104, with the two accumulators that
    [append] extends at the end. *)
Fixpoint parse_loop (items : list json) (watched_items watchlist_items : list movie)
  : result (list movie * list movie) :=
  match items with
  | [] => ret (watched_items, watchlist_items)
  | item :: rest =>
      let* r := parse_item item in
      match r with
      | None => parse_loop rest watched_items watchlist_items
      | Some (movie_data, true) => parse_loop rest (watched_items ++ [movie_data]) watchlist_items
      | Some (movie_data, false) => parse_loop rest watched_items (watchlist_items ++ [movie_data])
      end
  end.

(** [parse_library_data], lines 63-107: [api_response.get('result', [])]
    and a [for] over it (a dict yields its keys, a string its
    characters). *)
Definition parse_library_data (api_response : json) : result (list movie * list movie) :=
  let* result := py_get api_response "result" (JArr []) in
  let* items := py_iter result in
  parse_loop items [] [].

(** ** The abstract contract *)

(** Normalisation: every item is parsed (the first exception aborts) and
    the skipped ones are dropped. *)
Definition normalize (items : list json) : result (list (movie * bool)) :=
  let* rs := mapM parse_item items in
  ret (filter_some rs).

(** The partition: the watched items and the others, each in input
    order. *)
Definition categorize (kept : list (movie * bool)) : list movie * list movie :=
  (map fst (List.filter snd kept), map fst (List.filter (fun p => negb (snd p)) kept)).

(** The fields of the [state] sub-dict, when it is a dict. *)
Definition state_fields (o : list (string * json)) : list (string * json) :=
  match assoc_lookup "state" o with Some (JObj st) => st | _ => [] end.

(** The watch counter, [0] when absent. *)
Definition times_watched (o : list (string * json)) : json :=
  field (state_fields o) "timesWatched" (JInt 0).

(** Whether the item is kept: truthy [_id] and [name]. *)
Definition keep (o : list (string * json)) : bool :=
  py_truthy (field o "_id" (JStr "")) && py_truthy (field o "name" (JStr "")).

(** [state] is absent or a dict; [meta] is absent or a dict. *)
Definition shape_ok (o : list (string * json)) : bool :=
  match assoc_lookup "state" o with None | Some (JObj _) => true | _ => false end &&
  match assoc_lookup "meta" o with None | Some (JObj _) => true | _ => false end.

(** The fields of [meta], when it is a dict. *)
Definition meta_fields (o : list (string * json)) : option (list (string * json)) :=
  match assoc_lookup "meta" o with Some (JObj m) => Some m | _ => None end.

(** The canonical item of the spec: poster from the item, else from
    [meta]; year from the item, else [meta.get('year')]. *)
Definition canonical (o : list (string * json)) : movie :=
  let p := field o "poster" JNull in
  let y := field o "year" JNull in
  mk_movie (field o "_id" (JStr "")) (field o "name" (JStr ""))
    (if py_truthy p then p else
       match meta_fields o with Some m => field m "poster" p | None => p end)
    (if py_truthy y then y else
       match meta_fields o with Some m => field m "year" JNull | None => y end)
    (field o "type" (JStr "movie")).

(** ** Lemmas *)

(** Unfold one loop iteration on a dict and split on the shape of its
    [state] and [meta] and on the skip test. *)
Ltac parse_item_cases :=
  unfold shape_ok, parse_item, resolve_poster, resolve_year, state_fields;
  py_run; unfold field, py_getitem, py_in;
  destruct (assoc_lookup "state" _) as [[]|], (assoc_lookup "meta" _) as [[]|];
    simpl; try discriminate; intros _;
    repeat match goal with |- context [py_truthy ?x] => destruct (py_truthy x) end;
    simpl; repeat (case_match; simpl; try congruence).

Lemma categorize_cons_true (m : movie) (kept : list (movie * bool)) :
  categorize ((m, true) :: kept) = (m :: fst (categorize kept), snd (categorize kept)).
Proof. reflexivity. Qed.

Lemma categorize_cons_false (m : movie) (kept : list (movie * bool)) :
  categorize ((m, false) :: kept) = (fst (categorize kept), m :: snd (categorize kept)).
Proof. reflexivity. Qed.

(** The loop with accumulators [w] and [wl] extends them by the partition
    of the normalised rest. *)
Lemma parse_loop_normalize (items : list json) (w wl : list movie) :
  parse_loop items w wl =
    let* kept := normalize items in
    ret (w ++ fst (categorize kept), wl ++ snd (categorize kept)).
Proof.
  revert w wl. unfold normalize.
  induction items as [|item rest IH]; intros w wl; simpl.
  - rewrite !app_nil_r. reflexivity.
  - destruct (parse_item item) as [[[m [|]]|]|e]; simpl; try reflexivity;
      rewrite IH; destruct (mapM parse_item rest); simpl; rewrite <- ?app_assoc;
      reflexivity.
Qed.

(** A kept item has a truthy id and name. *)
Lemma parse_item_kept_truthy (item : json) (m : movie) (w : bool) :
  parse_item item = Ok (Some (m, w)) ->
  py_truthy (imdbID m) = true /\ py_truthy (Title m) = true.
Proof.
  unfold parse_item. intros H.
  repeat (apply bind_eq_Ok in H; destruct H as (? & _ & H)).
  destruct (py_truthy _) eqn:Hid; destruct (py_truthy _) eqn:Hname in H;
    simpl in H; try discriminate.
  apply bind_eq_Ok in H. destruct H as (? & _ & H). injection H as <- _. simpl. auto.
Qed.

Lemma normalize_kept_truthy (items : list json) (kept : list (movie * bool)) :
  normalize items = Ok kept ->
  Forall (fun p => py_truthy (imdbID (fst p)) = true /\ py_truthy (Title (fst p)) = true) kept.
Proof.
  unfold normalize. revert kept.
  induction items as [|item rest IH]; intros kept H; simpl in H.
  - injection H as <-. constructor.
  - destruct (parse_item item) as [[[m w]|]|e] eqn:E; simpl in H; [| |discriminate];
      destruct (mapM parse_item rest) eqn:E'; simpl in H; try discriminate;
      injection H as <-; simpl; [constructor; [eapply parse_item_kept_truthy; eauto |]|];
      apply IH; reflexivity.
Qed.

Lemma categorize_lengths (kept : list (movie * bool)) :
  length (fst (categorize kept)) + length (snd (categorize kept)) = length kept.
Proof.
  induction kept as [|[m [|]] kept IH]; simpl; [reflexivity | |]; simpl in IH; lia.
Qed.

Lemma categorize_perm (kept : list (movie * bool)) :
  Permutation (fst (categorize kept) ++ snd (categorize kept)) (map fst kept).
Proof.
  induction kept as [|[m [|]] kept IH]; simpl; [constructor | |].
  - constructor. exact IH.
  - simpl in IH. apply Permutation_sym, Permutation_cons_app, Permutation_sym, IH.
Qed.

Lemma categorize_in (kept : list (movie * bool)) (w wl : list movie) (m : movie) :
  (w, wl) = categorize kept -> In m (w ++ wl) -> In m (map fst kept).
Proof.
  intros Hc. apply Permutation_in.
  pose proof (categorize_perm kept) as Hp. rewrite <- Hc in Hp. exact Hp.
Qed.

(** ** Theorems *)

(** C4. Functional behaviour of one loop iteration on a dict whose [state]
    and [meta] are absent or dicts. An item with a falsy [_id] or [name] is
    skipped. A kept item is the canonical item of the spec: the poster falls
    back to [meta.poster], the year to [meta.year], the type defaults to
    ["movie"]. It goes to the watched list exactly when [timesWatched > 0],
    with [timesWatched] defaulting to 0. A non-numeric counter raises
    [TypeError]. *)
Theorem parse_item_spec (o : list (string * json)) :
  shape_ok o = true ->
  parse_item (JObj o) =
    if keep o then
      let* w := py_gt_zero (times_watched o) in
      ret (Some (canonical o, w))
    else ret None.
Proof.
  unfold keep, canonical, times_watched, meta_fields. parse_item_cases; reflexivity.
Qed.

Lemma parse_item_spec_witness :
  let o := [("_id", JStr "tt1"); ("name", JStr "A");
            ("meta", JObj [("poster", JStr "p.jpg"); ("year", JInt 1999)]);
            ("state", JObj [("timesWatched", JInt 1)])] in
  shape_ok o = true /\
  parse_item (JObj o) =
    if keep o then
      let* w := py_gt_zero (times_watched o) in
      ret (Some (canonical o, w))
    else ret None.
Proof. intros o. split; [reflexivity | apply parse_item_spec; reflexivity]. Defined.

(** An item that parses is skipped exactly when its [_id] or its [name] is
    falsy. *)
Lemma parse_item_dropped_iff (o : list (string * json)) (r : option (movie * bool)) :
  parse_item (JObj o) = Ok r -> (r = None <-> keep o = false).
Proof.
  unfold parse_item, keep. py_run. intros H.
  repeat (apply bind_eq_Ok in H; destruct H as (? & _ & H)).
  destruct (py_truthy (field o "_id" _)), (py_truthy (field o "name" _)); simpl in H;
    try (injection H as <-; split; auto; discriminate).
  apply bind_eq_Ok in H. destruct H as (? & _ & H). injection H as <-.
  split; discriminate.
Qed.

(** C1. Refinement: the loop of [parse_library_data] computes the
    abstract contract. It normalises every item (aborting on the first
    exception), drops the skipped ones, and partitions the rest into watched
    and watchlist, each in input order. *)
Theorem parse_library_data_refines (api_response : json) :
  parse_library_data api_response =
    let* result := py_get api_response "result" (JArr []) in
    let* items := py_iter result in
    let* kept := normalize items in
    ret (categorize kept).
Proof.
  unfold parse_library_data.
  destruct (py_get api_response "result" (JArr [])); [simpl | reflexivity].
  destruct (py_iter a); [simpl | reflexivity].
  rewrite parse_loop_normalize. reflexivity.
Qed.

Lemma parse_library_data_Ok (api_response : json) (w wl : list movie) :
  parse_library_data api_response = Ok (w, wl) ->
  exists items kept,
    bind (py_get api_response "result" (JArr [])) py_iter = Ok items /\
    normalize items = Ok kept /\ (w, wl) = categorize kept.
Proof.
  unfold parse_library_data. intros H.
  apply bind_eq_Ok in H as (result & Hr & H).
  apply bind_eq_Ok in H as (items & Hi & H).
  rewrite parse_loop_normalize in H.
  apply bind_eq_Ok in H as (kept & Hk & H).
  unfold ret in H. simpl in H. injection H as <- <-. exists items, kept. rewrite Hr.
  split; [exact Hi | split; [exact Hk | symmetry; apply surjective_pairing]].
Qed.

(** Only a dict item can be parsed: [item.get] raises on anything else. *)
Lemma normalize_not_dict (item : json) (items : list json) :
  (forall o, item <> JObj o) -> normalize (item :: items) = Err AttributeError.
Proof. intros H. destruct item; try reflexivity. exfalso. eapply H. reflexivity. Qed.

(** The value a successful parse iterated: the response is a dict, and its
    ["result"] is absent, a list, or an empty str or dict (a non-empty str
    or dict yields keys or characters, on which [item.get] raises). *)
Lemma parse_library_data_shape (api_response : json) (w wl : list movie) :
  parse_library_data api_response = Ok (w, wl) ->
  exists o items kept,
    api_response = JObj o /\ normalize items = Ok kept /\ (w, wl) = categorize kept /\
    match assoc_lookup "result" o with
    | None => items = []
    | Some r => py_iter r = Ok items /\ (r = JArr items \/ items = [])
    end.
Proof.
  intros (items & kept & Hi & Hn & Hc)%parse_library_data_Ok.
  destruct api_response as [| | | | |o]; try discriminate.
  exists o, items, kept. do 3 (split; [reflexivity || assumption |]).
  simpl in Hi. destruct (assoc_lookup "result" o) as [r|]; [|injection Hi as <-; reflexivity].
  split; [exact Hi |].
  destruct r as [| | |s|l|o']; try discriminate; simpl in Hi; injection Hi as <-; [| auto |].
  - destruct (py_chars s) as [|c cs]; [auto |]. cbn [map] in Hn. rewrite normalize_not_dict in Hn by discriminate. discriminate.
  - destruct o' as [|[k v] o']; [auto |]. cbn [map] in Hn. rewrite normalize_not_dict in Hn by discriminate. discriminate.
Qed.

(** The fields of a kept item: [_id], [name] and [type] as read, the
    poster and year as resolved. *)
Lemma parse_item_fields (o : list (string * json)) (m : movie) (w : bool) :
  parse_item (JObj o) = Ok (Some (m, w)) ->
  imdbID m = field o "_id" (JStr "") /\ Title m = field o "name" (JStr "") /\
  resolve_poster (JObj o) = Ok (poster m) /\ resolve_year (JObj o) = Ok (year m) /\
  movie_type m = field o "type" (JStr "movie").
Proof.
  unfold parse_item. rewrite !py_get_field. cbn [bind]. intros H.
  repeat (apply bind_eq_Ok in H; destruct H as (? & ? & H)).
  destruct (negb _ || negb _) in H; simpl in H; [discriminate |].
  apply bind_eq_Ok in H as (? & _ & H). injection H as <- _. simpl. auto.
Qed.

(** Every item of a normalised list parsed, and the kept ones are in the
    result. *)
Lemma normalize_item (items : list json) (kept : list (movie * bool)) (item : json) :
  normalize items = Ok kept -> In item items ->
  exists r, parse_item item = Ok r /\ forall p, r = Some p -> In p kept.
Proof.
  unfold normalize. revert kept.
  induction items as [|it rest IH]; intros kept H Hin; [destruct Hin |]. simpl in H.
  destruct (parse_item it) as [r|e] eqn:E; simpl in H; [|discriminate].
  destruct (mapM parse_item rest) as [rs|e] eqn:E'; simpl in H; [|discriminate].
  injection H as <-. destruct Hin as [<- | Hin].
  - exists r. split; [exact E |]. intros p ->. simpl. left. reflexivity.
  - destruct (IH (filter_some rs) eq_refl Hin) as (r' & Hr' & Hk).
    exists r'. split; [exact Hr' |]. intros p Hp. specialize (Hk p Hp).
    destruct r as [p'|]; simpl; auto.
Qed.

(** A kept item of the API answer is in one of the two exported lists. *)
Lemma parse_library_data_kept_in (items : list json) (w wl : list movie) (o : list (string * json)) :
  parse_library_data (JObj [("result", JArr items)]) = Ok (w, wl) ->
  In (JObj o) items -> keep o = true ->
  exists m b, parse_item (JObj o) = Ok (Some (m, b)) /\ In m (w ++ wl).
Proof.
  intros (items' & kept & Hi & Hn & Hc)%parse_library_data_Ok Hin Hk.
  simpl in Hi. injection Hi as <-.
  destruct (normalize_item _ _ _ Hn Hin) as ([[m b]|] & Hr & Hkept).
  - exists m, b. split; [exact Hr |].
    replace (w ++ wl) with (fst (categorize kept) ++ snd (categorize kept)) by (rewrite <- Hc; reflexivity).
    apply (Permutation_in _ (Permutation_sym (categorize_perm kept))).
    apply (in_map fst _ (m, b)), Hkept. reflexivity.
  - apply parse_item_dropped_iff in Hr. rewrite (proj1 Hr eq_refl) in Hk. discriminate.
Qed.

(** C2. Drop filter: every item of either output list has a truthy
    [imdbID] and a truthy [Title]; an item with a falsy [_id] or [name]
    never reaches the output. *)
Theorem parse_library_data_drop_filter (api_response : json) (w wl : list movie) :
  parse_library_data api_response = Ok (w, wl) ->
  Forall (fun m => py_truthy (imdbID m) = true /\ py_truthy (Title m) = true) (w ++ wl).
Proof.
  intros (items & kept & _ & Hn & Hc)%parse_library_data_Ok.
  apply normalize_kept_truthy in Hn.
  apply Forall_forall. intros m Hm.
  apply (categorize_in kept w wl m Hc), in_map_iff in Hm.
  destruct Hm as ([m' b] & <- & Hin).
  rewrite Forall_forall in Hn. exact (Hn _ Hin).
Qed.

(** C3. Partition completeness: the two lists together are a permutation of
    the kept items, so each kept item lands in exactly one list and
    [len(watched) + len(watchlist)] is the number of kept items. The kept
    items are the input items with a truthy [_id] and [name]. *)
Theorem parse_library_data_partition (api_response : json) (w wl : list movie) :
  parse_library_data api_response = Ok (w, wl) ->
  exists items kept,
    bind (py_get api_response "result" (JArr [])) py_iter = Ok items /\
    normalize items = Ok kept /\
    length w + length wl = length kept /\
    Permutation (w ++ wl) (map fst kept) /\
    length kept = length (List.filter (fun i => match i with JObj o => keep o | _ => false end) items).
Proof.
  intros (items & kept & Hi & Hn & Hc)%parse_library_data_Ok.
  exists items, kept.
  pose proof (categorize_lengths kept) as Hl. pose proof (categorize_perm kept) as Hp.
  rewrite <- Hc in Hl, Hp. simpl in Hl, Hp.
  do 4 (split; [assumption |]).
  clear Hi Hc Hl Hp. revert kept Hn. unfold normalize.
  induction items as [|item rest IH]; intros kept Hn; simpl in Hn.
  - injection Hn as <-. reflexivity.
  - destruct (parse_item item) as [r|] eqn:E; [simpl in Hn | discriminate].
    destruct (mapM parse_item rest) eqn:E'; simpl in Hn; [|discriminate].
    injection Hn as <-.
    destruct item as [| | | | | o];
      try (unfold parse_item in E; simpl in E; discriminate).
    pose proof (parse_item_dropped_iff o r E) as Hd. simpl.
    destruct r as [[m b]|], (keep o); simpl; try (destruct Hd as [H1 H2]; discriminate (H1 eq_refl) || discriminate (H2 eq_refl));
      f_equal; apply IH; reflexivity.
Qed.

(** A two-item response used by the witnesses. *)
Definition sample_response : json :=
  JObj [("result", JArr [
    JObj [("_id", JStr "tt001"); ("name", JStr "A"); ("state", JObj [("timesWatched", JInt 2)])];
    JObj [("_id", JStr ""); ("name", JStr "C")]])].

Lemma parse_library_data_drop_filter_witness :
  parse_library_data sample_response =
    Ok ([mk_movie (JStr "tt001") (JStr "A") JNull JNull (JStr "movie")], []) /\
  Forall (fun m => py_truthy (imdbID m) = true /\ py_truthy (Title m) = true)
    ([mk_movie (JStr "tt001") (JStr "A") JNull JNull (JStr "movie")] ++ []).
Proof.
  split; [vm_compute; reflexivity |].
  apply (parse_library_data_drop_filter sample_response). vm_compute. reflexivity.
Defined.

Lemma parse_library_data_partition_witness :
  let w := [mk_movie (JStr "tt001") (JStr "A") JNull JNull (JStr "movie")] in
  let wl := @nil movie in
  parse_library_data sample_response = Ok (w, wl) /\
  exists items kept,
    bind (py_get sample_response "result" (JArr [])) py_iter = Ok items /\
    normalize items = Ok kept /\
    length w + length wl = length kept /\
    Permutation (w ++ wl) (map fst kept) /\
    length kept = length (List.filter (fun i => match i with JObj o => keep o | _ => false end) items).
Proof.
  intros w wl. split; [vm_compute; reflexivity |].
  apply (parse_library_data_partition sample_response). vm_compute. reflexivity.
Defined.

(** C28. The skip test comes after the field reads. An item whose [state]
    is present but not a dict raises [AttributeError] (from
    [state.get('timesWatched', 0)]), even when its [_id] is empty and the
    item would be skipped. The spec says such items are dropped regardless
    of their other fields. *)
Theorem parse_item_state_not_dict (o : list (string * json)) (v : json) :
  assoc_lookup "state" o = Some v -> is_dict v = false ->
  parse_item (JObj o) = Err AttributeError.
Proof.
  intros Hs Hv. unfold parse_item. py_run. unfold field. rewrite Hs.
  rewrite py_get_not_dict by exact Hv. reflexivity.
Qed.

Lemma parse_item_state_not_dict_witness :
  assoc_lookup "state" [("_id", JStr ""); ("name", JStr "C"); ("state", JNull)] = Some JNull /\
  is_dict JNull = false /\
  parse_item (JObj [("_id", JStr ""); ("name", JStr "C"); ("state", JNull)]) = Err AttributeError.
Proof.
  split; [reflexivity | split; [reflexivity |]].
  apply (parse_item_state_not_dict _ JNull); reflexivity.
Defined.

(** Whether the export of a list of items succeeds, item by item. *)
Lemma parse_library_data_is_ok (items : list json) :
  is_ok (parse_library_data (JObj [("result", JArr items)])) =
  forallb (fun i => is_ok (parse_item i)) items.
Proof.
  unfold parse_library_data. simpl. rewrite parse_loop_normalize, <- mapM_is_ok.
  unfold normalize. destruct (mapM parse_item items); reflexivity.
Qed.

(** C29. Error propagation: the export of a list of items succeeds exactly
    when every item parses. One malformed item raises out of
    [parse_library_data] and aborts the whole export; no item is skipped
    on error. *)
Theorem parse_library_data_ok_iff (items : list json) :
  is_ok (parse_library_data (JObj [("result", JArr items)])) = true <->
  Forall (fun i => is_ok (parse_item i) = true) items.
Proof.
  rewrite parse_library_data_is_ok, <- mapM_is_ok. apply mapM_Ok_iff.
Qed.

(** An item the loop accepts: a dict with [state] and [meta] absent or
    dicts, and a numeric counter when the item is kept. *)
Definition item_ok (item : json) : bool :=
  match item with
  | JObj o => shape_ok o && (negb (keep o) || is_ok (py_gt_zero (times_watched o)))
  | _ => false
  end.

Lemma parse_item_ok (item : json) :
  item_ok item = true -> is_ok (parse_item item) = true.
Proof.
  destruct item as [| | | | | o]; try discriminate. simpl.
  intros [Hs Hk]%andb_true_iff. revert Hs Hk. unfold keep, times_watched.
  parse_item_cases; simpl; intros Hk; try reflexivity;
    (destruct (py_gt_zero _); [reflexivity | discriminate]).
Qed.

(** C30. Totality: on a response whose items all have the shape the API
    documents, [parse_library_data] returns a result and raises nothing. *)
Theorem parse_library_data_total (items : list json) :
  forallb item_ok items = true ->
  is_ok (parse_library_data (JObj [("result", JArr items)])) = true.
Proof.
  intros H. rewrite parse_library_data_is_ok, forallb_forall.
  intros i Hi. apply parse_item_ok. rewrite forallb_forall in H. auto.
Qed.

Lemma parse_library_data_total_witness :
  forallb item_ok [JObj [("_id", JStr "tt1"); ("name", JStr "A")]] = true /\
  is_ok (parse_library_data (JObj [("result", JArr [JObj [("_id", JStr "tt1"); ("name", JStr "A")]])])) = true.
Proof. split; [reflexivity | apply parse_library_data_total; reflexivity]. Defined.

(** The end-to-end scenario of the spec: [tt001] watched twice goes to
    the watched list, [tt002] watched zero times to the watchlist, and the
    item with an empty [_id] is dropped. *)
Example parse_library_data_scenario :
  parse_library_data (JObj [("result", JArr [
    JObj [("_id", JStr "tt001"); ("name", JStr "A"); ("state", JObj [("timesWatched", JInt 2)])];
    JObj [("_id", JStr "tt002"); ("name", JStr "B"); ("state", JObj [("timesWatched", JInt 0)])];
    JObj [("_id", JStr ""); ("name", JStr "C"); ("state", JObj [])]])]) =
  Ok ([mk_movie (JStr "tt001") (JStr "A") JNull JNull (JStr "movie")],
      [mk_movie (JStr "tt002") (JStr "B") JNull JNull (JStr "movie")]).
Proof. vm_compute. reflexivity. Qed.
