(* ===== verification/Batching.v ===== *)
(** * Batching: the slices of [library_importer.restore_library]

    [restore_library] walks [for i in range(0, total_items, batch_size)] and
    posts [items[i:i + batch_size]]. This file models Python's [range] with
    a positive step and list slicing with non-negative bounds, builds the
    list of batches exactly as the loop does, and proves it equal to a
    reference chunking function defined by well-founded recursion. The
    theorems are: the batches concatenate back to the input, every batch has
    between 1 and [batch_size] items, and there are ceil(N / batch_size) of
    them. *)

From Stdlib Require Import List Arith Lia.
From Equations Require Import Equations.
From S2P Require Import Prelude.
Import ListNotations.

(** [batch_size = 50] of [restore_library]. *)
Definition batch_size : nat := 50.

(** ** Python's [range] and slicing *)

(** [range(start, stop, step)] for [step > 0], with fuel. Each iteration
    raises [start] by at least one, so [stop - start] iterations always
    suffice ([range_fuel_enough]). *)
Fixpoint range_fuel (fuel start stop step : nat) : list nat :=
  match fuel with
  | 0 => []
  | S f => if start <? stop then start :: range_fuel f (start + step) stop step else []
  end.

Definition py_range (start stop step : nat) : list nat :=
  range_fuel (stop - start) start stop step.

(** [l[i:j]] for [0 <= i] and [0 <= j]: the elements of index [i <= k < j],
    clipped to the list. *)
Definition py_slice {A : Type} (l : list A) (i j : nat) : list A :=
  firstn (j - i) (skipn i l).

(** The batches the loop posts, in order: [items[i:i+bs]] for every [i] of
    [range(0, len(items), bs)]. *)
Definition batches {A : Type} (bs : nat) (items : list A) : list (list A) :=
  map (fun i => py_slice items i (i + bs)) (py_range 0 (length items) bs).

(** ** The reference: chunking by well-founded recursion *)

Equations chunks {A : Type} (bs : nat) (l : list A) : list (list A)
  by wf (length l) lt :=
  chunks bs [] := [];
  chunks 0 (x :: l') := [x :: l'];
  chunks (S k) (x :: l') := firstn (S k) (x :: l') :: chunks (S k) (skipn (S k) (x :: l')).
Next Obligation. intros. simpl. rewrite length_skipn. simpl. lia. Qed.

(** ceil(n / d) for [d > 0]. *)
Definition ceil_div (n d : nat) : nat := (n + d - 1) / d.
Arguments ceil_div : simpl never.

(** ** Lemmas *)

Lemma range_fuel_enough (fuel fuel' start stop step : nat) :
  0 < step -> stop - start <= fuel -> stop - start <= fuel' ->
  range_fuel fuel start stop step = range_fuel fuel' start stop step.
Proof.
  intros Hs. revert fuel' start.
  induction fuel as [|f IH]; intros [|f'] start H1 H2; simpl; try reflexivity.
  - destruct (Nat.ltb_spec start stop); [lia | reflexivity].
  - destruct (Nat.ltb_spec start stop); [lia | reflexivity].
  - destruct (Nat.ltb_spec start stop); [|reflexivity].
    f_equal. apply IH; lia.
Qed.

Lemma chunks_skipn_nil {A : Type} (bs : nat) (l : list A) (i : nat) :
  length l <= i -> chunks bs (skipn i l) = [].
Proof.
  intros H.
  assert (skipn i l = []) as -> by (apply length_zero_iff_nil; rewrite length_skipn; lia).
  simp chunks. reflexivity.
Qed.

Lemma chunks_cons_step {A : Type} (k : nat) (l : list A) :
  l <> [] -> chunks (S k) l = firstn (S k) l :: chunks (S k) (skipn (S k) l).
Proof. destruct l as [|x l']; [congruence |]. intros _. simp chunks. reflexivity. Qed.

(** The loop's slices from index [i] on are the chunks of [skipn i]. *)
Lemma range_slices_chunks {A : Type} (bs : nat) (items : list A) (fuel i : nat) :
  0 < bs -> length items - i <= fuel ->
  map (fun j => py_slice items j (j + bs)) (range_fuel fuel i (length items) bs) =
  chunks bs (skipn i items).
Proof.
  intros Hbs. destruct bs as [|k]; [lia |]. revert i.
  induction fuel as [|f IH]; intros i Hf; simpl.
  - symmetry. apply chunks_skipn_nil. lia.
  - destruct (Nat.ltb_spec i (length items)) as [Hi|Hi].
    + simpl. rewrite chunks_cons_step.
      * unfold py_slice. replace (i + S k - i) with (S k) by lia. f_equal.
        rewrite IH by lia. rewrite skipn_skipn. replace (S k + i) with (i + S k) by lia. reflexivity.
      * intros Hn. apply (f_equal (@length A)) in Hn. rewrite length_skipn in Hn.
        simpl in Hn. lia.
    + symmetry. apply chunks_skipn_nil. exact Hi.
Qed.

Lemma chunks_concat {A : Type} (bs : nat) (l : list A) :
  concat (chunks bs l) = l.
Proof.
  funelim (chunks bs l); simp chunks; simpl; try reflexivity.
  - rewrite app_nil_r. reflexivity.
  - match goal with IH : concat (chunks _ _) = _ |- _ => simpl in IH; rewrite IH end.
    rewrite firstn_skipn. reflexivity.
Qed.

Lemma chunks_sizes {A : Type} (bs : nat) (l : list A) :
  0 < bs -> Forall (fun c => 0 < length c <= bs) (chunks bs l).
Proof.
  funelim (chunks bs l); simp chunks; intros Hbs; [constructor | lia |].
  constructor.
  - rewrite length_firstn. simpl. lia.
  - match goal with IH : 0 < S _ -> Forall _ _ |- _ => apply IH; lia end.
Qed.

Lemma ceil_div_step (n k : nat) :
  0 < n -> ceil_div n (S k) = S (ceil_div (n - S k) (S k)).
Proof.
  intros Hn. unfold ceil_div.
  destruct (Nat.le_gt_cases n (S k)) as [Hle|Hgt].
  - replace (n - S k) with 0 by lia. replace (0 + S k - 1) with k by lia.
    rewrite (Nat.div_small k (S k)) by lia.
    replace (n + S k - 1) with (1 * S k + (n - 1)) by lia.
    rewrite Nat.div_add_l by lia. rewrite Nat.div_small by lia. reflexivity.
  - replace (n + S k - 1) with (1 * S k + (n - S k + S k - 1)) by lia.
    rewrite Nat.div_add_l by lia. reflexivity.
Qed.

Lemma chunks_count {A : Type} (bs : nat) (l : list A) :
  0 < bs -> length (chunks bs l) = ceil_div (length l) bs.
Proof.
  funelim (chunks bs l); simp chunks; intros Hbs; simpl.
  - unfold ceil_div. rewrite Nat.div_small; lia.
  - lia.
  - match goal with IH : 0 < S _ -> length (chunks _ _) = _ |- _ => simpl in IH; rewrite IH by lia end.
    rewrite (ceil_div_step (S (length l'))) by lia. f_equal.
    rewrite length_skipn. reflexivity.
Qed.

Lemma batches_chunks {A : Type} (bs : nat) (items : list A) :
  0 < bs -> batches bs items = chunks bs items.
Proof.
  intros Hbs. unfold batches, py_range.
  rewrite range_slices_chunks by (auto || lia). reflexivity.
Qed.

(** ** Theorems, at the program's batch size *)

(** C16. Equivalence: the slices [items[i:i+50]] for [i] in
    [range(0, len(items), 50)] are exactly the reference chunks of 50
    items. *)
Theorem batches_equiv_chunks {A : Type} (items : list A) :
  batches batch_size items = chunks batch_size items.
Proof. apply batches_chunks. unfold batch_size. lia. Qed.

(** Coverage in order: concatenating the batches gives back the items,
    so every item is sent exactly once and batch boundaries never reorder
    items. *)
Theorem batches_concat {A : Type} (items : list A) :
  concat (batches batch_size items) = items.
Proof. rewrite batches_chunks by (unfold batch_size; lia). apply chunks_concat. Qed.

(** Bounds: every batch holds between 1 and 50 items. *)
Theorem batches_sizes {A : Type} (items : list A) :
  Forall (fun b => 0 < length b <= batch_size) (batches batch_size items).
Proof. rewrite batches_chunks by (unfold batch_size; lia). apply chunks_sizes. unfold batch_size. lia. Qed.

(** The loop issues ceil(N / 50) batches for N items. *)
Theorem batches_count {A : Type} (items : list A) :
  length (batches batch_size items) = ceil_div (length items) batch_size.
Proof. rewrite batches_chunks by (unfold batch_size; lia). apply chunks_count. unfold batch_size. lia. Qed.

(** Spec property 5: for N items the loop posts ceil(N / 50)
    batches. Each holds between 1 and 50 items, and their concatenation is
    the item list, so every item is sent exactly once and in its original
    order. *)
Theorem batches_spec {A : Type} (items : list A) :
  length (batches batch_size items) = ceil_div (length items) batch_size /\
  Forall (fun b => 0 < length b <= batch_size) (batches batch_size items) /\
  concat (batches batch_size items) = items.
Proof. split; [apply batches_count | split; [apply batches_sizes | apply batches_concat]]. Qed.

(** Termination of the [range] model: with a positive step, any fuel
    of at least [stop - start] gives the same list as [py_range]. The fuel
    bound is never what stops the iteration. *)
Theorem range_fuel_adequate (fuel start stop step : nat) :
  0 < step -> stop - start <= fuel ->
  range_fuel fuel start stop step = py_range start stop step.
Proof. intros Hs Hf. unfold py_range. apply range_fuel_enough; lia. Qed.

Lemma range_fuel_adequate_witness :
  0 < 50 /\ 120 - 0 <= 1000 /\ range_fuel 1000 0 120 50 = py_range 0 120 50.
Proof. split; [lia | split; [lia | apply range_fuel_adequate; lia]]. Defined.

Example batches_120 :
  map (@length nat) (batches batch_size (seq 0 120)) = [50; 50; 20].
Proof. reflexivity. Qed.
