(* ===== verification/Http.v ===== *)
(** * Http: what [requests.post] returns, as the program reads it

    Both API calls of the program ([datastoreGet] in [make_api_request] and
    [datastorePut] in [restore_library]) post a JSON payload, call
    [raise_for_status()] and decode the body with [response.json()]. This
    file holds the response type and those two steps. *)

From Stdlib Require Import String ZArith List Bool.
From S2P Require Import Prelude Json.

(** What [requests.post] gives back: an exception raised by the transport
    (connection error, timeout), or a response with a status code and a
    body that is JSON ([Some]) or not ([None]). *)
Inductive http_response : Type :=
| Transport (e : py_exn)
| Response (status : Z) (body : option json).

(** [response.raise_for_status()]: [HTTPError] for a 4xx or 5xx code. *)
Definition raise_for_status (status : Z) : result unit :=
  if (400 <=? status)%Z && (status <? 600)%Z then raise (HTTPError status) else ret tt.

(** [response.json()]. *)
Definition response_json (body : option json) : result json :=
  match body with
  | Some j => Ok j
  | None => raise JSONDecodeError
  end.

