(* ===== verification/Synchronizer.v ===== *)
(** * Synchronizer: [library_importer.restore_library] and [load_backup]

    The restore loop posts each batch to [datastorePut] and inspects the
    response. It counts the batch's items when the body says
    [result == "ok"] or [success == True]. It logs and skips a batch on any
    other answer or on any exception. The server is an oracle [post] with a
    state of its own, so the theorems hold whatever the server answers and
    however its answers depend on earlier writes. The loop is defined for
    any sequence the code can slice, so the theorems also hold for a str
    (see [ImportDriver]). *)

From Stdlib Require Import String ZArith List Bool Lia.
From stdpp Require Import base.
From S2P Require Import Prelude Json Batching Http.
Import ListNotations.
Open Scope string_scope.
Open Scope list_scope.

(** ** One batch *)

(** The [try] body of one iteration after the post, lines 63-68:
    [Ok true] when the batch is acknowledged, [Ok false] for a recognised
    non-success answer, [Err] for every exception. *)
Definition batch_accepted (resp : http_response) : result bool :=
  match resp with
  | Transport e => raise e
  | Response status body =>
      let* _ := raise_for_status status in
      let* result := response_json body in
      let* r := py_get result "result" JNull in
      if py_eq_str r "ok" then ret true else
      let* s := py_get result "success" JNull in
      ret (py_eq_true s)
  end.

(** The payload of lines 57-61, with the batch as [json] serialises it. *)
Definition put_payload (auth_key : json) (changes : json) : json :=
  JObj [("authKey", auth_key); ("collection", JStr "libraryItem"); ("changes", changes)].

(** The log lines of the loop: restored range, "may have failed", and the
    exception handler's index. *)
Inductive log_event : Type :=
| Restored (first last total : nat)
| MayHaveFailed (batch_no : nat)
| FailedAt (index : nat).

(** ** The loop *)

Section Restore.
Context {Server : Type} {A : Type}.
(** [requests.post(url, json=payload, timeout=30)] against the server's
    current state. *)
Variable post : Server -> json -> http_response * Server.
(** [items] is whatever [load_backup] returned. The loop only takes its
    [len] and its slices, so it runs the same on a list (elements [json],
    a batch serialised as an array) and on a str (elements characters, a
    batch serialised as a string). [enc] is that serialisation. *)
Variable enc : list A -> json.

(** Lines 54-75: one iteration per index of [range(0, total, 50)],
    threading the success count, the server state and the log. *)
Fixpoint restore_loop (auth_key : json) (items : list A) (idxs : list nat)
  (success_count : nat) (srv : Server) (log : list log_event)
  : nat * Server * list log_event :=
  match idxs with
  | [] => (success_count, srv, log)
  | i :: rest =>
      let batch := py_slice items i (i + batch_size) in
      let '(resp, srv') := post srv (put_payload auth_key (enc batch)) in
      match batch_accepted resp with
      | Ok true =>
          restore_loop auth_key items rest (success_count + length batch) srv'
            (log ++ [Restored (i + 1) (Nat.min (i + length batch) (length items)) (length items)])
      | Ok false =>
          restore_loop auth_key items rest success_count srv'
            (log ++ [MayHaveFailed (i / batch_size + 1)])
      | Err _ =>
          restore_loop auth_key items rest success_count srv' (log ++ [FailedAt i])
      end
  end.

(** [restore_library(auth_key, items, logger)], lines 40-77: returns
    [success_count], with the server's final state and the log. *)
Definition restore_library (auth_key : json) (items : list A) (srv : Server)
  : nat * Server * list log_event :=
  restore_loop auth_key items (py_range 0 (length items) batch_size) 0 srv [].
End Restore.

(** ** The abstract contract *)

(** A response acknowledges its batch. *)
Definition accepted (resp : http_response) : bool :=
  match batch_accepted resp with Ok true => true | _ => false end.

(** The tally of the spec: the items of the acknowledged batches. *)
Definition tally {A : Type} (exchanges : list (list A * bool)) : nat :=
  sum_nat (map (fun (e : list A * bool) => if snd e then length (fst e) else 0) exchanges).

(** A server wrapped so that its state also records every exchange
    (payload posted, response returned), in order. *)
Definition recording {Server : Type} (post : Server -> json -> http_response * Server)
  (st : Server * list (json * http_response)) (payload : json)
  : http_response * (Server * list (json * http_response)) :=
  let '(resp, srv') := post (fst st) payload in
  (resp, (srv', snd st ++ [(payload, resp)])).

(** ** [load_backup] *)

(** The text [str(e)] of an exception, as the wrapper message uses it. *)
Definition exn_message (e : py_exn) : string :=
  match e with
  | ValueError msg => msg
  | JSONDecodeError => "Expecting value"
  | AttributeError => "AttributeError"
  | TypeError => "TypeError"
  | KeyError => "KeyError"
  | HTTPError _ => "HTTPError"
  | ConnectionError => "ConnectionError"
  | TimeoutError => "TimeoutError"
  | FileNotFoundError path => "[Errno 2] No such file or directory: '" ++ path ++ "'"
  | CsvError msg => msg
  end.

(** [load_backup(filepath)], lines 23-38: [contents] is what [json.load]
    returned or raised. A dict with ["result"] yields [data["result"]]
    (whatever it holds), a list yields itself, anything else raises. Every
    exception is re-raised as [ValueError("Failed to load backup: ...")]. *)
Definition load_backup (contents : result json) : result json :=
  let inner :=
    let* data := contents in
    match data with
    | JObj o =>
        match assoc_lookup "result" o with
        | Some r => ret r
        | None => raise (ValueError "Invalid backup format. Expected list or API response dict.")
        end
    | JArr _ => ret data
    | _ => raise (ValueError "Invalid backup format. Expected list or API response dict.")
    end in
  match inner with
  | Ok v => Ok v
  | Err e => raise (ValueError ("Failed to load backup: " ++ exn_message e))
  end.

(** ** Lemmas *)

(** The batch the loop posts for index [i]. *)
Definition slice_at {A : Type} (items : list A) (i : nat) : list A :=
  py_slice items i (i + batch_size).

Lemma recording_step {Server : Type} (post : Server -> json -> http_response * Server)
  (s : Server) (tr : list (json * http_response)) (p : json) :
  recording post (s, tr) p = (fst (post s p), (snd (post s p), tr ++ [(p, fst (post s p))])).
Proof. unfold recording. simpl. destruct (post s p). reflexivity. Qed.

(** The loop run against a recording server: the recorded exchanges are
    one per index, in order, and the count grows by the tally of the
    acknowledged batches. *)
Lemma restore_loop_recording {Server A : Type} (post : Server -> json -> http_response * Server)
  (enc : list A -> json) (auth_key : json) (items : list A) (idxs : list nat)
  (c : nat) (s : Server) (tr : list (json * http_response)) (log : list log_event) :
  let res := restore_loop (recording post) enc auth_key items idxs c (s, tr) log in
  exists new,
    snd (snd (fst res)) = tr ++ new /\
    map fst new = map (fun i => put_payload auth_key (enc (slice_at items i))) idxs /\
    fst (fst res) = c + tally (combine (map (slice_at items) idxs) (map (fun e => accepted (snd e)) new)) /\
    length (snd res) = length log + length idxs.
Proof.
  revert c s tr log. induction idxs as [|i idxs IH]; intros c s tr log; simpl.
  - exists []. rewrite app_nil_r. unfold tally. simpl. repeat split; try reflexivity; lia.
  - rewrite recording_step. destruct (post s _) as [resp s'] eqn:Hp. simpl.
    destruct (batch_accepted resp) as [[|]|e] eqn:Ha;
      match goal with
      | |- context [restore_loop _ _ _ _ _ ?c' (?s'', ?tr') ?log'] =>
          destruct (IH c' s'' tr' log') as (new & Htr & Hmap & Hcnt & Hlen)
      end;
      exists ((put_payload auth_key (enc (slice_at items i)), resp) :: new);
      rewrite Htr, <- app_assoc; simpl; rewrite Hmap, Hcnt, Hlen, length_app;
      unfold tally, accepted; simpl; rewrite ?Ha; simpl;
      unfold slice_at; (repeat split; try reflexivity; try lia).
Qed.

(** Recording changes nothing the loop computes. *)
Lemma restore_loop_recording_same {Server A : Type} (post : Server -> json -> http_response * Server)
  (enc : list A -> json) (auth_key : json) (items : list A) (idxs : list nat)
  (c : nat) (s : Server) (tr : list (json * http_response)) (log : list log_event) :
  let res := restore_loop (recording post) enc auth_key items idxs c (s, tr) log in
  let res' := restore_loop post enc auth_key items idxs c s log in
  fst (fst res) = fst (fst res') /\ fst (snd (fst res)) = snd (fst res') /\ snd res = snd res'.
Proof.
  revert c s tr log. induction idxs as [|i idxs IH]; intros c s tr log; simpl; [auto |].
  rewrite recording_step. destruct (post s _) as [resp s']. simpl.
  destruct (batch_accepted resp) as [[|]|e]; apply IH.
Qed.

Lemma tally_le {A : Type} (bs : list (list A)) (acks : list bool) :
  tally (combine bs acks) <= sum_nat (map (@length A) bs).
Proof.
  revert acks. unfold tally.
  induction bs as [|b bs IH]; intros [|a acks]; simpl; try lia.
  specialize (IH acks). destruct a; lia.
Qed.

Lemma sum_nat_length_concat {A : Type} (ls : list (list A)) :
  sum_nat (map (@length A) ls) = length (concat ls).
Proof. induction ls as [|l ls IH]; simpl; [reflexivity |]. rewrite length_app. lia. Qed.

Lemma tally_full {A : Type} (bs : list (list A)) (acks : list bool) :
  length acks = length bs -> Forall (fun b => 0 < length b) bs ->
  tally (combine bs acks) = sum_nat (map (@length A) bs) <-> Forall (fun a => a = true) acks.
Proof.
  revert acks. unfold tally.
  induction bs as [|b bs IH]; intros [|a acks] Hl Hpos; simpl in *; try discriminate.
  - split; constructor.
  - inversion Hpos as [|? ? Hb Hbs]; subst. injection Hl as Hl.
    pose proof (tally_le bs acks) as Hle. unfold tally in Hle.
    rewrite Forall_cons_iff, <- (IH acks Hl Hbs).
    destruct a; split; intros H.
    + split; [reflexivity | lia].
    + destruct H as [_ H]. lia.
    + lia.
    + destruct H; discriminate.
Qed.

#[export] Hint Resolve tally_le : pyrun.

Lemma batches_slice_at {A : Type} (items : list A) :
  batches batch_size items = map (slice_at items) (py_range 0 (length items) batch_size).
Proof. reflexivity. Qed.

(** The recorded run of [restore_library]: the exchanges, the count and the
    log. *)
Lemma restore_library_recorded {Server A : Type} (post : Server -> json -> http_response * Server)
  (enc : list A -> json) (auth_key : json) (items : list A) (s0 : Server) :
  let res := restore_library (recording post) enc auth_key items (s0, []) in
  map fst (snd (snd (fst res))) = map (fun b => put_payload auth_key (enc b)) (batches batch_size items) /\
  fst (fst res) = tally (combine (batches batch_size items)
                                 (map (fun e => accepted (snd e)) (snd (snd (fst res))))) /\
  length (snd res) = length (batches batch_size items).
Proof.
  unfold restore_library. rewrite batches_slice_at.
  destruct (restore_loop_recording post enc auth_key items (py_range 0 (length items) batch_size)
              0 s0 [] []) as (new & Htr & Hmap & Hcnt & Hlen).
  simpl in *. rewrite Htr, Hcnt, Hlen, map_map, length_map. simpl. auto.
Qed.

(** ** Theorems *)

(** C5. Tally refinement: against any server, [restore_library] returns
    the number of items of the batches whose response acknowledged them.
    A batch counts in full or not at all, and no other item counts. *)
Theorem restore_library_tally {Server A : Type} (post : Server -> json -> http_response * Server)
  (enc : list A -> json) (auth_key : json) (items : list A) (s0 : Server) :
  let res := restore_library (recording post) enc auth_key items (s0, []) in
  fst (fst res) = tally (combine (batches batch_size items)
                                 (map (fun e => accepted (snd e)) (snd (snd (fst res))))).
Proof. apply restore_library_recorded. Qed.

(** C6. Best effort: whatever the server answers, every batch is posted
    exactly once, in order, with its own payload. A failed batch never stops
    the loop and is never retried, and the log has one line per batch. *)
Theorem restore_library_posts_every_batch {Server A : Type}
  (post : Server -> json -> http_response * Server)
  (enc : list A -> json) (auth_key : json) (items : list A) (s0 : Server) :
  let res := restore_library (recording post) enc auth_key items (s0, []) in
  map fst (snd (snd (fst res))) = map (fun b => put_payload auth_key (enc b)) (batches batch_size items) /\
  length (snd res) = length (batches batch_size items).
Proof. pose proof (restore_library_recorded post enc auth_key items s0) as H. simpl in *. tauto. Qed.

(** Bounds: the restored count never exceeds the number of items,
    whatever the server does. *)
Theorem restore_library_bounds {Server A : Type} (post : Server -> json -> http_response * Server)
  (enc : list A -> json) (auth_key : json) (items : list A) (s0 : Server) :
  fst (fst (restore_library post enc auth_key items s0)) <= length items.
Proof.
  destruct (restore_loop_recording_same post enc auth_key items
              (py_range 0 (length items) batch_size) 0 s0 [] []) as [Hc _].
  unfold restore_library. simpl in Hc. rewrite <- Hc.
  destruct (restore_library_recorded post enc auth_key items s0) as (_ & Ht & _).
  unfold restore_library in Ht. rewrite Ht.
  transitivity (sum_nat (map (@length A) (batches batch_size items))); [apply tally_le |].
  rewrite sum_nat_length_concat, batches_concat. lia.
Qed.

(** C25. Full success: the count equals the number of items exactly when
    the server acknowledged every batch. *)
Theorem restore_library_full_iff {Server A : Type} (post : Server -> json -> http_response * Server)
  (enc : list A -> json) (auth_key : json) (items : list A) (s0 : Server) :
  let res := restore_library (recording post) enc auth_key items (s0, []) in
  fst (fst res) = length items <->
  Forall (fun e => accepted (snd e) = true) (snd (snd (fst res))).
Proof.
  destruct (restore_library_recorded post enc auth_key items s0) as (Hm & Ht & _).
  simpl in *. rewrite Ht.
  assert (length items = sum_nat (map (@length A) (batches batch_size items))) as ->
    by (rewrite sum_nat_length_concat, batches_concat; reflexivity).
  rewrite tally_full.
  - rewrite Forall_map. reflexivity.
  - rewrite length_map, <- (length_map fst), Hm, length_map. reflexivity.
  - eapply Forall_impl; [| apply batches_sizes]. simpl. lia.
Qed.

(** A server that fails its second call: the scenario of the spec. *)
Definition flaky_server (n : nat) (payload : json) : http_response * nat :=
  (if Nat.eqb n 1 then Transport ConnectionError
   else Response 200 (Some (JObj [("result", JStr "ok")])), S n).

Lemma range_fuel_step (f start stop step : nat) :
  start < stop -> range_fuel (S f) start stop step = start :: range_fuel f (start + step) stop step.
Proof. intros H. simpl. apply Nat.ltb_lt in H. rewrite H. reflexivity. Qed.

Lemma range_fuel_stop (f start stop step : nat) : stop <= start -> range_fuel f start stop step = [].
Proof. intros H. destruct f; simpl; [reflexivity |]. apply Nat.ltb_ge in H. rewrite H. reflexivity. Qed.

Lemma length_py_slice {A : Type} (l : list A) (i j : nat) :
  length (py_slice l i j) = Nat.min (j - i) (length l - i).
Proof. unfold py_slice. rewrite length_firstn, length_skipn. reflexivity. Qed.

(** C26. The partial-failure property of the spec, for every list of
    three batches (101 to 150 items) and a server whose second write
    fails. The tally is the size of the first batch plus the size of the
    third. All three batches are posted, so the loop does not stop after
    the failure, which is logged at index 50. *)
Theorem restore_library_second_batch_fails (key : json) (items : list json) :
  100 < length items <= 150 ->
  restore_library flaky_server JArr key items 0 =
    (50 + (length items - 100), 3,
     [Restored 1 50 (length items); FailedAt 50; Restored 101 (length items) (length items)]).
Proof.
  unfold restore_library, py_range, batch_size. rewrite Nat.sub_0_r.
  destruct (length items) as [|[|[|[|m]]]] eqn:E; intros Hn; try lia.
  do 3 (rewrite range_fuel_step by lia). rewrite range_fuel_stop by lia.
  rewrite <- E. cbn -[Nat.min py_slice length batch_size].
  rewrite !length_py_slice. unfold batch_size. repeat f_equal; lia.
Qed.

Lemma restore_library_second_batch_fails_witness :
  100 < length (map (fun k => JInt (Z.of_nat k)) (seq 0 120)) <= 150 /\
  restore_library flaky_server JArr (JStr "key") (map (fun k => JInt (Z.of_nat k)) (seq 0 120)) 0 =
    (50 + (length (map (fun k => JInt (Z.of_nat k)) (seq 0 120)) - 100), 3,
     [Restored 1 50 (length (map (fun k => JInt (Z.of_nat k)) (seq 0 120))); FailedAt 50;
      Restored 101 (length (map (fun k => JInt (Z.of_nat k)) (seq 0 120)))
                   (length (map (fun k => JInt (Z.of_nat k)) (seq 0 120)))]).
Proof.
  assert (H : 100 < length (map (fun k => JInt (Z.of_nat k)) (seq 0 120)) <= 150)
    by (rewrite length_map, length_seq; lia).
  split; [exact H | exact (restore_library_second_batch_fails (JStr "key") _ H)].
Defined.

(** C33. The acceptance rule for a dict body after a non-error status:
    [result == "ok"] or [success == True]. Since [1 == True] in Python, a
    body [{"success": 1}] also acknowledges a batch. *)
Theorem batch_accepted_dict (status : Z) (o : list (string * json)) :
  raise_for_status status = Ok tt ->
  batch_accepted (Response status (Some (JObj o))) =
    Ok (py_eq_str (field o "result" JNull) "ok" || py_eq_true (field o "success" JNull)).
Proof.
  intros Hs. unfold batch_accepted. rewrite Hs. cbn [bind response_json].
  rewrite py_get_field. cbn [bind].
  destruct (py_eq_str _ "ok"); [reflexivity |]. rewrite py_get_field. reflexivity.
Qed.

Lemma batch_accepted_dict_witness :
  raise_for_status 200 = Ok tt /\
  batch_accepted (Response 200 (Some (JObj [("success", JInt 1)]))) =
    Ok (py_eq_str (field [("success", JInt 1)] "result" JNull) "ok" ||
        py_eq_true (field [("success", JInt 1)] "success" JNull)).
Proof. split; [reflexivity | apply batch_accepted_dict; reflexivity]. Defined.

(** C32. [load_backup] returns a value exactly for a list (itself) or a
    dict with ["result"] (that entry, whatever its type). Every failure is a
    [ValueError] whose message starts with ["Failed to load backup: "]. *)
Theorem load_backup_spec (contents : result json) :
  (forall v, load_backup contents = Ok v <->
     (exists l, contents = Ok (JArr l) /\ v = JArr l) \/
     (exists o, contents = Ok (JObj o) /\ assoc_lookup "result" o = Some v)) /\
  (forall e, load_backup contents = Err e ->
     exists msg, e = ValueError ("Failed to load backup: " ++ msg)).
Proof.
  unfold load_backup, ret. split.
  - intros v. destruct contents as [[| | | | l | o]|e]; simpl;
      try (split; [discriminate | intros [(? & ? & _)|(? & ? & _)]; discriminate]).
    + split; [intros H; injection H as <-; left; eauto |].
      intros [(l' & H & ->)|(? & ? & _)]; [injection H as ->; reflexivity | discriminate].
    + destruct (assoc_lookup "result" o) eqn:E.
      * split; [intros H; injection H as <-; right; eauto |].
        intros [(? & ? & _)|(o' & H & H')]; [discriminate |].
        injection H as <-. congruence.
      * split; [discriminate |].
        intros [(? & ? & _)|(o' & H & H')]; [discriminate |]. injection H as <-. congruence.
  - intros e. destruct contents as [[| | | | l | o]|e']; simpl;
      try (intros H; injection H as <-; eauto; fail); try discriminate.
    destruct (assoc_lookup "result" o); [discriminate |].
    intros H; injection H as <-; eauto.
Qed.

Lemma load_backup_spec_witness :
  load_backup (Ok (JObj [("result", JArr [])])) = Ok (JArr []) /\
  ((exists l, Ok (JObj [("result", JArr [])]) = Ok (JArr l) /\ JArr [] = JArr l) \/
   (exists o, Ok (JObj [("result", JArr [])]) = Ok (JObj o) /\ assoc_lookup "result" o = Some (JArr []))).
Proof.
  split; [reflexivity |].
  apply (proj1 (load_backup_spec (Ok (JObj [("result", JArr [])]))) (JArr [])). reflexivity.
Defined.

(** [load_backup] does not check what ["result"] holds: a backup
    [{"result": 5}] is accepted and yields [5]. The spec's backup is
    [{result: [...]}] or a bare list. *)
Example load_backup_result_not_list :
  load_backup (Ok (JObj [("result", JInt 5)])) = Ok (JInt 5).
Proof. reflexivity. Qed.
