(* ===== verification/ImportDriver.v ===== *)
(** * ImportDriver: [library_importer.main]

    The importer's [main] first checks that the backup file exists. Inside
    one [try], it then loads the backup, logs its length, extracts a key
    through the browser, and runs [restore_library]. Any exception ends the
    run with exit code 1. A restore that finishes returns 0, however many
    batches failed. [load_backup] returns ["result"] whatever it holds, so
    [restore_library] may receive a list, a str or a dict. Its loop only
    takes [len(items)] and the slices [items[i:i+50]]. A str is sliced into
    substrings, which are posted as JSON strings. Slicing a non-empty dict
    raises. *)

From Stdlib Require Import String Ascii ZArith List Bool Lia.
From stdpp Require Import base.
From S2P Require Import Prelude Json Http Batching Synchronizer.
Import ListNotations.
Open Scope string_scope.
Open Scope list_scope.

(** The steps of [main] that act on the outside world. *)
Inductive import_effect : Type :=
| ExtractKey
| RestoreDone (restored total : nat).

Section Importer.
Context {Server : Type}.
Variable post : Server -> json -> http_response * Server.

(** [restore_library(auth_key, items, logger)] on the value [load_backup]
    returned. A list runs the loop on its elements, with each batch
    serialised as an array. A str runs it on its code points, with each
    batch the substring of up to 50 of them. A dict has a length, but [items[0:50]] raises
    before the first post; an empty dict gives an empty range, so nothing
    is sliced. Other values fail at [len(items)]. *)
Definition restore_items (auth_key : json) (items : json) (srv : Server)
  : result (nat * Server * list log_event) :=
  match items with
  | JArr l => ret (restore_library post JArr auth_key l srv)
  | JStr s =>
      ret (restore_library post (fun b => JStr (of_chars b)) auth_key (py_chars s) srv)
  | JObj [] => ret (0, srv, [])
  | JObj (_ :: _) => raise TypeError
  | _ => raise TypeError
  end.

(** [main()], lines 79-108: the exit code, the outside steps taken, and
    the final server state. [backup_exists] is [Path(...).exists()],
    [contents] what [json.load] returned or raised, and [auth] what
    [extract_stremio_auth_key] returned or raised. *)
Definition importer_main (backup_exists : bool) (contents : result json) (auth : result json)
  (srv : Server) : Z * list import_effect * Server :=
  if negb backup_exists then (1%Z, [], srv) else
  match load_backup contents with
  | Err _ => (1%Z, [], srv)
  | Ok items =>
      match py_len items with
      | Err _ => (1%Z, [], srv)
      | Ok total =>
          match auth with
          | Err _ => (1%Z, [ExtractKey], srv)
          | Ok auth_key =>
              match restore_items auth_key items srv with
              | Err _ => (1%Z, [ExtractKey], srv)
              | Ok (restored, srv', _) => (0%Z, [ExtractKey; RestoreDone restored total], srv')
              end
          end
      end
  end.

End Importer.

(** ** Theorems *)

Section ImporterProofs.
Context {Server : Type}.
Variable post : Server -> json -> http_response * Server.

(** C18. The importer exits 0 exactly when the backup file exists, loads,
    has a length, the key is extracted, and [restore_library] returns. It
    then logged in once and reports the restored count against the
    backup's length. *)
Theorem importer_main_success (backup_exists : bool) (contents auth : result json)
  (srv srv' : Server) (effs : list import_effect) :
  importer_main post backup_exists contents auth srv = (0%Z, effs, srv') <->
  backup_exists = true /\
  exists items total key restored log,
    load_backup contents = Ok items /\ py_len items = Ok total /\ auth = Ok key /\
    restore_items post key items srv = Ok (restored, srv', log) /\
    effs = [ExtractKey; RestoreDone restored total].
Proof.
  unfold importer_main. split.
  - destruct backup_exists; [|discriminate].
    destruct (load_backup contents) as [items|e] eqn:Hl; [|discriminate].
    destruct (py_len items) as [total|e] eqn:Hn; [|discriminate].
    destruct auth as [key|e]; [|discriminate].
    destruct (restore_items post key items srv) as [[[restored s1] log]|e] eqn:Hr; [|discriminate].
    intros H. injection H as <- <-. split; [reflexivity |].
    exists items, total, key, restored, log. auto.
  - intros (-> & items & total & key & restored & log & Hl & Hn & -> & Hr & ->).
    simpl. rewrite Hl, Hn, Hr. reflexivity.
Qed.

(** Partial failure does not change the exit code. With a list
    backup and an extracted key, the importer exits 0 whatever the server
    answers. It reports the count [restore_library] returned against the
    list's length, however many batches failed. *)
Theorem importer_main_list_exit_zero (contents auth : result json) (l : list json)
  (key : json) (srv : Server) :
  load_backup contents = Ok (JArr l) -> auth = Ok key ->
  importer_main post true contents auth srv =
    (0%Z, [ExtractKey; RestoreDone (fst (fst (restore_library post JArr key l srv))) (length l)],
     snd (fst (restore_library post JArr key l srv))).
Proof.
  intros Hl ->. unfold importer_main. simpl. rewrite Hl. simpl.
  destruct (restore_library post JArr key l srv) as [[restored s1] log]. reflexivity.
Qed.

(** C19. No login on a bad backup. Main stops with exit code 1 before
    the browser starts and before any post exactly when the file is missing,
    [load_backup] raises, or the loaded value has no [len]. *)
Theorem importer_main_no_login (backup_exists : bool) (contents auth : result json)
  (srv : Server) :
  importer_main post backup_exists contents auth srv = (1%Z, [], srv) <->
  backup_exists = false \/ is_ok (let* items := load_backup contents in py_len items) = false.
Proof.
  unfold importer_main. destruct backup_exists; simpl; [|tauto].
  destruct (load_backup contents) as [items|e]; simpl; [|tauto].
  destruct (py_len items) as [total|e]; simpl; [|tauto].
  split; [|intros [H|H]; discriminate].
  destruct auth as [key|e]; [|discriminate].
  destruct (restore_items post key items srv) as [[[? ?] ?]|e]; discriminate.
Qed.

End ImporterProofs.

(** A server that acknowledges every batch and counts its calls. *)
Definition ok_server (n : nat) (payload : json) : http_response * nat :=
  (Response 200 (Some (JObj [("result", JStr "ok")])), S n).

Lemma importer_main_list_exit_zero_witness :
  load_backup (Ok (JArr (map (fun k => JInt (Z.of_nat k)) (seq 0 120)))) =
    Ok (JArr (map (fun k => JInt (Z.of_nat k)) (seq 0 120))) /\
  @Ok json (JStr "key") = Ok (JStr "key") /\
  importer_main flaky_server true (Ok (JArr (map (fun k => JInt (Z.of_nat k)) (seq 0 120))))
    (Ok (JStr "key")) 0 =
    (0%Z, [ExtractKey;
           RestoreDone (fst (fst (restore_library flaky_server JArr (JStr "key")
                                    (map (fun k => JInt (Z.of_nat k)) (seq 0 120)) 0))) 120],
     snd (fst (restore_library flaky_server JArr (JStr "key")
                 (map (fun k => JInt (Z.of_nat k)) (seq 0 120)) 0))) /\
  fst (fst (restore_library flaky_server JArr (JStr "key")
              (map (fun k => JInt (Z.of_nat k)) (seq 0 120)) 0)) = 70.
Proof.
  split; [reflexivity | split; [reflexivity | split; [| vm_compute; reflexivity]]].
  apply (importer_main_list_exit_zero flaky_server
           (Ok (JArr (map (fun k => JInt (Z.of_nat k)) (seq 0 120)))) (Ok (JStr "key"))
           (map (fun k => JInt (Z.of_nat k)) (seq 0 120)) (JStr "key") 0); reflexivity.
Defined.

Lemma importer_main_success_witness :
  importer_main ok_server true (Ok (JArr [JStr "a"])) (Ok (JStr "key")) 0 =
    (0%Z, [ExtractKey; RestoreDone 1 1], 1) /\
  true = true /\
  exists items total key restored log,
    load_backup (Ok (JArr [JStr "a"])) = Ok items /\ py_len items = Ok total /\
    @Ok json (JStr "key") = Ok key /\
    restore_items ok_server key items 0 = Ok (restored, 1, log) /\
    [ExtractKey; RestoreDone 1 1] = [ExtractKey; RestoreDone restored total].
Proof.
  split; [reflexivity |].
  apply (importer_main_success ok_server true (Ok (JArr [JStr "a"])) (Ok (JStr "key")) 0 1).
  reflexivity.
Defined.

Lemma importer_main_no_login_witness :
  importer_main ok_server true (Ok (JObj [("result", JInt 5)])) (Ok (JStr "key")) 0 = (1%Z, [], 0) /\
  (true = false \/
   is_ok (let* items := load_backup (Ok (JObj [("result", JInt 5)])) in py_len items) = false).
Proof.
  split; [| right; reflexivity].
  apply (importer_main_no_login ok_server true (Ok (JObj [("result", JInt 5)])) (Ok (JStr "key")) 0).
  right. reflexivity.
Defined.

Section NonListResult.
Context {Server : Type}.
Variable post : Server -> json -> http_response * Server.

(** C34. Non-list ["result"] values, which [load_backup] lets through. For
    a str [s], the importer exits 0 against any server. It posts the
    substrings of up to 50 code points of [s] in order, as JSON strings, in
    ceil(len(s) / 50) requests whose texts join back to [s], and it reports
    len(s) code points as the total. For a non-empty dict, the length check
    passes, so the browser login runs; the first slice then raises: exit
    code 1 and nothing posted. *)
Theorem importer_non_list_result (contents auth : result json) (key : json) (s0 : Server) :
  auth = Ok key ->
  (forall s, load_backup contents = Ok (JStr s) ->
     exists restored parts st,
       importer_main (recording post) true contents auth (s0, []) =
         (0%Z, [ExtractKey; RestoreDone restored (length (py_chars s))], st) /\
       map fst (snd st) = map (fun p => put_payload key (JStr p)) parts /\
       String.concat "" parts = s /\
       length parts = ceil_div (length (py_chars s)) batch_size) /\
  (forall k v o, load_backup contents = Ok (JObj ((k, v) :: o)) ->
     importer_main (recording post) true contents auth (s0, []) = (1%Z, [ExtractKey], (s0, []))).
Proof.
  intros ->. split; [intros s Hl | intros k v o Hl; unfold importer_main; rewrite Hl; reflexivity].
  destruct (restore_library_recorded post (fun b => JStr (of_chars b)) key (py_chars s) s0)
    as (Hm & _ & _).
  destruct (restore_library (recording post) (fun b => JStr (of_chars b)) key (py_chars s) (s0, []))
    as [[restored st] log] eqn:Hr.
  exists restored, (map of_chars (batches batch_size (py_chars s))), st.
  split; [unfold importer_main; rewrite Hl; simpl; rewrite Hr; reflexivity |].
  split; [simpl in Hm; rewrite Hm, map_map; reflexivity |].
  rewrite concat_of_chars, batches_concat, of_chars_py_chars, length_map, batches_count.
  split; reflexivity.
Qed.

End NonListResult.

(** A str backup with a non-ASCII character: its [len] is 5 code points
    for 6 bytes. *)
Definition accented_str : string := "h" ++ String (ascii_of_nat 195) (String (ascii_of_nat 169) "llo").

Lemma importer_non_list_result_witness :
  length (py_chars accented_str) = 5 /\ length (list_ascii_of_string accented_str) = 6 /\
  exists restored parts st,
    importer_main (recording ok_server) true (Ok (JObj [("result", JStr accented_str)]))
      (Ok (JStr "key")) (0, []) =
      (0%Z, [ExtractKey; RestoreDone restored (length (py_chars accented_str))], st) /\
    map fst (snd st) = map (fun p => put_payload (JStr "key") (JStr p)) parts /\
    String.concat "" parts = accented_str /\
    length parts = ceil_div (length (py_chars accented_str)) batch_size.
Proof.
  split; [reflexivity | split; [reflexivity |]].
  apply (proj1 (importer_non_list_result ok_server (Ok (JObj [("result", JStr accented_str)]))
                  (Ok (JStr "key")) (JStr "key") 0 eq_refl)).
  reflexivity.
Defined.
