(* ===== verification/LibraryReader.v ===== *)
(** * LibraryReader: [movie_extractor.make_api_request]

    One POST to [datastoreGet] with [{all: true, authKey, collection:
    "libraryItem"}]. The reader raises on a transport error or an error
    status. It returns the decoded body as it came. Before returning, its
    log line evaluates [len(data.get('result', []))], which raises on a
    body that is not a dict, or on a ["result"] entry that has no
    length. *)

From Stdlib Require Import String ZArith List Bool.
From stdpp Require Import base.
From S2P Require Import Prelude Json Http.
Import ListNotations.
Open Scope string_scope.

(** The payload of lines 34-38. *)
Definition get_payload (auth_key : json) : json :=
  JObj [("all", JBool true); ("authKey", auth_key); ("collection", JStr "libraryItem")].

Section Reader.
Context {Server : Type}.
Variable post : Server -> json -> http_response * Server.

(** [make_api_request], lines 30-60. Both [except] clauses log and
    re-raise, so every exception propagates unchanged. *)
Definition make_api_request (auth_key : json) (srv : Server) : result json * Server :=
  let '(resp, srv') := post srv (get_payload auth_key) in
  (match resp with
   | Transport e => raise e
   | Response status body =>
       let* _ := raise_for_status status in
       let* data := response_json body in
       let* items := py_get data "result" (JArr []) in
       let* _ := py_len items in
       ret data
   end, srv').

End Reader.

(** ** Theorems *)

(** The outcome of the reader, case by case on the one response. *)
Lemma make_api_request_cases {Server : Type} (post : Server -> json -> http_response * Server)
  (auth_key : json) (srv : Server) :
  fst (make_api_request post auth_key srv) =
  match fst (post srv (get_payload auth_key)) with
  | Transport e => Err e
  | Response status body =>
      match raise_for_status status, body with
      | Err e, _ => Err e
      | Ok _, None => Err JSONDecodeError
      | Ok _, Some (JObj o) =>
          match py_len (field o "result" (JArr [])) with
          | Ok _ => Ok (JObj o)
          | Err e => Err e
          end
      | Ok _, Some _ => Err AttributeError
      end
  end.
Proof.
  unfold make_api_request. destruct (post srv (get_payload auth_key)) as [[e|status body] srv'];
    simpl; [reflexivity |].
  destruct (raise_for_status status) as [[]|e]; simpl; [|reflexivity].
  destruct body as [[| | | | | o]|]; simpl; try reflexivity.
  unfold field. destruct (assoc_lookup "result" o) as [v|]; simpl; [destruct v |]; reflexivity.
Qed.

(** The server state after the call is the one the single post left. *)
Lemma make_api_request_server {Server : Type} (post : Server -> json -> http_response * Server)
  (auth_key : json) (srv : Server) :
  snd (make_api_request post auth_key srv) = snd (post srv (get_payload auth_key)).
Proof. unfold make_api_request. destruct (post _ _). reflexivity. Qed.

(** C17. The reader returns the response body unchanged. It does so
    exactly when the one request it posts, with the [datastoreGet] payload,
    answers with a non-error status and a JSON dict whose ["result"] entry,
    if any, has a length. *)
Theorem make_api_request_ok {Server : Type} (post : Server -> json -> http_response * Server)
  (auth_key : json) (srv : Server) (data : json) :
  fst (make_api_request post auth_key srv) = Ok data <->
  exists status o,
    fst (post srv (get_payload auth_key)) = Response status (Some data) /\
    raise_for_status status = Ok tt /\ data = JObj o /\
    is_ok (py_len (field o "result" (JArr []))) = true.
Proof.
  rewrite make_api_request_cases. split.
  - destruct (fst (post srv (get_payload auth_key))) as [e|status body]; [discriminate |].
    destruct (raise_for_status status) as [[]|e] eqn:Hs; [|discriminate].
    destruct body as [[| | | | | o]|]; try discriminate.
    destruct (py_len (field o "result" (JArr []))) eqn:Hl; [|discriminate].
    intros H. injection H as <-. exists status, o. rewrite Hl. auto.
  - intros (status & o & Hp & Hs & -> & Hok). rewrite Hp, Hs.
    destruct (py_len (field o "result" (JArr []))); [reflexivity | discriminate].
Qed.

Lemma make_api_request_ok_witness :
  fst (make_api_request (fun (n : nat) _ => (Response 200 (Some (JObj [("result", JArr [])])), S n))
         (JStr "key") 0) = Ok (JObj [("result", JArr [])]) /\
  exists status o,
    fst ((fun (n : nat) (_ : json) => (Response 200 (Some (JObj [("result", JArr [])])), S n))
           0 (get_payload (JStr "key"))) = Response status (Some (JObj [("result", JArr [])])) /\
    raise_for_status status = Ok tt /\ JObj [("result", JArr [])] = JObj o /\
    is_ok (py_len (field o "result" (JArr []))) = true.
Proof.
  split; [reflexivity |].
  apply (proj1 (make_api_request_ok
    (fun (n : nat) _ => (Response 200 (Some (JObj [("result", JArr [])])), S n))
    (JStr "key") 0 (JObj [("result", JArr [])]))).
  reflexivity.
Defined.

(** C31. A decoded body that is not a dict (a list, a string, ...) raises
    [AttributeError] from [data.get] in the log line. The spec's
    [ResponseParseError] for a malformed body does not exist in the
    code. *)
Theorem make_api_request_not_dict {Server : Type} (post : Server -> json -> http_response * Server)
  (auth_key : json) (srv : Server) (status : Z) (data : json) :
  fst (post srv (get_payload auth_key)) = Response status (Some data) ->
  raise_for_status status = Ok tt -> is_dict data = false ->
  fst (make_api_request post auth_key srv) = Err AttributeError.
Proof.
  intros Hp Hs Hd. rewrite make_api_request_cases, Hp, Hs.
  destruct data; try discriminate; reflexivity.
Qed.

Lemma make_api_request_not_dict_witness :
  fst ((fun (n : nat) (_ : json) => (Response 200 (Some (JArr [])), S n)) 0 (get_payload (JStr "key"))) =
    Response 200 (Some (JArr [])) /\
  raise_for_status 200 = Ok tt /\ is_dict (JArr []) = false /\
  fst (make_api_request (fun (n : nat) _ => (Response 200 (Some (JArr [])), S n)) (JStr "key") 0) =
    Err AttributeError.
Proof.
  split; [reflexivity | split; [reflexivity | split; [reflexivity |]]].
  apply (make_api_request_not_dict _ _ _ 200 (JArr [])); reflexivity.
Defined.
