(* ===== verification/ExportDriver.v ===== *)
(** * ExportDriver: [movie_extractor.main]

    The exporter's [main] chains the steps of the export path inside one
    [try]: it takes the key from the extractor, calls the reader, runs the
    categoriser, then the output steps. The first exception ends the run
    with exit code 1. The output files are sinks. [save_to_csv] raises on
    a failed write. The HTML, JSON backup and ZIP steps catch their own
    exceptions. This file records which output steps run, with which data,
    as a list of effects. It relates the JSON backup to what the importer's
    [load_backup] reads back. *)

From Stdlib Require Import String ZArith List Bool.
From stdpp Require Import base.
From S2P Require Import Prelude Json Http Categorizer LibraryReader Synchronizer.
Import ListNotations.
Open Scope string_scope.
Open Scope list_scope.

(** The output steps of [main], with the data each one receives. *)
Inductive export_effect : Type :=
| SaveCsv (kind : string) (items : list movie)
| GenerateHtml (watched watchlist : list movie)
| SaveJsonBackup (data : json)
| CreateZip
| OpenReport.

(** The effect is a CSV write. *)
Definition is_save_csv (x : export_effect) : bool :=
  match x with SaveCsv _ _ => true | _ => false end.

(** [auth_key[:20]] of line 169: a [str] or a [list] can be sliced; any
    other value raises. *)
Definition py_prefix_ok (v : json) : result unit :=
  match v with
  | JStr _ | JArr _ => Ok tt
  | _ => raise TypeError
  end.

Section Driver.
Context {Server : Type}.
Variable post : Server -> json -> http_response * Server.
(** The file write of [save_to_csv] ([open] and [csv.DictWriter]), which
    may raise. *)
Variable write_csv : string -> list movie -> result unit.
(** [webbrowser.open] of line 216. *)
Variable open_report : result unit.
(** [output_dir.mkdir(exist_ok=True)] of line 181, which raises when
    [output] exists as a file or cannot be created. *)
Variable make_output_dir : result unit.

(** [save_to_csv], lines 110-124: an empty list writes nothing. *)
Definition save_to_csv (kind : string) (items : list movie) : result (list export_effect) :=
  match items with
  | [] => ret []
  | _ :: _ => let* _ := write_csv kind items in ret [SaveCsv kind items]
  end.

(** [main], lines 161-237: exit code, output steps run, final server
    state. [auth] is what [extract_stremio_auth_key] returned or raised. *)
Definition export_main (auth : result json) (srv : Server) : Z * list export_effect * Server :=
  match auth with
  | Err _ => (1%Z, [], srv)
  | Ok auth_key =>
      match py_prefix_ok auth_key with
      | Err _ => (1%Z, [], srv)
      | Ok _ =>
          let '(r, srv') := make_api_request post auth_key srv in
          match r with
          | Err _ => (1%Z, [], srv')
          | Ok api_response =>
              match parse_library_data api_response with
              | Err _ => (1%Z, [], srv')
              | Ok (watched_items, watchlist_items) =>
                  match make_output_dir with
                  | Err _ => (1%Z, [], srv')
                  | Ok _ =>
                  match save_to_csv "watched" watched_items with
                  | Err _ => (1%Z, [], srv')
                  | Ok e1 =>
                      match save_to_csv "watchlist" watchlist_items with
                      | Err _ => (1%Z, e1, srv')
                      | Ok e2 =>
                          let effs := e1 ++ e2 ++
                            [GenerateHtml watched_items watchlist_items;
                             SaveJsonBackup api_response; CreateZip] in
                          match open_report with
                          | Err _ => (1%Z, effs, srv')
                          | Ok _ => (0%Z, effs ++ [OpenReport], srv')
                          end
                      end
                  end
                  end
              end
          end
      end
  end.

End Driver.

(** ** Theorems *)

Section DriverProofs.
Context {Server : Type}.
Variable post : Server -> json -> http_response * Server.
Variable write_csv : string -> list movie -> result unit.
Variable open_report : result unit.
Variable make_output_dir : result unit.

(** The steps of a run that exits 0. *)
Lemma export_main_success_inv (auth : result json) (srv : Server)
  (effs : list export_effect) (srv' : Server) :
  export_main post write_csv open_report make_output_dir auth srv = (0%Z, effs, srv') ->
  exists key data w wl e1 e2,
    auth = Ok key /\ py_prefix_ok key = Ok tt /\
    make_api_request post key srv = (Ok data, srv') /\
    parse_library_data data = Ok (w, wl) /\ make_output_dir = Ok tt /\
    save_to_csv write_csv "watched" w = Ok e1 /\ save_to_csv write_csv "watchlist" wl = Ok e2 /\
    open_report = Ok tt /\
    effs = e1 ++ e2 ++ [GenerateHtml w wl; SaveJsonBackup data; CreateZip; OpenReport].
Proof.
  unfold export_main.
  destruct auth as [key|e]; [|discriminate].
  destruct (py_prefix_ok key) as [[]|e] eqn:Hp; [|discriminate].
  destruct (make_api_request post key srv) as [[data|e] s1] eqn:Hm; [|discriminate].
  destruct (parse_library_data data) as [[w wl]|e] eqn:Hpd; [|discriminate].
  destruct make_output_dir as [[]|e] eqn:Hd; [|discriminate].
  destruct (save_to_csv write_csv "watched" w) as [e1|e] eqn:H1; [|discriminate].
  destruct (save_to_csv write_csv "watchlist" wl) as [e2|e] eqn:H2; [|discriminate].
  destruct open_report as [[]|e] eqn:Ho; [|discriminate].
  intros H. injection H as <- <-. exists key, data, w, wl, e1, e2.
  rewrite <- !app_assoc. auto 10.
Qed.

(** C15. Exit code 0 exactly when every step succeeded, the creation of
    [output/] included. The output steps
    then ran in the order of [main]: the non-empty CSVs, the HTML report of
    the two lists, the JSON backup of the raw response, the ZIP, and the
    report opening. *)
Theorem export_main_success (auth : result json) (srv : Server)
  (effs : list export_effect) (srv' : Server) :
  export_main post write_csv open_report make_output_dir auth srv = (0%Z, effs, srv') <->
  exists key data w wl e1 e2,
    auth = Ok key /\ py_prefix_ok key = Ok tt /\
    make_api_request post key srv = (Ok data, srv') /\
    parse_library_data data = Ok (w, wl) /\ make_output_dir = Ok tt /\
    save_to_csv write_csv "watched" w = Ok e1 /\ save_to_csv write_csv "watchlist" wl = Ok e2 /\
    open_report = Ok tt /\
    effs = e1 ++ e2 ++ [GenerateHtml w wl; SaveJsonBackup data; CreateZip; OpenReport].
Proof.
  split; [apply export_main_success_inv |]. unfold export_main.
  - intros (key & data & w & wl & e1 & e2 & -> & Hp & Hm & Hpd & Hd & H1 & H2 & Ho & ->).
    rewrite Hp, Hm, Hpd, Hd, H1, H2, Ho. rewrite <- !app_assoc. reflexivity.
Qed.

(** [save_to_csv] only ever records a CSV write. *)
Lemma save_to_csv_only_csv (kind : string) (items : list movie) (e : list export_effect)
  (x : export_effect) :
  save_to_csv write_csv kind items = Ok e -> In x e -> is_save_csv x = true.
Proof.
  unfold save_to_csv. destruct items; [intros [= <-]; contradiction |].
  destruct (write_csv _ _); [intros [= <-] [<- | []]; reflexivity | discriminate].
Qed.

(** The backup and the report of a successful run: the value backed up is
    the response whose parse gave the two lists of the report. *)
Lemma export_backup_parsed (auth : result json) (srv : Server)
  (effs : list export_effect) (srv' : Server) (data : json) (w wl : list movie) :
  export_main post write_csv open_report make_output_dir auth srv = (0%Z, effs, srv') ->
  In (SaveJsonBackup data) effs -> In (GenerateHtml w wl) effs ->
  parse_library_data data = Ok (w, wl).
Proof.
  intros (key & data' & w' & wl' & e1 & e2 & _ & _ & _ & Hpd & _ & H1 & H2 & _ & ->)%export_main_success_inv.
  intros Hb Hg. rewrite !in_app_iff in Hb, Hg.
  destruct Hb as [Hb | [Hb | Hb]]; [discriminate (save_to_csv_only_csv _ _ _ _ H1 Hb) |
    discriminate (save_to_csv_only_csv _ _ _ _ H2 Hb) |].
  destruct Hg as [Hg | [Hg | Hg]]; [discriminate (save_to_csv_only_csv _ _ _ _ H1 Hg) |
    discriminate (save_to_csv_only_csv _ _ _ _ H2 Hg) |].
  simpl in Hb, Hg. intuition congruence.
Qed.

(** C13. Export/import roundtrip: in a successful export, the JSON backup
    holds the response that was categorised into the report's two lists:
    parsing the backup again gives exactly those lists. When that response
    holds a ["result"] list, the importer's [load_backup] reads the backup
    back as this list, and its normalised items split into the same two
    lists. *)
Theorem export_backup_roundtrip (auth : result json) (srv : Server)
  (effs : list export_effect) (srv' : Server) (data : json) (w wl : list movie) :
  export_main post write_csv open_report make_output_dir auth srv = (0%Z, effs, srv') ->
  In (SaveJsonBackup data) effs -> In (GenerateHtml w wl) effs ->
  parse_library_data data = Ok (w, wl) /\
  forall o items, data = JObj o -> assoc_lookup "result" o = Some (JArr items) ->
    load_backup (Ok data) = Ok (JArr items) /\
    exists kept, normalize items = Ok kept /\ (w, wl) = categorize kept.
Proof.
  intros Hx Hb Hg. pose proof (export_backup_parsed auth srv effs srv' data w wl Hx Hb Hg) as Hpd.
  split; [exact Hpd |]. intros o items -> Hr.
  split; [unfold load_backup; simpl; rewrite Hr; reflexivity |].
  destruct (parse_library_data_Ok _ _ _ Hpd) as (items' & kept & Hi & Hn & Hc).
  simpl in Hi. unfold field in Hi. rewrite Hr in Hi. injection Hi as <-.
  exists kept. auto.
Qed.

(** C37. An API answer without ["result"]: for every sliceable key and
    every answer [make_api_request] returns as a dict with no ["result"]
    entry, the export succeeds with two empty lists whatever the CSV writer
    would do (nothing is written). It backs up that answer, and the
    importer's [load_backup] then rejects the backup with "Invalid backup
    format". *)
Theorem export_backup_without_result (key : json) (srv srv' : Server) (o : list (string * json)) :
  py_prefix_ok key = Ok tt ->
  make_api_request post key srv = (Ok (JObj o), srv') ->
  assoc_lookup "result" o = None ->
  make_output_dir = Ok tt -> open_report = Ok tt ->
  export_main post write_csv open_report make_output_dir (Ok key) srv =
    (0%Z, [GenerateHtml [] []; SaveJsonBackup (JObj o); CreateZip; OpenReport], srv') /\
  load_backup (Ok (JObj o)) =
    Err (ValueError ("Failed to load backup: " ++
                     "Invalid backup format. Expected list or API response dict.")).
Proof.
  intros Hp Hm Hr Hd Ho.
  assert (parse_library_data (JObj o) = Ok ([], [])) as Hpd
    by (unfold parse_library_data; simpl; rewrite Hr; reflexivity).
  unfold export_main, load_backup. simpl. rewrite Hp, Hm, Hpd, Hr, Hd, Ho. split; reflexivity.
Qed.

End DriverProofs.

(** A server whose answer to [datastoreGet] has no ["result"] entry. *)
Definition no_result_server (n : nat) (payload : json) : http_response * nat :=
  (Response 200 (Some (JObj [("message", JStr "no library")])), S n).

Lemma export_backup_without_result_witness :
  py_prefix_ok (JStr "key") = Ok tt /\
  make_api_request no_result_server (JStr "key") 0 = (Ok (JObj [("message", JStr "no library")]), 1) /\
  assoc_lookup "result" [("message", JStr "no library")] = None /\
  export_main no_result_server (fun _ _ => Err (CsvError "disk full")) (Ok tt) (Ok tt) (Ok (JStr "key")) 0 =
    (0%Z, [GenerateHtml [] []; SaveJsonBackup (JObj [("message", JStr "no library")]); CreateZip; OpenReport], 1) /\
  load_backup (Ok (JObj [("message", JStr "no library")])) =
    Err (ValueError ("Failed to load backup: " ++
                     "Invalid backup format. Expected list or API response dict.")).
Proof.
  split; [reflexivity | split; [reflexivity | split; [reflexivity |]]].
  apply (export_backup_without_result no_result_server (fun _ _ => Err (CsvError "disk full")) (Ok tt) (Ok tt)
           (JStr "key") 0 1 [("message", JStr "no library")]); reflexivity.
Defined.

(** A server answering [datastoreGet] with one watched item. *)
Definition one_item_body : json :=
  JObj [("result", JArr [JObj [("_id", JStr "tt1"); ("name", JStr "A");
                               ("state", JObj [("timesWatched", JInt 3)])]])].

Definition one_item_server (n : nat) (payload : json) : http_response * nat :=
  (Response 200 (Some one_item_body), S n).

Definition one_item_effects : list export_effect :=
  [SaveCsv "watched" [mk_movie (JStr "tt1") (JStr "A") JNull JNull (JStr "movie")];
   GenerateHtml [mk_movie (JStr "tt1") (JStr "A") JNull JNull (JStr "movie")] [];
   SaveJsonBackup one_item_body; CreateZip; OpenReport].

Lemma export_main_success_witness :
  export_main one_item_server (fun _ _ => Ok tt) (Ok tt) (Ok tt) (Ok (JStr "key")) 0 =
    (0%Z, one_item_effects, 1) /\
  exists key data w wl e1 e2,
    Ok (JStr "key") = Ok key /\ py_prefix_ok key = Ok tt /\
    make_api_request one_item_server key 0 = (Ok data, 1) /\
    parse_library_data data = Ok (w, wl) /\ @Ok unit tt = Ok tt /\
    save_to_csv (fun _ _ => Ok tt) "watched" w = Ok e1 /\
    save_to_csv (fun _ _ => Ok tt) "watchlist" wl = Ok e2 /\
    @Ok unit tt = Ok tt /\
    one_item_effects = e1 ++ e2 ++ [GenerateHtml w wl; SaveJsonBackup data; CreateZip; OpenReport].
Proof.
  split; [vm_compute; reflexivity |].
  apply (proj1 (export_main_success one_item_server (fun _ _ => Ok tt) (Ok tt) (Ok tt)
                  (Ok (JStr "key")) 0 one_item_effects 1)).
  vm_compute. reflexivity.
Defined.

Lemma export_backup_roundtrip_witness :
  export_main one_item_server (fun _ _ => Ok tt) (Ok tt) (Ok tt) (Ok (JStr "key")) 0 =
    (0%Z, one_item_effects, 1) /\
  In (SaveJsonBackup one_item_body) one_item_effects /\
  In (GenerateHtml [mk_movie (JStr "tt1") (JStr "A") JNull JNull (JStr "movie")] []) one_item_effects /\
  parse_library_data one_item_body = Ok ([mk_movie (JStr "tt1") (JStr "A") JNull JNull (JStr "movie")], []) /\
  forall o items, one_item_body = JObj o -> assoc_lookup "result" o = Some (JArr items) ->
    load_backup (Ok one_item_body) = Ok (JArr items) /\
    exists kept, normalize items = Ok kept /\
      ([mk_movie (JStr "tt1") (JStr "A") JNull JNull (JStr "movie")], []) = categorize kept.
Proof.
  split; [vm_compute; reflexivity |].
  split; [simpl; tauto |]. split; [simpl; tauto |].
  apply (export_backup_roundtrip one_item_server (fun _ _ => Ok tt) (Ok tt) (Ok tt)
           (Ok (JStr "key")) 0 one_item_effects 1); [vm_compute; reflexivity | simpl; tauto | simpl; tauto].
Defined.
