(* ===== verification/Browser.v ===== *)
(** * Browser: the Playwright calls of [auth_extractor.py]

    The extractor drives one page through a few Playwright calls: launch,
    new page, goto, wait for a selector, query a selector, click, fill,
    wait for a timeout, wait for a load state, evaluate a script and close.
    [BrowserSession] is the interface, a typeclass over the page's state [W]
    whose instances are the possible browsers. Each call returns a value or
    raises, and may change the page's state. The monad [bm] threads that
    state and records every call with its outcome in a trace. The trace is
    what the theorems of [CredentialExtractor] talk about. *)

From Stdlib Require Import String ZArith List Bool Lia.
From stdpp Require Import base.
From S2P Require Import Prelude Json.
Import ListNotations.
Open Scope string_scope.
Open Scope list_scope.

(** ** Calls and outcomes *)

(** [playwright.chromium], [.firefox], [.webkit]. *)
Inductive engine : Type := Chromium | Firefox | Webkit.

(** The [state] argument of [wait_for_selector]: ['visible'] (the default)
    or ['hidden']. *)
Inductive wait_state : Type := Visible | Hidden.

(** One Playwright call with its arguments. A click or a fill on the
    handle that [wait_for_selector] returned is recorded with that
    selector. *)
Inductive call : Type :=
| CLaunch (e : engine) (headless : bool)
| CNewPage
| CGoto (url wait_until : string)
| CWaitForSelector (sel : string) (st : wait_state) (timeout : Z)
| CQuerySelector (sel : string)
| CClick (sel : string)
| CFill (sel value : string)
| CWaitForTimeout (ms : Z)
| CWaitForLoadState (st : string)
| CEvaluate
| CClose.

(** What a call did: returned (a query also says whether it found an
    element, the storage script what it read) or raised. *)
Inductive outcome : Type :=
| Done
| Found (b : bool)
| Storage (raw : list (string * string))
| Raised (e : py_exn).

(** ** The interface *)

Class BrowserSession (W : Type) := {
  bs_launch : engine -> bool -> W -> result unit * W;
  bs_new_page : W -> result unit * W;
  bs_goto : string -> string -> W -> result unit * W;
  bs_wait_for_selector : string -> wait_state -> Z -> W -> result unit * W;
  bs_query_selector : string -> W -> result bool * W;
  bs_click : string -> W -> result unit * W;
  bs_fill : string -> string -> W -> result unit * W;
  bs_wait_for_timeout : Z -> W -> result unit * W;
  bs_wait_for_load_state : string -> W -> result unit * W;
  (** [localStorage] as (key, raw string) pairs, in [Object.keys] order. *)
  bs_local_storage : W -> result (list (string * string)) * W;
  bs_close : W -> result unit * W
}.

(** ** The monad *)

(** A computation over the page: from the page state and the trace so far
    to a result, the new page state and the extended trace. *)
Definition trace : Type := list (call * outcome).
Definition bm (W A : Type) : Type := W * trace -> result A * (W * trace).

Section Monad.
Context {W : Type}.

Definition bret {A : Type} (a : A) : bm W A := fun st => (Ok a, st).

Definition bfail {A : Type} (e : py_exn) : bm W A := fun st => (Err e, st).

(** Sequencing: an exception skips the rest, the state is kept. *)
Definition bbind {A B : Type} (m : bm W A) (k : A -> bm W B) : bm W B :=
  fun st =>
    let '(r, st') := m st in
    match r with
    | Ok a => k a st'
    | Err e => (Err e, st')
    end.

(** Lift a pure computation that may raise. *)
Definition blift {A : Type} (r : result A) : bm W A := fun st => (r, st).

(** [try: m except: handler]: a bare [except] catches every exception. *)
Definition btry {A : Type} (m : bm W A) (handler : py_exn -> bm W A) : bm W A :=
  fun st =>
    let '(r, st') := m st in
    match r with
    | Ok a => (Ok a, st')
    | Err e => handler e st'
    end.

(** [try: m finally: fin]: [fin] runs on every exit of [m]. An exception
    of [fin] replaces the outcome of [m]. *)
Definition bfinally {A : Type} (m : bm W A) (fin : bm W unit) : bm W A :=
  fun st =>
    let '(r, st1) := m st in
    let '(rf, st2) := fin st1 in
    match rf with
    | Ok _ => (r, st2)
    | Err e => (Err e, st2)
    end.

(** One recorded call: run [f] on the page and append the call and its
    outcome to the trace. *)
Definition bcall {A : Type} (c : call) (obs : A -> outcome) (f : W -> result A * W) : bm W A :=
  fun st =>
    let '(r, w') := f (fst st) in
    (r, (w', snd st ++ [(c, match r with Ok a => obs a | Err e => Raised e end)])).

End Monad.

Declare Scope browser_scope.
Delimit Scope browser_scope with browser.
Notation "x <- m ;; k" := (bbind m (fun x => k))
  (at level 100, m at next level, right associativity) : browser_scope.
Notation "m ;; k" := (bbind m (fun _ => k))
  (at level 100, right associativity) : browser_scope.

(** ** The recorded Playwright calls *)

Section Calls.
Context {W : Type} `{BrowserSession W}.

Definition launch (e : engine) (headless : bool) : bm W unit :=
  bcall (CLaunch e headless) (fun _ => Done) (bs_launch e headless).
Definition new_page : bm W unit := bcall CNewPage (fun _ => Done) bs_new_page.
Definition goto (url wait_until : string) : bm W unit :=
  bcall (CGoto url wait_until) (fun _ => Done) (bs_goto url wait_until).
Definition wait_for_selector (sel : string) (st : wait_state) (timeout : Z) : bm W unit :=
  bcall (CWaitForSelector sel st timeout) (fun _ => Done) (bs_wait_for_selector sel st timeout).
Definition query_selector (sel : string) : bm W bool :=
  bcall (CQuerySelector sel) Found (bs_query_selector sel).
Definition click (sel : string) : bm W unit := bcall (CClick sel) (fun _ => Done) (bs_click sel).
Definition fill (sel value : string) : bm W unit :=
  bcall (CFill sel value) (fun _ => Done) (bs_fill sel value).
Definition wait_for_timeout (ms : Z) : bm W unit :=
  bcall (CWaitForTimeout ms) (fun _ => Done) (bs_wait_for_timeout ms).
Definition wait_for_load_state (st : string) : bm W unit :=
  bcall (CWaitForLoadState st) (fun _ => Done) (bs_wait_for_load_state st).
Definition evaluate_storage : bm W (list (string * string)) :=
  bcall CEvaluate Storage bs_local_storage.
Definition close : bm W unit := bcall CClose (fun _ => Done) bs_close.

End Calls.

(** ** Which calls a computation records *)

Create HintDb browser discriminated.

Section Traces.
Context {W : Type}.

(** [calls_ok P m]: from any state, [m] only appends calls satisfying
    [P] to the trace. *)
Definition calls_ok {A : Type} (P : call -> Prop) (m : bm W A) : Prop :=
  forall st, exists new,
    snd (snd (m st)) = snd st ++ new /\ Forall (fun ev => P (fst ev)) new.

Lemma calls_ok_bret {A : Type} (P : call -> Prop) (a : A) : calls_ok P (bret a).
Proof. intros st. exists []. rewrite app_nil_r. auto. Qed.

Lemma calls_ok_bfail {A : Type} (P : call -> Prop) (e : py_exn) : calls_ok P (@bfail W A e).
Proof. intros st. exists []. rewrite app_nil_r. auto. Qed.

Lemma calls_ok_blift {A : Type} (P : call -> Prop) (r : result A) : calls_ok P (@blift W A r).
Proof. intros st. exists []. rewrite app_nil_r. auto. Qed.

Lemma calls_ok_bcall {A : Type} (P : call -> Prop) (c : call) (obs : A -> outcome)
  (f : W -> result A * W) :
  P c -> calls_ok P (bcall c obs f).
Proof.
  intros Hc st. unfold bcall. destruct (f (fst st)) as [r w'].
  eexists. split; [reflexivity |]. repeat constructor. exact Hc.
Qed.

Lemma calls_ok_bbind {A B : Type} (P : call -> Prop) (m : bm W A) (k : A -> bm W B) :
  calls_ok P m -> (forall a, calls_ok P (k a)) -> calls_ok P (bbind m k).
Proof.
  intros Hm Hk st. unfold bbind.
  destruct (Hm st) as (n1 & E1 & F1). destruct (m st) as [[a|e] st'] eqn:Em; simpl in E1.
  - destruct (Hk a st') as (n2 & E2 & F2). exists (n1 ++ n2).
    rewrite E2, E1, app_assoc. split; [reflexivity |]. apply Forall_app; auto.
  - exists n1. auto.
Qed.

Lemma calls_ok_btry {A : Type} (P : call -> Prop) (m : bm W A) (h : py_exn -> bm W A) :
  calls_ok P m -> (forall e, calls_ok P (h e)) -> calls_ok P (btry m h).
Proof.
  intros Hm Hh st. unfold btry.
  destruct (Hm st) as (n1 & E1 & F1). destruct (m st) as [[a|e] st'] eqn:Em; simpl in E1.
  - exists n1. auto.
  - destruct (Hh e st') as (n2 & E2 & F2). exists (n1 ++ n2).
    rewrite E2, E1, app_assoc. split; [reflexivity |]. apply Forall_app; auto.
Qed.

(** [try/finally]: the trace is the body's calls followed by those of
    [fin], whatever the body did. *)
Lemma bfinally_trace {A : Type} (m : bm W A) (fin : bm W unit) (st : W * trace) :
  snd (snd (bfinally m fin st)) = snd (snd (fin (snd (m st)))) /\
  fst (bfinally m fin st) =
    match fst (fin (snd (m st))) with Ok _ => fst (m st) | Err e => Err e end.
Proof.
  unfold bfinally. destruct (m st) as [r st1]. simpl.
  destruct (fin st1) as [[u|e] st2]; simpl; auto.
Qed.

End Traces.

#[export] Hint Resolve calls_ok_bret calls_ok_bfail calls_ok_blift calls_ok_bcall
  calls_ok_bbind calls_ok_btry : browser.
