(* ===== verification/CredentialExtractor.v ===== *)
(** * CredentialExtractor: [StremioAuthExtractor] of [auth_extractor.py]

    The extractor reads its two credentials from the environment, launches a
    browser, and opens the login page. It logs in if a "Log in" control is
    shown and skips the login when the library link is. It then reads
    [localStorage] through a page script and returns [auth.key] of the first
    stored dict that has an [auth] entry. The browser is closed in a
    [finally] block. Everything here is defined over any [BrowserSession],
    so the theorems hold for every page behaviour. The page script's
    [JSON.parse] is a parameter [json_parse] (a JavaScript builtin, not code
    of the repository). *)

From Stdlib Require Import String Ascii ZArith List Bool Lia.
From stdpp Require Import base.
From S2P Require Import Prelude Json Browser.
Import ListNotations.
Open Scope string_scope.
Open Scope list_scope.

(** ** Selectors and constants *)

Definition LOGIN_URL : string := "https://web.stremio.com/#/intro?form=login".
(** [div:has-text("Log in"), a[href*="library"]] *)
Definition SEL_LOGIN_OR_LIBRARY : string :=
  "div:has-text(" ++ quoted "Log in" ++ "), a[href*=" ++ quoted "library" ++ "]".
(** [div:has-text("Log in")] *)
Definition SEL_LOGIN_TEXT : string := "div:has-text(" ++ quoted "Log in" ++ ")".
(** [div.form-button-vyqqj:has-text("Log in")] *)
Definition SEL_LOGIN_BUTTON : string := "div.form-button-vyqqj:has-text(" ++ quoted "Log in" ++ ")".
(** [input[placeholder="E-mail"]] and [input[placeholder="Password"]] *)
Definition SEL_EMAIL : string := "input[placeholder=" ++ quoted "E-mail" ++ "]".
Definition SEL_PASSWORD : string := "input[placeholder=" ++ quoted "Password" ++ "]".

(** Playwright's default timeout of [wait_for_selector], in ms. *)
Definition DEFAULT_TIMEOUT : Z := 30000.

Definition MSG_NO_CREDENTIALS : string :=
  "Please set STREMIO_EMAIL and STREMIO_PASSWORD in your .env file".
Definition MSG_NO_PROFILE : string := "Could not find profile data in localStorage".
Definition MSG_NO_AUTH : string := "No 'auth' field found in profile data".
Definition MSG_NO_KEY : string := "No 'key' field found in auth data".

(** ** Pure parts *)

(** [_load_credentials], lines 36-45: both variables must be set and
    non-empty ([not self.email] is true for [None] and [""]). *)
Definition load_credentials (env : string -> option string) : result (string * string) :=
  match env "STREMIO_EMAIL", env "STREMIO_PASSWORD" with
  | Some email, Some password =>
      if String.eqb email "" || String.eqb password "" then raise (ValueError MSG_NO_CREDENTIALS)
      else ret (email, password)
  | _, _ => raise (ValueError MSG_NO_CREDENTIALS)
  end.

(** [browsers.get(self.browser_type, playwright.chromium)], lines 65-70. *)
Definition select_engine (browser_type : string) : engine :=
  if String.eqb browser_type "firefox" then Firefox
  else if String.eqb browser_type "webkit" then Webkit
  else Chromium.

(** The attributes [__init__] sets, lines 28-34. The logger is not
    modelled. *)
Record extractor : Type := mk_extractor {
  ex_browser_type : string;
  ex_email : string;
  ex_password : string
}.

(** [StremioAuthExtractor(browser_type=...)]: [__init__] stores the
    browser type and calls [_load_credentials], which raises when a
    credential is missing. *)
Definition new_extractor (env : string -> option string) (browser_type : string)
  : result extractor :=
  let*' (email, password) := load_credentials env in
  ret (mk_extractor browser_type email password).

(** [--browser] of [main()], lines 203-208: its default and its choices.
    [parse_args] rejects any other value. *)
Definition BROWSER_CHOICES : list string := ["chromium"; "firefox"; "webkit"].

Definition parse_browser_arg (arg : option string) : option string :=
  let b := match arg with Some b => b | None => "chromium" end in
  if existsb (String.eqb b) BROWSER_CHOICES then Some b else None.

(** The test of line 161: [isinstance(value, dict) and 'auth' in value]. *)
Definition has_auth (v : json) : bool :=
  match v with
  | JObj o => match assoc_lookup "auth" o with Some _ => true | None => false end
  | _ => false
  end.

(** The scan of lines 159-164: the first stored value that passes the
    test, or [None]. *)
Fixpoint find_profile (storage_data : list (string * json)) : json :=
  match storage_data with
  | [] => JNull
  | (_, value) :: rest => if has_auth value then value else find_profile rest
  end.

(** Lines 166-180: the checks on the profile and the key it returns. *)
Definition profile_auth_key (storage_data : list (string * json)) : result json :=
  let profile_data := find_profile storage_data in
  if negb (py_truthy profile_data) then raise (ValueError MSG_NO_PROFILE) else
  let* has_auth_field := py_in "auth" profile_data in
  if negb has_auth_field then raise (ValueError MSG_NO_AUTH) else
  let* auth_data := py_getitem profile_data "auth" in
  let* has_key := py_in "key" auth_data in
  if negb has_key then raise (ValueError MSG_NO_KEY) else
  py_getitem auth_data "key".

Section Extractor.
Context {W : Type} `{BrowserSession W}.
(** [JSON.parse] of the page script: [None] when it throws. *)
Variable json_parse : string -> option json.

Local Open Scope browser_scope.

(** The page script of lines 143-156: each item parsed as JSON, or kept as
    the raw string when [JSON.parse] throws. *)
Definition storage_snapshot (raw : list (string * string)) : list (string * json) :=
  map (fun kv => (fst kv, match json_parse (snd kv) with Some j => j | None => JStr (snd kv) end)) raw.

(** [_fill_credentials], lines 125-133. *)
Definition fill_credentials (email password : string) : bm W unit :=
  wait_for_selector SEL_EMAIL Visible DEFAULT_TIMEOUT ;;
  fill SEL_EMAIL email ;;
  wait_for_selector SEL_PASSWORD Visible DEFAULT_TIMEOUT ;;
  fill SEL_PASSWORD password.

(** [_perform_login], lines 94-123. The wait for the button to disappear
    is inside a bare [try/except] that swallows every exception. *)
Definition perform_login (email password : string) : bm W unit :=
  wait_for_selector SEL_LOGIN_BUTTON Visible DEFAULT_TIMEOUT ;;
  click SEL_LOGIN_BUTTON ;;
  wait_for_timeout 2000 ;;
  fill_credentials email password ;;
  wait_for_selector SEL_LOGIN_BUTTON Visible DEFAULT_TIMEOUT ;;
  click SEL_LOGIN_BUTTON ;;
  btry (wait_for_selector SEL_LOGIN_BUTTON Hidden 10000) (fun _ => bret tt) ;;
  wait_for_load_state "networkidle".

(** [_navigate_and_login], lines 77-92. *)
Definition navigate_and_login (email password : string) : bm W unit :=
  goto LOGIN_URL "networkidle" ;;
  wait_for_selector SEL_LOGIN_OR_LIBRARY Visible 30000 ;;
  login_required <- query_selector SEL_LOGIN_TEXT ;;
  if login_required then perform_login email password else bret tt.

(** [_extract_auth_key_from_storage], lines 135-180. *)
Definition extract_from_storage : bm W json :=
  wait_for_timeout 3000 ;;
  raw <- evaluate_storage ;;
  blift (profile_auth_key (storage_snapshot raw)).

(** [extract_auth_key], lines 47-61, with [_launch_browser] (lines 63-71)
    and [_create_page] (lines 73-75). The launch is outside the [try]. The
    handler logs and re-raises. The [finally] closes the browser. The
    launch passes [headless=True] whatever [headless] is. *)
Definition extract_auth_key (browser_type : string) (headless : bool) (email password : string)
  : bm W json :=
  launch (select_engine browser_type) true ;;
  bfinally
    (btry (new_page ;; navigate_and_login email password ;; extract_from_storage)
          (fun e => bfail e))
    close.

(** [extract_stremio_auth_key], lines 183-195: the constructor loads the
    credentials (and raises before any browser call when they are
    missing), then the extraction runs. *)
Definition extract_stremio_auth_key (env : string -> option string) (headless : bool)
  (browser_type : string) : bm W json :=
  match new_extractor env browser_type with
  | Err e => bfail e
  | Ok ex => extract_auth_key (ex_browser_type ex) headless (ex_email ex) (ex_password ex)
  end.

(** [main()], lines 198-224, with its exit status. [parse_args] exits with
    status 2 on a browser outside the choices, before the [try]. Inside
    it, the constructor runs, then [extract_auth_key(headless=True)]; the
    key is logged and printed (not modelled). Any exception is logged and
    gives 1. *)
Definition auth_cli_main (env : string -> option string) (arg : option string) : bm W Z :=
  match parse_browser_arg arg with
  | None => bret 2%Z
  | Some browser =>
      btry (match new_extractor env browser with
            | Err e => bfail e
            | Ok ex => extract_auth_key (ex_browser_type ex) true (ex_email ex) (ex_password ex) ;;
                       bret 0%Z
            end)
           (fun _ => bret 1%Z)
  end.

End Extractor.

(** ** Lemmas on the storage scan *)

Lemma find_profile_skip (pre rest : list (string * json)) :
  Forall (fun kv => has_auth (snd kv) = false) pre ->
  find_profile (pre ++ rest) = find_profile rest.
Proof.
  induction 1 as [|[k v] pre Hv Hpre IH]; [reflexivity |].
  simpl in *. rewrite Hv. exact IH.
Qed.

Lemma find_profile_cases (data : list (string * json)) :
  (find_profile data = JNull /\ Forall (fun kv => has_auth (snd kv) = false) data) \/
  (exists pre k rest, data = pre ++ (k, find_profile data) :: rest /\
     has_auth (find_profile data) = true /\ Forall (fun kv => has_auth (snd kv) = false) pre).
Proof.
  induction data as [|[k v] data IH]; simpl; [left; auto |].
  destruct (has_auth v) eqn:Hv.
  - right. exists [], k, data. auto.
  - destruct IH as [[H1 H2]|(pre & k' & rest & E & Ha & Hpre)].
    + left. auto.
    + right. exists ((k, v) :: pre), k', rest. rewrite E at 1. auto.
Qed.

Lemma has_auth_true (v : json) :
  has_auth v = true -> exists o a, v = JObj o /\ assoc_lookup "auth" o = Some a.
Proof.
  destruct v as [| | | | | o]; try discriminate. simpl.
  destruct (assoc_lookup "auth" o) eqn:E; [eauto | discriminate].
Qed.

(** Once a profile with an [auth] entry is found, only the [key] checks
    remain. *)
Lemma profile_auth_key_found (data : list (string * json)) (o : list (string * json)) (a : json) :
  find_profile data = JObj o -> assoc_lookup "auth" o = Some a ->
  profile_auth_key data =
    let* has_key := py_in "key" a in
    if negb has_key then raise (ValueError MSG_NO_KEY) else py_getitem a "key".
Proof.
  intros Hf Ha. unfold profile_auth_key. rewrite Hf.
  destruct o as [|kv o]; [discriminate |]. simpl in Ha |- *. rewrite Ha. reflexivity.
Qed.

Lemma profile_auth_key_none (data : list (string * json)) :
  find_profile data = JNull -> profile_auth_key data = Err (ValueError MSG_NO_PROFILE).
Proof. intros Hf. unfold profile_auth_key. rewrite Hf. reflexivity. Qed.

(** ** Lemmas *)

#[export] Hint Extern 1 (_ <> _) => discriminate : browser.
#[export] Hint Extern 2 (calls_ok _ (if ?b then _ else _)) => destruct b : browser.
#[export] Hint Unfold launch new_page goto wait_for_selector query_selector click fill
  wait_for_timeout wait_for_load_state evaluate_storage close : browser.

Section Proofs.
Context {W : Type} `{BrowserSession W}.
Variable json_parse : string -> option json.

(** Calls recorded by the login flow, never a [close]. *)
Lemma navigate_and_login_no_close (email password : string) :
  calls_ok (fun c => c <> CClose) (@navigate_and_login W _ email password).
Proof.
  unfold navigate_and_login, perform_login, fill_credentials.
  autounfold with browser. auto 20 with browser.
Qed.

Lemma extract_from_storage_no_close :
  calls_ok (fun c => c <> CClose) (@extract_from_storage W _ json_parse).
Proof. unfold extract_from_storage. autounfold with browser. auto 20 with browser. Qed.

Lemma extract_body_no_close (email password : string) :
  calls_ok (fun c => c <> CClose)
    (btry (bbind new_page (fun _ => bbind (navigate_and_login email password)
             (fun _ => extract_from_storage json_parse)))
          (fun e => @bfail W json e)).
Proof.
  pose proof (navigate_and_login_no_close email password).
  pose proof extract_from_storage_no_close.
  unfold new_page. auto 20 with browser.
Qed.


Lemma extract_auth_key_step (browser_type : string) (headless : bool)
  (email password : string) (st : W * trace) :
  extract_auth_key json_parse browser_type headless email password st =
  let '(r, w1) := bs_launch (select_engine browser_type) true (fst st) in
  match r with
  | Ok _ =>
      bfinally
        (btry (bbind new_page (fun _ => bbind (navigate_and_login email password)
                 (fun _ => extract_from_storage json_parse)))
              (fun e => bfail e))
        close (w1, snd st ++ [(CLaunch (select_engine browser_type) true, Done)])
  | Err e => (Err e, (w1, snd st ++ [(CLaunch (select_engine browser_type) true, Raised e)]))
  end.
Proof.
  unfold extract_auth_key, bbind at 1, launch, bcall at 1.
  destruct (bs_launch _ _ _) as [[[]|e] w1]; reflexivity.
Qed.

(** C7. Scoped release: once the launch succeeded, the browser is closed
    exactly once, as the last call, whatever the page did. The launch is the
    first call and always passes [headless=True]. If the launch itself
    raises, nothing else is called and the exception propagates. *)
Theorem extract_auth_key_closes_browser (browser_type : string) (headless : bool)
  (email password : string) (st : W * trace) :
  let res := extract_auth_key json_parse browser_type headless email password st in
  match fst (bs_launch (select_engine browser_type) true (fst st)) with
  | Ok _ =>
      exists body o,
        snd (snd res) = snd st ++ [(CLaunch (select_engine browser_type) true, Done)] ++
                          body ++ [(CClose, o)] /\
        Forall (fun ev => fst ev <> CClose) body
  | Err e =>
      snd (snd res) = snd st ++ [(CLaunch (select_engine browser_type) true, Raised e)] /\
      fst res = Err e
  end.
Proof.
  cbv zeta. rewrite !extract_auth_key_step.
  destruct (bs_launch (select_engine browser_type) true (fst st)) as [[[]|e] w1];
    cbn [fst snd]; [|split; reflexivity].
  destruct (extract_body_no_close email password (w1, snd st ++ [(CLaunch (select_engine browser_type) true, Done)]))
    as (body & Hb & Hf).
  match goal with |- context [bfinally ?m ?f ?s] => destruct (bfinally_trace m f s) as [Ht _] end.
  rewrite Ht. destruct (btry _ _ _) as [r [w2 tr2]]. simpl in Hb. subst tr2.
  unfold close, bcall. cbn [fst snd]. destruct (bs_close w2) as [rc w3]. cbn [fst snd].
  eexists body, _. split; [rewrite <- !app_assoc; reflexivity | exact Hf].
Qed.
End Proofs.

(** ** Theorems on the storage scan *)

(** C12. The extracted key: [profile_auth_key] returns [k] exactly when
    some stored dict has [auth] as a dict with [key = k], and no earlier
    stored value is a dict with an [auth] entry. The first match wins. *)
Theorem profile_auth_key_ok_iff (data : list (string * json)) (k : json) :
  profile_auth_key data = Ok k <->
  exists pre name o a rest,
    data = pre ++ (name, JObj o) :: rest /\
    Forall (fun kv => has_auth (snd kv) = false) pre /\
    assoc_lookup "auth" o = Some (JObj a) /\ assoc_lookup "key" a = Some k.
Proof.
  split.
  - intros Hk. destruct (find_profile_cases data) as [[Hf _]|(pre & name & rest & E & Ha & Hpre)].
    + rewrite profile_auth_key_none in Hk by exact Hf. discriminate.
    + destruct (has_auth_true _ Ha) as (o & a & Eo & Eauth).
      rewrite (profile_auth_key_found data o a Eo Eauth) in Hk.
      rewrite Eo in E. exists pre, name, o.
      destruct a as [| | | | | al]; simpl in Hk;
        try discriminate; try (destruct (str_contains _ _); discriminate);
        try (destruct (existsb _ _); discriminate).
      destruct (assoc_lookup "key" al) eqn:Ek; simpl in Hk; [|discriminate].
      injection Hk as <-. exists al, rest. auto.
  - intros (pre & name & o & a & rest & -> & Hpre & Ha & Hk).
    assert (Hf : find_profile (pre ++ (name, JObj o) :: rest) = JObj o).
    { rewrite find_profile_skip by exact Hpre. simpl. rewrite Ha. reflexivity. }
    rewrite (profile_auth_key_found _ o (JObj a) Hf Ha). simpl. rewrite Hk. reflexivity.
Qed.

Lemma profile_auth_key_ok_iff_witness :
  profile_auth_key [("theme", JStr "dark");
                    ("profile", JObj [("auth", JObj [("key", JStr "abc")])])] = Ok (JStr "abc") /\
  exists pre name o a rest,
    [("theme", JStr "dark"); ("profile", JObj [("auth", JObj [("key", JStr "abc")])])] =
      pre ++ (name, JObj o) :: rest /\
    Forall (fun kv => has_auth (snd kv) = false) pre /\
    assoc_lookup "auth" o = Some (JObj a) /\ assoc_lookup "key" a = Some (JStr "abc").
Proof.
  split; [reflexivity |].
  apply (profile_auth_key_ok_iff _ (JStr "abc")). reflexivity.
Defined.

(** No profile: when no stored value is a dict with an [auth]
    entry, extraction fails with "Could not find profile data in
    localStorage". *)
Theorem profile_missing_error (data : list (string * json)) :
  Forall (fun kv => has_auth (snd kv) = false) data ->
  profile_auth_key data = Err (ValueError MSG_NO_PROFILE).
Proof.
  intros Hd. apply profile_auth_key_none.
  rewrite <- (app_nil_r data), find_profile_skip by exact Hd. reflexivity.
Qed.

Lemma profile_missing_error_witness :
  Forall (fun kv => has_auth (snd kv) = false) [("theme", JStr "dark"); ("user", JObj [])] /\
  profile_auth_key [("theme", JStr "dark"); ("user", JObj [])] = Err (ValueError MSG_NO_PROFILE).
Proof. split; [repeat constructor | apply profile_missing_error; repeat constructor]. Defined.

(** Missing key: when the profile's [auth] is a dict without [key],
    extraction fails with "No 'key' field found in auth data". This message
    differs from the missing-profile one. *)
Theorem key_missing_error (data : list (string * json)) (o a : list (string * json)) :
  find_profile data = JObj o -> assoc_lookup "auth" o = Some (JObj a) ->
  assoc_lookup "key" a = None ->
  profile_auth_key data = Err (ValueError MSG_NO_KEY) /\ MSG_NO_KEY <> MSG_NO_PROFILE.
Proof.
  intros Hf Ha Hk. split; [| discriminate].
  rewrite (profile_auth_key_found data o (JObj a) Hf Ha). simpl. rewrite Hk. reflexivity.
Qed.

Lemma key_missing_error_witness :
  find_profile [("profile", JObj [("auth", JObj [("user", JStr "u")])])] =
    JObj [("auth", JObj [("user", JStr "u")])] /\
  assoc_lookup "auth" [("auth", JObj [("user", JStr "u")])] = Some (JObj [("user", JStr "u")]) /\
  assoc_lookup "key" [("user", JStr "u")] = None /\
  profile_auth_key [("profile", JObj [("auth", JObj [("user", JStr "u")])])] =
    Err (ValueError MSG_NO_KEY) /\ MSG_NO_KEY <> MSG_NO_PROFILE.
Proof.
  split; [reflexivity | split; [reflexivity | split; [reflexivity |]]].
  apply (key_missing_error _ [("auth", JObj [("user", JStr "u")])] [("user", JStr "u")]);
    reflexivity.
Defined.

(** C24. Credential-shape failures are told apart, as the spec requires.
    A snapshot with no stored dict holding [auth] raises "Could not find
    profile data in localStorage". A snapshot whose profile has [auth]
    without [key] raises "No 'key' field found in auth data". The two
    errors differ. *)
Theorem credential_failures_distinct (data1 data2 o a : list (string * json)) :
  Forall (fun kv => has_auth (snd kv) = false) data1 ->
  find_profile data2 = JObj o -> assoc_lookup "auth" o = Some (JObj a) ->
  assoc_lookup "key" a = None ->
  profile_auth_key data1 = Err (ValueError MSG_NO_PROFILE) /\
  profile_auth_key data2 = Err (ValueError MSG_NO_KEY) /\
  profile_auth_key data1 <> profile_auth_key data2.
Proof.
  intros H1 Hf Ha Hk.
  rewrite (profile_missing_error data1 H1), (proj1 (key_missing_error data2 o a Hf Ha Hk)).
  split; [reflexivity | split; [reflexivity | discriminate]].
Qed.

Lemma credential_failures_distinct_witness :
  Forall (fun kv => has_auth (snd kv) = false) [("theme", JStr "dark")] /\
  find_profile [("profile", JObj [("auth", JObj [("user", JStr "u")])])] =
    JObj [("auth", JObj [("user", JStr "u")])] /\
  assoc_lookup "auth" [("auth", JObj [("user", JStr "u")])] = Some (JObj [("user", JStr "u")]) /\
  assoc_lookup "key" [("user", JStr "u")] = None /\
  profile_auth_key [("theme", JStr "dark")] = Err (ValueError MSG_NO_PROFILE) /\
  profile_auth_key [("profile", JObj [("auth", JObj [("user", JStr "u")])])] =
    Err (ValueError MSG_NO_KEY) /\
  profile_auth_key [("theme", JStr "dark")] <>
    profile_auth_key [("profile", JObj [("auth", JObj [("user", JStr "u")])])].
Proof.
  split; [repeat constructor |].
  split; [reflexivity | split; [reflexivity | split; [reflexivity |]]].
  apply (credential_failures_distinct _ _ [("auth", JObj [("user", JStr "u")])] [("user", JStr "u")]);
    [repeat constructor | reflexivity | reflexivity | reflexivity].
Defined.

(** C27. The "No 'auth' field found in profile data" error of line 171 is
    unreachable: the scan only selects dicts that contain [auth]. *)
Theorem no_auth_error_unreachable (data : list (string * json)) :
  profile_auth_key data <> Err (ValueError MSG_NO_AUTH).
Proof.
  destruct (find_profile_cases data) as [[Hf _]|(pre & name & rest & _ & Ha & _)].
  - rewrite profile_auth_key_none by exact Hf. discriminate.
  - destruct (has_auth_true _ Ha) as (o & a & Eo & Eauth).
    rewrite (profile_auth_key_found data o a Eo Eauth).
    destruct a as [| | | | | al]; simpl; try discriminate;
      repeat match goal with |- context [if ?b then _ else _] => destruct b end;
      try discriminate; destruct (assoc_lookup "key" al); discriminate.
Qed.

(** When the profile's [auth] is [null], a boolean or a number, the
    [in] test raises [TypeError]. The caller gets no labelled
    [ValueError]. *)
Theorem auth_scalar_type_error (data : list (string * json)) (o : list (string * json)) (a : json) :
  find_profile data = JObj o -> assoc_lookup "auth" o = Some a ->
  match a with JNull | JBool _ | JInt _ => True | _ => False end ->
  profile_auth_key data = Err TypeError.
Proof.
  intros Hf Ha Hs. rewrite (profile_auth_key_found data o a Hf Ha).
  destruct a; try contradiction; reflexivity.
Qed.

Lemma auth_scalar_type_error_witness :
  find_profile [("profile", JObj [("auth", JNull)])] = JObj [("auth", JNull)] /\
  assoc_lookup "auth" [("auth", JNull)] = Some JNull /\
  profile_auth_key [("profile", JObj [("auth", JNull)])] = Err TypeError.
Proof.
  split; [reflexivity | split; [reflexivity |]].
  apply (auth_scalar_type_error _ [("auth", JNull)] JNull); [reflexivity | reflexivity | exact I].
Defined.

(** ** Credentials and engine *)

(** [_load_credentials] succeeds exactly when both variables are set
    and non-empty, and returns them unchanged. *)
Theorem load_credentials_ok_iff (env : string -> option string) (email password : string) :
  load_credentials env = Ok (email, password) <->
  env "STREMIO_EMAIL" = Some email /\ env "STREMIO_PASSWORD" = Some password /\
  email <> "" /\ password <> "".
Proof.
  unfold load_credentials.
  destruct (env "STREMIO_EMAIL") as [e|], (env "STREMIO_PASSWORD") as [p|];
    try (split; [discriminate | intros (? & ? & _); discriminate]).
  destruct (String.eqb_spec e ""), (String.eqb_spec p ""); simpl;
    (split; [intros H; try discriminate; injection H as <- <-; auto |
             intros (H1 & H2 & H3 & H4); injection H1 as <-; injection H2 as <-;
             try contradiction; reflexivity]).
Qed.

(** Engine choice: ["firefox"] and ["webkit"] pick their engines;
    every other name, including an unknown one, falls back to Chromium. *)
Theorem select_engine_spec (browser_type : string) :
  (select_engine browser_type = Firefox <-> browser_type = "firefox") /\
  (select_engine browser_type = Webkit <-> browser_type = "webkit") /\
  (select_engine browser_type = Chromium <-> browser_type <> "firefox" /\ browser_type <> "webkit").
Proof.
  unfold select_engine.
  destruct (String.eqb_spec browser_type "firefox") as [->|H1];
    [|destruct (String.eqb_spec browser_type "webkit") as [->|H2]];
    repeat split; intros; try discriminate; try congruence; tauto.
Qed.

(** ** A test page *)

(** A page that is logged in or not, counts clicks (the second click of
    the login flow submits the form) and holds a fixed [localStorage]. The
    wait for the login button to hide times out before the login. *)
Record test_page : Type := mk_test_page {
  tp_logged_in : bool;
  tp_clicks : nat;
  tp_storage : list (string * string)
}.

#[local] Instance test_browser : BrowserSession test_page := {
  bs_launch := fun _ _ w => (Ok tt, w);
  bs_new_page := fun w => (Ok tt, w);
  bs_goto := fun _ _ w => (Ok tt, w);
  bs_wait_for_selector := fun _ st _ w =>
    match st with
    | Visible => (Ok tt, w)
    | Hidden => if tp_logged_in w then (Ok tt, w) else (Err TimeoutError, w)
    end;
  bs_query_selector := fun _ w => (Ok (negb (tp_logged_in w)), w);
  bs_click := fun _ w =>
    (Ok tt, mk_test_page (tp_logged_in w || Nat.leb 1 (tp_clicks w)) (S (tp_clicks w)) (tp_storage w));
  bs_fill := fun _ _ w => (Ok tt, w);
  bs_wait_for_timeout := fun _ w => (Ok tt, w);
  bs_wait_for_load_state := fun _ w => (Ok tt, w);
  bs_local_storage := fun w => (Ok (tp_storage w), w);
  bs_close := fun w => (Ok tt, w)
}.

(** [JSON.parse] on the two raw values the test uses. *)
Definition test_parse (s : string) : option json :=
  if String.eqb s "PROFILE" then Some (JObj [("auth", JObj [("key", JStr "abc")])])
  else if String.eqb s "42" then Some (JInt 42) else None.

Definition test_env (k : string) : option string :=
  if String.eqb k "STREMIO_EMAIL" then Some "me@example.com"
  else if String.eqb k "STREMIO_PASSWORD" then Some "secret" else None.

(** ** Theorems on the whole extraction *)

(** Credentials are checked before anything else: when they are
    missing, [extract_stremio_auth_key] raises the [ValueError] without a
    single browser call. *)
Theorem extract_checks_credentials_first {W : Type} `{BrowserSession W}
  (json_parse : string -> option json) (env : string -> option string) (headless : bool)
  (browser_type : string) (st : W * trace) (e : py_exn) :
  load_credentials env = Err e ->
  extract_stremio_auth_key json_parse env headless browser_type st = (Err e, st).
Proof. intros He. unfold extract_stremio_auth_key, new_extractor. rewrite He. reflexivity. Qed.

Lemma extract_checks_credentials_first_witness :
  load_credentials (fun _ => None) = Err (ValueError MSG_NO_CREDENTIALS) /\
  extract_stremio_auth_key test_parse (fun _ => None) true "chromium"
    (mk_test_page false 0 [], []) =
    (Err (ValueError MSG_NO_CREDENTIALS), (mk_test_page false 0 [], [])).
Proof.
  split; [reflexivity |].
  apply (extract_checks_credentials_first test_parse (fun _ => None)). reflexivity.
Defined.

(** The already-authenticated path: when the page shows the library,
    no login control is touched and no credential is typed. The calls are
    launch, page, goto, the two selector checks, the settle delay, the
    storage read and the close, and the key of the stored profile is
    returned. *)
Example extract_already_logged_in :
  let res := extract_stremio_auth_key test_parse test_env true "chromium"
               (mk_test_page true 0 [("theme", "dark"); ("profile", "PROFILE")], []) in
  fst res = Ok (JStr "abc") /\
  snd (snd res) =
    [(CLaunch Chromium true, Done); (CNewPage, Done); (CGoto LOGIN_URL "networkidle", Done);
     (CWaitForSelector SEL_LOGIN_OR_LIBRARY Visible 30000, Done);
     (CQuerySelector SEL_LOGIN_TEXT, Found false);
     (CWaitForTimeout 3000, Done); (CEvaluate, Storage [("theme", "dark"); ("profile", "PROFILE")]);
     (CClose, Done)].
Proof. vm_compute. split; reflexivity. Qed.

(** The login path: the login control is clicked, the e-mail and
    then the password are typed into their fields, the form is submitted
    with the same control, and the storage is read after the page settles.
    [headless=False] still launches headless. *)
Example extract_with_login :
  let res := extract_stremio_auth_key test_parse test_env false "firefox"
               (mk_test_page false 0 [("count", "42"); ("profile", "PROFILE")], []) in
  fst res = Ok (JStr "abc") /\
  map fst (snd (snd res)) =
    [CLaunch Firefox true; CNewPage; CGoto LOGIN_URL "networkidle";
     CWaitForSelector SEL_LOGIN_OR_LIBRARY Visible 30000; CQuerySelector SEL_LOGIN_TEXT;
     CWaitForSelector SEL_LOGIN_BUTTON Visible DEFAULT_TIMEOUT; CClick SEL_LOGIN_BUTTON;
     CWaitForTimeout 2000;
     CWaitForSelector SEL_EMAIL Visible DEFAULT_TIMEOUT; CFill SEL_EMAIL "me@example.com";
     CWaitForSelector SEL_PASSWORD Visible DEFAULT_TIMEOUT; CFill SEL_PASSWORD "secret";
     CWaitForSelector SEL_LOGIN_BUTTON Visible DEFAULT_TIMEOUT; CClick SEL_LOGIN_BUTTON;
     CWaitForSelector SEL_LOGIN_BUTTON Hidden 10000; CWaitForLoadState "networkidle";
     CWaitForTimeout 3000; CEvaluate; CClose].
Proof. vm_compute. split; reflexivity. Qed.

(** ** The command-line entry point *)

(** C38. Exit status of [main()]: it never raises, and exits 0, 1 or 2.
    It exits 2 exactly when [--browser] is outside the choices, 0 exactly
    when the browser is valid, the credentials are set and the extraction
    returned a key, and 1 otherwise. When the argument or the credentials
    are rejected, it makes no browser call. *)
Theorem auth_cli_main_exit_codes {W : Type} `{BrowserSession W}
  (json_parse : string -> option json) (env : string -> option string) (arg : option string)
  (st : W * trace) :
  let r := auth_cli_main json_parse env arg st in
  (fst r = Ok 0%Z \/ fst r = Ok 1%Z \/ fst r = Ok 2%Z) /\
  (fst r = Ok 2%Z <-> parse_browser_arg arg = None) /\
  (fst r = Ok 0%Z <-> exists browser email password k,
     parse_browser_arg arg = Some browser /\ load_credentials env = Ok (email, password) /\
     fst (extract_auth_key json_parse browser true email password st) = Ok k) /\
  (parse_browser_arg arg = None \/ is_ok (load_credentials env) = false -> snd r = st).
Proof.
  cbv zeta. unfold auth_cli_main.
  destruct (parse_browser_arg arg) as [b|] eqn:Ha.
  2: { simpl. split; [auto |]. split; [tauto |].
       split; [split; [discriminate | intros (? & ? & ? & ? & ? & _); discriminate] |].
       intros _. reflexivity. }
  unfold btry, new_extractor.
  destruct (load_credentials env) as [[email password]|e] eqn:Hc; simpl.
  - unfold bbind, bret.
    destruct (extract_auth_key json_parse b true email password st) as [[k|e] st'] eqn:Hx; simpl.
    + split; [auto |]. split; [split; discriminate |].
      split; [split; [intros _; exists b, email, password, k; rewrite Hx; auto | reflexivity] |].
      intros [Hn|Hn]; discriminate.
    + split; [auto |]. split; [split; discriminate |].
      split; [split; [discriminate | intros (b' & em & pw & k' & Hb & He & Hk)] |].
      * injection Hb as <-. injection He as <- <-. rewrite Hx in Hk. discriminate.
      * intros [Hn|Hn]; discriminate.
  - split; [auto |]. split; [split; discriminate |].
    split; [split; [discriminate | intros (? & ? & ? & ? & _ & ? & _); discriminate] |].
    intros _. reflexivity.
Qed.

(** On the test page: an unknown browser gives 2, a run that finds the
    profile gives 0, and missing credentials or a storage without a
    profile give 1. *)
Example auth_cli_main_runs :
  fst (auth_cli_main test_parse test_env (Some "opera") (mk_test_page true 0 [], [])) = Ok 2%Z /\
  fst (auth_cli_main test_parse test_env None
         (mk_test_page false 0 [("profile", "PROFILE")], [])) = Ok 0%Z /\
  fst (auth_cli_main test_parse (fun _ => None) (Some "webkit") (mk_test_page true 0 [], [])) =
    Ok 1%Z /\
  fst (auth_cli_main test_parse test_env None (mk_test_page true 0 [("theme", "dark")], [])) =
    Ok 1%Z.
Proof. repeat split; vm_compute; reflexivity. Qed.
