(* ===== verification/LoginMachine.v ===== *)
(** * LoginMachine: the login state machine of the spec, and the extractor's refinement of it

    The spec describes the credential extraction as a state machine:
    [START -> NAVIGATED -> {LOGIN_REQUIRED | ALREADY_AUTHENTICATED} ->
    LOGIN_SUBMITTED -> STORAGE_READY -> TOKEN_EXTRACTED], with a terminal
    [FAILED(reason)]. Here it is a labelled step relation [lstep]. Its
    labels are the events of a [Browser] trace: a Playwright call with its
    outcome. A few steps are silent. [runs] is the reflexive-transitive
    closure of [lstep] along a trace. [phase] says that a computation of the
    browser monad extends the trace by a run of the machine from a given
    state. The combinator lemmas on [phase] follow the structure of
    [CredentialExtractor]: one lemma per function of [auth_extractor.py].
    The main theorem says every trace of [extract_auth_key], on any page,
    is a run of the machine that ends in the state its result names. *)

From Stdlib Require Import String ZArith List Bool Lia.
From stdpp Require Import base.
From S2P Require Import Prelude Json Browser CredentialExtractor.
Import ListNotations.
Open Scope string_scope.
Open Scope list_scope.

(** ** The machine *)

(** The states of the spec. [LoginRequired] records whether the e-mail
    and the password have been typed. A click on the login control before
    both are typed opens the form; after both are typed, it submits.
    [StorageReady] records whether the settle delay has passed. *)
Inductive lstate : Type :=
| Start
| Navigated
| LoginRequired (email_filled password_filled : bool)
| AlreadyAuthenticated
| LoginSubmitted
| StorageReady (settled : bool)
| TokenExtracted (key : json)
| Failed (reason : py_exn).

Definition event : Type := call * outcome.

Definition terminal (s : lstate) : bool :=
  match s with TokenExtracted _ | Failed _ => true | _ => false end.

(** The state a finished extraction names. *)
Definition verdict (r : result json) : lstate :=
  match r with Ok k => TokenExtracted k | Err e => Failed e end.

(** The primary completion signal of the two-tier check: the login control
    disappears. Its timeout is a soft failure. *)
Definition soft_failure (s : lstate) (c : call) : bool :=
  match s, c with
  | LoginSubmitted, CWaitForSelector sel Hidden _ => String.eqb sel SEL_LOGIN_BUTTON
  | _, _ => false
  end.

Section Machine.
Variables (email password : string) (json_parse : string -> option json).

Inductive lstep : lstate -> option event -> lstate -> Prop :=
(** [START -> NAVIGATED]: open the session, navigate, wait for either
    affordance. *)
| st_launch e h : lstep Start (Some (CLaunch e h, Done)) Start
| st_new_page : lstep Start (Some (CNewPage, Done)) Start
| st_goto : lstep Start (Some (CGoto LOGIN_URL "networkidle", Done)) Start
| st_navigated t :
    lstep Start (Some (CWaitForSelector SEL_LOGIN_OR_LIBRARY Visible t, Done)) Navigated
(** [NAVIGATED]: the login affordance decides the branch. *)
| st_login_required :
    lstep Navigated (Some (CQuerySelector SEL_LOGIN_TEXT, Found true)) (LoginRequired false false)
| st_already :
    lstep Navigated (Some (CQuerySelector SEL_LOGIN_TEXT, Found false)) AlreadyAuthenticated
(** [LOGIN_REQUIRED]: waits, the opening click, the two credentials, the
    submitting click. *)
| st_lr_wait sel t ef pf :
    lstep (LoginRequired ef pf) (Some (CWaitForSelector sel Visible t, Done)) (LoginRequired ef pf)
| st_lr_delay ms ef pf :
    lstep (LoginRequired ef pf) (Some (CWaitForTimeout ms, Done)) (LoginRequired ef pf)
| st_lr_open ef pf :
    ef && pf = false ->
    lstep (LoginRequired ef pf) (Some (CClick SEL_LOGIN_BUTTON, Done)) (LoginRequired ef pf)
| st_lr_email ef pf :
    lstep (LoginRequired ef pf) (Some (CFill SEL_EMAIL email, Done)) (LoginRequired true pf)
| st_lr_password ef pf :
    lstep (LoginRequired ef pf) (Some (CFill SEL_PASSWORD password, Done)) (LoginRequired ef true)
| st_submit :
    lstep (LoginRequired true true) (Some (CClick SEL_LOGIN_BUTTON, Done)) LoginSubmitted
(** [LOGIN_SUBMITTED -> STORAGE_READY]: the control disappears or its wait
    times out (soft), then the network goes idle. *)
| st_hidden t :
    lstep LoginSubmitted (Some (CWaitForSelector SEL_LOGIN_BUTTON Hidden t, Done)) LoginSubmitted
| st_hidden_soft t e :
    lstep LoginSubmitted (Some (CWaitForSelector SEL_LOGIN_BUTTON Hidden t, Raised e)) LoginSubmitted
| st_network_idle :
    lstep LoginSubmitted (Some (CWaitForLoadState "networkidle", Done)) (StorageReady false)
(** [ALREADY_AUTHENTICATED -> STORAGE_READY]: the login is skipped. *)
| st_skip_login : lstep AlreadyAuthenticated None (StorageReady false)
(** [STORAGE_READY -> TOKEN_EXTRACTED]: settle, read the snapshot, and
    check the profile. A failed check is a labelled failure. *)
| st_settle ms : lstep (StorageReady false) (Some (CWaitForTimeout ms, Done)) (StorageReady true)
| st_extract raw :
    lstep (StorageReady true) (Some (CEvaluate, Storage raw))
      (verdict (profile_auth_key (storage_snapshot json_parse raw)))
(** Any other exception fails the machine. *)
| st_fail s c e :
    terminal s = false -> soft_failure s c = false -> lstep s (Some (c, Raised e)) (Failed e)
(** Release: the browser is closed from a terminal state; an exception
    of [close] replaces the verdict. *)
| st_release s : terminal s = true -> lstep s (Some (CClose, Done)) s
| st_release_fail s e : terminal s = true -> lstep s (Some (CClose, Raised e)) (Failed e).

(** Runs along a trace, with silent steps anywhere. *)
Inductive runs : lstate -> trace -> lstate -> Prop :=
| runs_nil s : runs s [] s
| runs_silent s s' tr s'' : lstep s None s' -> runs s' tr s'' -> runs s tr s''
| runs_step s ev s' tr s'' : lstep s (Some ev) s' -> runs s' tr s'' -> runs s (ev :: tr) s''.

End Machine.

Create HintDb machine discriminated.
#[export] Hint Constructors lstep runs : machine.

(** ** Runs compose *)

Section Runs.
Variables (email password : string) (json_parse : string -> option json).

Lemma runs_app (s s' s'' : lstate) (t1 t2 : trace) :
  runs email password json_parse s t1 s' -> runs email password json_parse s' t2 s'' ->
  runs email password json_parse s (t1 ++ t2) s''.
Proof. induction 1; simpl; eauto with machine. Qed.

Lemma runs_one (s s' : lstate) (ev : event) :
  lstep email password json_parse s (Some ev) s' -> runs email password json_parse s [ev] s'.
Proof. eauto with machine. Qed.

End Runs.

#[export] Hint Resolve runs_one : machine.

(** ** Invariants of the machine, by rule induction *)

(** The progress of a state along the spec's chain. Every step keeps or
    increases it. *)
Definition stage (s : lstate) : nat :=
  match s with
  | Start => 0
  | Navigated => 1
  | LoginRequired _ _ => 2
  | LoginSubmitted | AlreadyAuthenticated => 3
  | StorageReady false => 4
  | StorageReady true => 5
  | TokenExtracted _ | Failed _ => 6
  end.

Section Invariants.
Variables (email password : string) (json_parse : string -> option json).
Local Abbreviation runs := (runs email password json_parse).
Local Abbreviation lstep := (lstep email password json_parse).

Lemma stage_le (s : lstate) : stage s <= 6.
Proof. destruct s as [| | | | |[]| |]; simpl; lia. Qed.

Lemma lstep_stage (s s' : lstate) (l : option event) : lstep s l s' -> stage s <= stage s'.
Proof.
  destruct 1; simpl; try lia; try apply stage_le.
  destruct (profile_auth_key _); simpl; lia.
Qed.

Lemma runs_stage (s s' : lstate) (tr : trace) : runs s tr s' -> stage s <= stage s'.
Proof. induction 1; eauto using lstep_stage, PeanoNat.Nat.le_trans. Qed.

(** Each event of a run is a step between the run's two ends. *)
Lemma runs_event (s s' : lstate) (tr : trace) (ev : event) :
  runs s tr s' -> In ev tr ->
  exists s1 s2, lstep s1 (Some ev) s2 /\ stage s <= stage s1 /\ stage s2 <= stage s'.
Proof.
  induction 1 as [s|s s1 tr s'' Hs Hr IH|s ev' s1 tr s'' Hs Hr IH]; intros Hin; [destruct Hin |..].
  - destruct (IH Hin) as (a & b & Hab & H1 & H2).
    exists a, b. pose proof (lstep_stage _ _ _ Hs). split; [exact Hab | lia].
  - destruct Hin as [<-|Hin].
    + exists s, s1. pose proof (runs_stage _ _ _ Hr). auto.
    + destruct (IH Hin) as (a & b & Hab & H1 & H2).
      exists a, b. pose proof (lstep_stage _ _ _ Hs). split; [exact Hab | lia].
Qed.

Lemma runs_split (s s' : lstate) (t1 t2 : trace) :
  runs s (t1 ++ t2) s' -> exists m, runs s t1 m /\ runs m t2 s'.
Proof.
  intros H. remember (t1 ++ t2) as t eqn:Et. revert t1 Et.
  induction H as [s|s s1 tr s'' Hs Hr IH|s ev s1 tr s'' Hs Hr IH]; intros t1 Et.
  - symmetry in Et. apply app_eq_nil in Et as [-> ->]. eauto with machine.
  - destruct (IH t1 Et) as (m & H1 & H2). eauto with machine.
  - destruct t1 as [|ev' t1]; simpl in Et.
    + subst t2. eauto with machine.
    + injection Et as <- Et. destruct (IH t1 Et) as (m & H1 & H2). eauto with machine.
Qed.

(** The first labelled step of a run, after its silent prefix. *)
Lemma runs_cons_inv (s s' : lstate) (ev : event) (tr : trace) :
  runs s (ev :: tr) s' -> exists m1 m2, runs s [] m1 /\ lstep m1 (Some ev) m2 /\ runs m2 tr s'.
Proof.
  intros H. remember (ev :: tr) as t eqn:Et.
  induction H as [s|s s1 t s'' Hs Hr IH|s ev' s1 t s'' Hs Hr IH]; [discriminate | |].
  - destruct (IH Et) as (m1 & m2 & H1 & H2 & H3). exists m1, m2. eauto with machine.
  - injection Et as -> ->. eauto with machine.
Qed.

(** From a terminal state, a run stays there or fails on the release. *)
Lemma terminal_runs (s s' : lstate) (tr : trace) :
  runs s tr s' -> terminal s = true -> s' = s \/ exists e, s' = Failed e.
Proof.
  induction 1 as [s|s s1 tr s'' Hs Hr IH|s ev s1 tr s'' Hs Hr IH]; intros Ht; [auto | |].
  - inversion Hs; subst; discriminate.
  - inversion Hs; subst; simpl in Ht; try discriminate; try congruence;
      first [apply IH; assumption | destruct (IH eq_refl) as [->|He]; eauto].
Qed.

(** A successful query of the login text is the branch of [NAVIGATED]. *)
Lemma query_step (s s' : lstate) (sel : string) (b : bool) :
  lstep s (Some (CQuerySelector sel, Found b)) s' ->
  s = Navigated /\ s' = if b then LoginRequired false false else AlreadyAuthenticated.
Proof. inversion 1; auto. Qed.

(** A credential is typed only while the login is required. *)
Lemma fill_step (s s' : lstate) (sel v : string) :
  lstep s (Some (CFill sel v, Done)) s' -> stage s = 2.
Proof. inversion 1; reflexivity. Qed.

(** From [LOGIN_REQUIRED], the token is reached only after the
    credentials still missing are typed. *)
Lemma login_required_fills (ef pf : bool) (tr : trace) (k : json) :
  runs (LoginRequired ef pf) tr (TokenExtracted k) ->
  (ef = false -> In (CFill SEL_EMAIL email, Done) tr) /\
  (pf = false -> In (CFill SEL_PASSWORD password, Done) tr).
Proof.
  intros H. remember (LoginRequired ef pf) as s eqn:Es. remember (TokenExtracted k) as s' eqn:Es'.
  revert ef pf Es.
  induction H as [s|s s1 tr s'' Hs Hr IH|s ev s1 tr s'' Hs Hr IH]; intros ef pf Es; subst.
  - discriminate.
  - inversion Hs.
  - inversion Hs; subst;
      try (destruct (IH eq_refl _ _ eq_refl) as [IH1 IH2]; simpl; tauto).
    + split; discriminate.
    + destruct (terminal_runs _ _ _ Hr eq_refl) as [E|(e' & E)]; discriminate.
    + match goal with Hterm : terminal _ = true |- _ => discriminate Hterm end.
Qed.

(** The token state is entered only by a storage read whose profile
    check gave that key. *)
Lemma token_from_storage (s : lstate) (tr : trace) (k : json) :
  runs s tr (TokenExtracted k) -> terminal s = false ->
  exists raw, In (CEvaluate, Storage raw) tr /\
    profile_auth_key (storage_snapshot json_parse raw) = Ok k.
Proof.
  intros H. remember (TokenExtracted k) as s' eqn:Es'.
  induction H as [s|s s1 tr s'' Hs Hr IH|s ev s1 tr s'' Hs Hr IH]; intros Ht; subst.
  - discriminate.
  - inversion Hs; subst. auto.
  - destruct (terminal s1) eqn:T1.
    + destruct (terminal_runs _ _ _ Hr T1) as [E|(e' & E)]; [|discriminate]. subst s1.
      inversion Hs; subst; try discriminate.
      match goal with E : verdict ?r = TokenExtracted k |- _ =>
        destruct r eqn:Er; simpl in E; [injection E as ->|discriminate] end.
      exists raw. simpl. auto.
    + destruct (IH eq_refl eq_refl) as (raw & Hin & Hk). exists raw. simpl. auto.
Qed.

(** The already-authenticated branch types no credential, before or
    after the branch. *)
Lemma already_authenticated_no_fill (tr : trace) (s' : lstate) (sel sel' v : string) :
  runs Start tr s' -> In (CQuerySelector sel, Found false) tr -> ~ In (CFill sel' v, Done) tr.
Proof.
  intros H Hq Hf. apply in_split in Hq as (t1 & t2 & ->).
  apply runs_split in H as (m & H1 & H2).
  apply runs_cons_inv in H2 as (m1 & m2 & H0 & Hq & H3).
  apply query_step in Hq as [-> ->]. pose proof (runs_stage _ _ _ H0) as Hm.
  apply in_app_or in Hf as [Hf|[Hf|Hf]]; [| discriminate |].
  - destruct (runs_event _ _ _ _ H1 Hf) as (a & b & Hab & _ & Hb).
    pose proof (fill_step _ _ _ _ Hab). pose proof (lstep_stage _ _ _ Hab). simpl in *. lia.
  - destruct (runs_event _ _ _ _ H3 Hf) as (a & b & Hab & Ha & _).
    pose proof (fill_step _ _ _ _ Hab). simpl in *. lia.
Qed.

(** On the login branch, a run that reaches the token typed both
    credentials after the branch. *)
Lemma login_path_fills (tr : trace) (k : json) (sel : string) :
  runs Start tr (TokenExtracted k) -> In (CQuerySelector sel, Found true) tr ->
  In (CFill SEL_EMAIL email, Done) tr /\ In (CFill SEL_PASSWORD password, Done) tr.
Proof.
  intros H Hq. apply in_split in Hq as (t1 & t2 & ->).
  apply runs_split in H as (m & _ & H2).
  apply runs_cons_inv in H2 as (m1 & m2 & _ & Hq & H3).
  apply query_step in Hq as [-> ->].
  destruct (login_required_fills _ _ _ _ H3) as [He Hp].
  split; apply in_or_app; right; right; auto.
Qed.

End Invariants.

(** ** Computations that follow the machine *)

Section Phases.
Context {W : Type} `{BrowserSession W}.
Variables (email password : string) (json_parse : string -> option json).

Local Abbreviation runs := (runs email password json_parse).
Local Abbreviation lstep := (lstep email password json_parse).

(** [phase m s P F]: from any page state and trace, [m] extends the trace
    by a run of the machine from [s]; the run ends in [P a] when [m]
    returns [a], and in [F e] when [m] raises [e]. *)
Definition phase {A : Type} (m : bm W A) (s : lstate) (P : A -> lstate) (F : py_exn -> lstate)
  : Prop :=
  forall st, exists new,
    snd (snd (m st)) = snd st ++ new /\
    runs s new (match fst (m st) with Ok a => P a | Err e => F e end).

Lemma phase_bret {A : Type} (a : A) s P F : runs s [] (P a) -> phase (bret a) s P F.
Proof. intros Hr st. exists []. rewrite app_nil_r. auto. Qed.

Lemma phase_bfail {A : Type} (e : py_exn) s P F :
  runs s [] (F e) -> phase (@bfail W A e) s P F.
Proof. intros Hr st. exists []. rewrite app_nil_r. auto. Qed.

Lemma phase_blift {A : Type} (r : result A) s P F :
  runs s [] (match r with Ok a => P a | Err e => F e end) -> phase (@blift W A r) s P F.
Proof. intros Hr st. exists []. rewrite app_nil_r. auto. Qed.

Lemma phase_bcall {A : Type} (c : call) (obs : A -> outcome) (f : W -> result A * W) s P F :
  (forall a, lstep s (Some (c, obs a)) (P a)) -> (forall e, lstep s (Some (c, Raised e)) (F e)) ->
  phase (bcall c obs f) s P F.
Proof.
  intros Hok Herr st. unfold bcall. destruct (f (fst st)) as [[a|e] w']; cbn [fst snd];
    eexists; split; eauto with machine.
Qed.

Lemma phase_bbind {A B : Type} (m : bm W A) (k : A -> bm W B) s P Q F :
  phase m s P F -> (forall a, phase (k a) (P a) Q F) -> phase (bbind m k) s Q F.
Proof.
  intros Hm Hk st. unfold bbind.
  destruct (Hm st) as (n1 & E1 & R1). destruct (m st) as [[a|e] st'] eqn:Em; cbn [fst snd] in *.
  - destruct (Hk a st') as (n2 & E2 & R2). exists (n1 ++ n2).
    rewrite E2, E1, app_assoc. eauto using runs_app.
  - exists n1. auto.
Qed.

(** Sequencing through a fixed intermediate state. *)
Lemma phase_seq {A B : Type} (m : bm W A) (k : bm W B) s s1 Q F :
  phase m s (fun _ => s1) F -> phase k s1 Q F -> phase (bbind m (fun _ => k)) s Q F.
Proof. intros Hm Hk. apply (phase_bbind _ _ _ (fun _ => s1)); auto. Qed.

Lemma phase_btry {A : Type} (m : bm W A) (h : py_exn -> bm W A) s P F1 F :
  phase m s P F1 -> (forall e, phase (h e) (F1 e) P F) -> phase (btry m h) s P F.
Proof.
  intros Hm Hh st. unfold btry.
  destruct (Hm st) as (n1 & E1 & R1). destruct (m st) as [[a|e] st'] eqn:Em; cbn [fst snd] in *.
  - exists n1. auto.
  - destruct (Hh e st') as (n2 & E2 & R2). exists (n1 ++ n2).
    rewrite E2, E1, app_assoc. eauto using runs_app.
Qed.

(** [try/finally]: [fin] runs from the state the body reached and keeps
    it, or fails. *)
Lemma phase_bfinally {A : Type} (m : bm W A) (fin : bm W unit) s P F :
  phase m s P F ->
  (forall a, phase fin (P a) (fun _ => P a) F) -> (forall e, phase fin (F e) (fun _ => F e) F) ->
  phase (bfinally m fin) s P F.
Proof.
  intros Hm Hok Herr st. unfold bfinally.
  destruct (Hm st) as (n1 & E1 & R1). destruct (m st) as [r st1] eqn:Em; cbn [fst snd] in *.
  assert (Hf : phase fin (match r with Ok a => P a | Err e => F e end)
                 (fun _ => match r with Ok a => P a | Err e => F e end) F)
    by (destruct r; auto).
  destruct (Hf st1) as (n2 & E2 & R2).
  destruct (fin st1) as [[u|e'] st2]; cbn [fst snd] in *;
    exists (n1 ++ n2); rewrite E2, E1, app_assoc; split; eauto using runs_app.
Qed.

(** One recorded call: its outcome is a step of the machine. *)
Ltac phase_call := autounfold with browser; apply phase_bcall; intros; eauto with machine.

(** [_fill_credentials]: both credentials are typed into their fields. *)
Lemma fill_credentials_phase :
  phase (fill_credentials email password) (LoginRequired false false)
    (fun _ => LoginRequired true true) Failed.
Proof.
  unfold fill_credentials.
  do 3 (eapply phase_seq; [phase_call |]). phase_call.
Qed.

(** [_perform_login]: the opening click, the credentials, the submitting
    click, then the two-tier completion check. *)
Lemma perform_login_phase :
  phase (perform_login email password) (LoginRequired false false)
    (fun _ => StorageReady false) Failed.
Proof.
  unfold perform_login.
  do 3 (eapply phase_seq; [phase_call |]).
  eapply phase_seq; [exact fill_credentials_phase |].
  do 2 (eapply phase_seq; [phase_call |]).
  eapply phase_seq; [apply (phase_btry _ _ _ _ (fun _ => LoginSubmitted)) |].
  - phase_call.
  - intros e. apply phase_bret. constructor.
  - phase_call.
Qed.

(** [_navigate_and_login]: from the start to a page whose storage can be
    read, through either branch. *)
Lemma navigate_and_login_phase :
  phase (navigate_and_login email password) Start (fun _ => StorageReady false) Failed.
Proof.
  unfold navigate_and_login.
  do 2 (eapply phase_seq; [phase_call |]).
  apply (phase_bbind _ _ _ (fun b : bool => if b then LoginRequired false false else AlreadyAuthenticated)).
  - autounfold with browser. apply phase_bcall; [intros [|] | intros e]; eauto with machine.
  - intros [|]; [exact perform_login_phase | apply phase_bret; eauto with machine].
Qed.

(** [_extract_auth_key_from_storage]: the settle delay, the read, and the
    verdict of the profile check. *)
Lemma extract_from_storage_phase :
  phase (extract_from_storage json_parse) (StorageReady false) TokenExtracted Failed.
Proof.
  unfold extract_from_storage.
  eapply phase_seq; [phase_call |].
  apply (phase_bbind _ _ _ (fun raw => verdict (profile_auth_key (storage_snapshot json_parse raw)))).
  - phase_call.
  - intros raw. apply phase_blift. destruct (profile_auth_key _); constructor.
Qed.

(** [extract_auth_key]: the whole extraction, release included. *)
Lemma extract_auth_key_phase (browser_type : string) (headless : bool) :
  phase (extract_auth_key json_parse browser_type headless email password) Start
    TokenExtracted Failed.
Proof.
  unfold extract_auth_key.
  eapply phase_seq; [phase_call |].
  apply phase_bfinally.
  - apply (phase_btry _ _ _ _ Failed).
    + eapply phase_seq; [phase_call |].
      eapply phase_seq; [exact navigate_and_login_phase | exact extract_from_storage_phase].
    + intros e. apply phase_bfail. constructor.
  - intros k. phase_call.
  - intros e. phase_call.
Qed.

End Phases.

(** ** The extractor refines the machine *)

Section Refinement.
Context {W : Type} `{BrowserSession W}.
Variables (json_parse : string -> option json) (browser_type : string) (headless : bool)
  (email password : string).

(** C8. Refinement: on any page, every trace [extract_auth_key] records
    is a run of the spec's login machine from [START]. The run ends in
    [TOKEN_EXTRACTED k] when the extraction returns [k], and in
    [FAILED e] when it raises [e]. *)
Theorem extract_auth_key_refines (st : W * trace) :
  let res := extract_auth_key json_parse browser_type headless email password st in
  exists new, snd (snd res) = snd st ++ new /\
    runs email password json_parse Start new (verdict (fst res)).
Proof.
  destruct (extract_auth_key_phase email password json_parse browser_type headless st)
    as (new & E & R).
  exists new. split; [exact E | exact R].
Qed.

(** C9. The returned key is the one the profile check computes from a
    [localStorage] snapshot that the page returned during this extraction.
    The trace is a run of the machine that ends in [TOKEN_EXTRACTED]. *)
Theorem extract_auth_key_from_storage (st : W * trace) (k : json) :
  let res := extract_auth_key json_parse browser_type headless email password st in
  fst res = Ok k ->
  exists new raw, snd (snd res) = snd st ++ new /\
    runs email password json_parse Start new (TokenExtracted k) /\
    In (CEvaluate, Storage raw) new /\ profile_auth_key (storage_snapshot json_parse raw) = Ok k.
Proof.
  cbv zeta. intros Hk.
  destruct (extract_auth_key_phase email password json_parse browser_type headless st)
    as (new & E & R).
  rewrite Hk in R. destruct (token_from_storage _ _ _ _ _ _ R eq_refl) as (raw & Hin & Hp).
  eauto 6.
Qed.

(** C10. Credentials are typed only on the login branch. The trace is a
    run of the machine. When the page shows the library, no field is
    filled. When it shows the login control and the extraction succeeds,
    the e-mail and the password were both typed into their fields. *)
Theorem extract_auth_key_credentials (st : W * trace) :
  let res := extract_auth_key json_parse browser_type headless email password st in
  exists new, snd (snd res) = snd st ++ new /\
    runs email password json_parse Start new (verdict (fst res)) /\
    (In (CQuerySelector SEL_LOGIN_TEXT, Found false) new ->
       forall sel v, ~ In (CFill sel v, Done) new) /\
    (forall k, fst res = Ok k -> In (CQuerySelector SEL_LOGIN_TEXT, Found true) new ->
       In (CFill SEL_EMAIL email, Done) new /\ In (CFill SEL_PASSWORD password, Done) new).
Proof.
  destruct (extract_auth_key_phase email password json_parse browser_type headless st)
    as (new & E & R).
  exists new. split; [exact E | split; [exact R | split]].
  - intros Hq sel v. exact (already_authenticated_no_fill _ _ _ _ _ _ _ _ R Hq).
  - intros k Hk Hq. cbn zeta in Hk. rewrite Hk in R. exact (login_path_fills _ _ _ _ _ _ R Hq).
Qed.

End Refinement.

(** ** Witnesses on the test page of [CredentialExtractor] *)

Definition login_page : test_page := mk_test_page false 0 [("count", "42"); ("profile", "PROFILE")].

Lemma extract_auth_key_from_storage_witness :
  fst (@extract_auth_key test_page test_browser test_parse "firefox" false "me@example.com" "secret"
         (login_page, [])) = Ok (JStr "abc") /\
  exists new raw,
    snd (snd (@extract_auth_key test_page test_browser test_parse "firefox" false "me@example.com"
                "secret" (login_page, []))) = [] ++ new /\
    runs "me@example.com" "secret" test_parse Start new (TokenExtracted (JStr "abc")) /\
    In (CEvaluate, Storage raw) new /\
    profile_auth_key (storage_snapshot test_parse raw) = Ok (JStr "abc").
Proof.
  split; [vm_compute; reflexivity |].
  apply (@extract_auth_key_from_storage test_page test_browser test_parse "firefox" false
           "me@example.com" "secret" (login_page, []) (JStr "abc")).
  vm_compute. reflexivity.
Defined.

Lemma extract_auth_key_credentials_witness :
  fst (@extract_auth_key test_page test_browser test_parse "firefox" false "me@example.com" "secret"
         (login_page, [])) = Ok (JStr "abc") /\
  In (CQuerySelector SEL_LOGIN_TEXT, Found true)
    (snd (snd (@extract_auth_key test_page test_browser test_parse "firefox" false "me@example.com"
                 "secret" (login_page, [])))) /\
  exists new,
    snd (snd (@extract_auth_key test_page test_browser test_parse "firefox" false "me@example.com"
                "secret" (login_page, []))) = [] ++ new /\
    runs "me@example.com" "secret" test_parse Start new
      (verdict (fst (@extract_auth_key test_page test_browser test_parse "firefox" false
                       "me@example.com" "secret" (login_page, [])))) /\
    (In (CQuerySelector SEL_LOGIN_TEXT, Found false) new ->
       forall sel v, ~ In (CFill sel v, Done) new) /\
    (forall k, fst (@extract_auth_key test_page test_browser test_parse "firefox" false
                      "me@example.com" "secret" (login_page, [])) = Ok k ->
       In (CQuerySelector SEL_LOGIN_TEXT, Found true) new ->
       In (CFill SEL_EMAIL "me@example.com", Done) new /\
       In (CFill SEL_PASSWORD "secret", Done) new).
Proof.
  split; [vm_compute; reflexivity |].
  split; [vm_compute; tauto |].
  exact (@extract_auth_key_credentials test_page test_browser test_parse "firefox" false
           "me@example.com" "secret" (login_page, [])).
Defined.
