(* ===== verification/Liveness.v ===== *)
(** * Liveness: the login flow reaches the storage read

    The spec's login machine has a two-tier completion check. When the
    login control does not disappear within its bound, the flow logs a soft
    warning and goes on to the network-idle signal; it does not fail. This
    file states what the page must do for the extraction to progress.
    [ReliablePage] is a class of laws over a [BrowserSession]: every call
    returns, except the wait for an element to become hidden, which may
    time out. On such a page, [extract_auth_key] always reads
    [localStorage], always closes the browser, and returns the verdict of
    the profile check on what it read. The only possible failure is then
    one of the labelled storage-shape errors. *)

From Stdlib Require Import String ZArith List Bool Lia.
From stdpp Require Import base.
From S2P Require Import Prelude Json Browser CredentialExtractor.
Import ListNotations.
Open Scope string_scope.
Open Scope list_scope.

(** ** What the page promises *)

(** A page whose calls all return, except [wait_for_selector(...,
    state='hidden')]. *)
Class ReliablePage (W : Type) `{BrowserSession W} := {
  rp_launch : forall e h w, is_ok (fst (bs_launch e h w)) = true;
  rp_new_page : forall w, is_ok (fst (bs_new_page w)) = true;
  rp_goto : forall url until w, is_ok (fst (bs_goto url until w)) = true;
  rp_wait_visible : forall sel t w, is_ok (fst (bs_wait_for_selector sel Visible t w)) = true;
  rp_query : forall sel w, is_ok (fst (bs_query_selector sel w)) = true;
  rp_click : forall sel w, is_ok (fst (bs_click sel w)) = true;
  rp_fill : forall sel v w, is_ok (fst (bs_fill sel v w)) = true;
  rp_wait_for_timeout : forall ms w, is_ok (fst (bs_wait_for_timeout ms w)) = true;
  rp_load_state : forall s w, is_ok (fst (bs_wait_for_load_state s w)) = true;
  rp_local_storage : forall w, is_ok (fst (bs_local_storage w)) = true;
  rp_close : forall w, is_ok (fst (bs_close w)) = true
}.

(** ** Computations that return *)

Section Succeeds.
Context {W : Type}.

(** [m] returns a value from every state. *)
Definition succeeds {A : Type} (m : bm W A) : Prop :=
  forall st, is_ok (fst (m st)) = true.

Lemma succeeds_bret {A : Type} (a : A) : succeeds (@bret W A a).
Proof. intros st. reflexivity. Qed.

Lemma succeeds_bcall {A : Type} (c : call) (obs : A -> outcome) (f : W -> result A * W) :
  (forall w, is_ok (fst (f w)) = true) -> succeeds (bcall c obs f).
Proof.
  intros Hf st. unfold bcall. specialize (Hf (fst st)).
  destruct (f (fst st)) as [[a|e] w']; [reflexivity | discriminate].
Qed.

Lemma succeeds_bbind {A B : Type} (m : bm W A) (k : A -> bm W B) :
  succeeds m -> (forall a, succeeds (k a)) -> succeeds (bbind m k).
Proof.
  intros Hm Hk st. unfold bbind. specialize (Hm st).
  destruct (m st) as [[a|e] st']; [apply Hk | discriminate].
Qed.

(** A [try] whose handler returns returns, whatever its body does: the
    soft completion check. *)
Lemma succeeds_btry {A : Type} (m : bm W A) (h : py_exn -> bm W A) :
  (forall e, succeeds (h e)) -> succeeds (btry m h).
Proof.
  intros Hh st. unfold btry. destruct (m st) as [[a|e] st']; [reflexivity | apply Hh].
Qed.

(** Running a computation that returns. *)
Lemma succeeds_run {A : Type} (m : bm W A) (st : W * trace) :
  succeeds m -> exists a st', m st = (Ok a, st').
Proof. intros Hm. specialize (Hm st). destruct (m st) as [[a|e] st']; [eauto | discriminate]. Qed.

(** A bind after a step that returned. *)
Lemma bbind_run {A B : Type} (m : bm W A) (k : A -> bm W B) (st st' : W * trace) (a : A) :
  m st = (Ok a, st') -> bbind m k st = k a st'.
Proof. intros E. unfold bbind. rewrite E. reflexivity. Qed.

End Succeeds.

Create HintDb reliable discriminated.
#[export] Hint Resolve succeeds_bret succeeds_bcall succeeds_bbind succeeds_btry : reliable.
#[export] Hint Resolve rp_launch rp_new_page rp_goto rp_wait_visible rp_query rp_click rp_fill
  rp_wait_for_timeout rp_load_state rp_local_storage rp_close : reliable.
#[export] Hint Extern 2 (succeeds (if ?b then _ else _)) => destruct b : reliable.

(** ** The extractor on a reliable page *)

Section Reliable.
Context {W : Type} `{ReliablePage W}.
Variables (json_parse : string -> option json) (email password : string).

(** Navigation and login return: every wait they may not survive is the
    soft one. *)
Lemma navigate_and_login_succeeds : succeeds (@navigate_and_login W _ email password).
Proof.
  unfold navigate_and_login, perform_login, fill_credentials.
  autounfold with browser. auto 30 with reliable.
Qed.

(** The read, and the verdict on what it read. *)
Lemma extract_from_storage_reads (st : W * trace) :
  exists raw (st' : W * trace),
    snd st' = snd st ++ [(CWaitForTimeout 3000, Done); (CEvaluate, Storage raw)] /\
    extract_from_storage json_parse st = (profile_auth_key (storage_snapshot json_parse raw), st').
Proof.
  unfold extract_from_storage, evaluate_storage, wait_for_timeout, bbind, bcall, blift.
  pose proof (rp_wait_for_timeout 3000 (fst st)) as Hw.
  destruct (bs_wait_for_timeout 3000 (fst st)) as [[[]|e] w1]; [| discriminate]. simpl.
  pose proof (rp_local_storage w1) as Hs.
  destruct (bs_local_storage w1) as [[raw|e] w2]; [| discriminate]. simpl.
  exists raw, (w2, (snd st ++ [(CWaitForTimeout 3000, Done)]) ++ [(CEvaluate, Storage raw)]).
  rewrite <- app_assoc. auto.
Qed.

End Reliable.

(** ** Theorem *)

(** C11. Liveness of the login flow. On a page where every call returns
    except the wait for the login control to hide, [extract_auth_key]
    always reaches the storage read and the release. Its last two calls
    are [page.evaluate] of the storage script and [browser.close()]. It
    returns the profile check's verdict on the snapshot it read. So a
    timeout of the primary completion signal never stops the flow, and the
    only failures left are the labelled storage-shape errors. *)
Theorem extract_auth_key_reaches_storage {W : Type} `{ReliablePage W}
  (json_parse : string -> option json) (browser_type : string) (headless : bool)
  (email password : string) (st : W * trace) :
  let res := extract_auth_key json_parse browser_type headless email password st in
  exists raw pre,
    snd (snd res) = snd st ++ pre ++ [(CEvaluate, Storage raw); (CClose, Done)] /\
    fst res = profile_auth_key (storage_snapshot json_parse raw).
Proof.
  cbv zeta. unfold extract_auth_key.
  destruct (succeeds_run (launch (select_engine browser_type) true) st
              ltac:(autounfold with browser; auto with reliable)) as ([] & st0 & E0).
  rewrite (bbind_run _ _ _ _ _ E0).
  destruct (succeeds_run (@new_page W _) st0 ltac:(autounfold with browser; auto with reliable))
    as ([] & st0' & E0').
  destruct (succeeds_run _ st0' (navigate_and_login_succeeds email password)) as ([] & st1 & E1).
  destruct (extract_from_storage_reads json_parse st1) as (raw & st2 & Htr & E2).
  assert (Hbody : bbind new_page (fun _ => bbind (navigate_and_login email password)
                    (fun _ => extract_from_storage json_parse)) st0 =
                  (profile_auth_key (storage_snapshot json_parse raw), st2))
    by (rewrite (bbind_run _ _ _ _ _ E0'), (bbind_run _ _ _ _ _ E1); exact E2).
  destruct (calls_ok_bcall (fun _ => True) (CLaunch (select_engine browser_type) true) (fun _ => Done)
              (bs_launch (select_engine browser_type) true) I st) as (n0 & Hn0 & _).
  destruct (calls_ok_bbind (fun c => c <> CClose) (@new_page W _) (fun _ => navigate_and_login email password)
              ltac:(autounfold with browser; auto with browser) (fun _ => navigate_and_login_no_close _ _) st0)
    as (n1 & Hn1 & _).
  rewrite (bbind_run _ _ _ _ _ E0') in Hn1. rewrite E1 in Hn1. simpl in Hn1.
  unfold launch in E0. rewrite E0 in Hn0. simpl in Hn0.
  unfold bfinally, btry. rewrite Hbody. unfold close, bcall.
  pose proof (rp_close (fst st2)) as Hc.
  exists raw, (n0 ++ n1 ++ [(CWaitForTimeout 3000, Done)]).
  destruct (profile_auth_key (storage_snapshot json_parse raw)) as [k|e]; simpl;
  destruct (bs_close (fst st2)) as [[[]|e'] w3]; try discriminate; simpl;
  (split; [| reflexivity]); rewrite Htr, Hn1, Hn0; rewrite <- !app_assoc; reflexivity.
Qed.

(** ** A page whose login control never hides *)

(** A page with a fixed [localStorage] on which the wait for the login
    button to hide always times out, and every other call returns. *)
#[local] Instance stuck_button_page : BrowserSession (list (string * string)) := {
  bs_launch := fun _ _ w => (Ok tt, w);
  bs_new_page := fun w => (Ok tt, w);
  bs_goto := fun _ _ w => (Ok tt, w);
  bs_wait_for_selector := fun _ st _ w =>
    match st with Visible => (Ok tt, w) | Hidden => (Err TimeoutError, w) end;
  bs_query_selector := fun _ w => (Ok true, w);
  bs_click := fun _ w => (Ok tt, w);
  bs_fill := fun _ _ w => (Ok tt, w);
  bs_wait_for_timeout := fun _ w => (Ok tt, w);
  bs_wait_for_load_state := fun _ w => (Ok tt, w);
  bs_local_storage := fun w => (Ok w, w);
  bs_close := fun w => (Ok tt, w)
}.

#[local] Instance stuck_button_page_reliable : ReliablePage (list (string * string)).
Proof. split; reflexivity. Qed.

Definition profile_parse (s : string) : option json :=
  if String.eqb s "PROFILE" then Some (JObj [("auth", JObj [("key", JStr "k")])]) else None.

Lemma extract_auth_key_reaches_storage_witness :
  let res := extract_auth_key profile_parse "chromium" true "me@example.com" "secret"
               ([("profile", "PROFILE")], []) in
  exists raw pre,
    snd (snd res) = [] ++ pre ++ [(CEvaluate, Storage raw); (CClose, Done)] /\
    fst res = profile_auth_key (storage_snapshot profile_parse raw).
Proof.
  exact (extract_auth_key_reaches_storage profile_parse "chromium" true "me@example.com" "secret"
           ([("profile", "PROFILE")], [])).
Defined.

(** On that page the hide wait raises, and the extraction still returns
    the stored key. *)
Example extract_after_hide_timeout :
  let res := extract_auth_key profile_parse "chromium" true "me@example.com" "secret"
               ([("profile", "PROFILE")], []) in
  In (CWaitForSelector SEL_LOGIN_BUTTON Hidden 10000, Raised TimeoutError) (snd (snd res)) /\
  fst res = Ok (JStr "k").
Proof. vm_compute. split; [tauto | reflexivity]. Qed.
