(* ===== verification/Html.v ===== *)
(** * Html: [html_generator.generate_html] and [_generate_grid_items]

    The exporter's report is one f-string. It holds a fixed page (styles,
    tabs, a search script and a backup note) with five interpolations: the
    generation time, the lengths of the two lists, and the two grids. A
    grid is the concatenation of one card per item. A card interpolates
    [str()] of the item's fields without any HTML escaping. The text
    between the interpolations is copied here byte for byte from the
    source, as UTF-8. [{{] and [}}] are the f-string's escapes for [{] and
    [}]. [generate_html] writes the page and returns [True], or returns
    [False] when the write raises. *)

From Stdlib Require Import String Ascii ZArith List Bool Lia.
From stdpp Require Import base pretty.
From S2P Require Import Prelude Json Categorizer.
Import ListNotations.
Open Scope string_scope.

(** ** [str()] of a decoded JSON value *)

(** A digit of [\xNN]: Python prints lower-case hex. *)
Definition hex_digit (n : nat) : string :=
  String (ascii_of_nat (if Nat.ltb n 10 then 48 + n else 87 + n)%nat) EmptyString.

(** One character of [repr(s)] with quote [q]. The quote and the
    backslash are escaped, [\t], [\n] and [\r] get their names, and the
    other control characters get [\xNN]. Bytes from 128 up are kept, as
    parts of the UTF-8 encoding of a printable character. *)
Definition repr_char (q c : ascii) : string :=
  let n := nat_of_ascii c in
  if Ascii.eqb c q then backslash ++ String c EmptyString
  else if Nat.eqb n 92 then backslash ++ backslash
  else if Nat.eqb n 9 then backslash ++ "t"
  else if Nat.eqb n 10 then backslash ++ "n"
  else if Nat.eqb n 13 then backslash ++ "r"
  else if Nat.ltb n 32 || Nat.eqb n 127 then
    backslash ++ "x" ++ hex_digit (n / 16)%nat ++ hex_digit (n mod 16)%nat
  else String c EmptyString.

(** [repr(s)]: single quotes, unless [s] holds a single quote and no double
    quote. *)
Definition repr_str (s : string) : string :=
  let l := list_ascii_of_string s in
  let q := if existsb (Ascii.eqb "'"%char) l && negb (existsb (Ascii.eqb (ascii_of_nat 34)) l)
           then ascii_of_nat 34 else "'"%char in
  String q (String.concat EmptyString (map (repr_char q) l) ++ String q EmptyString).

(** [repr(v)] of a decoded value: [None], [True], [False], the decimal
    integer, the string's repr, and [[a, b]] / [{'k': v}] for containers. *)
Fixpoint py_repr (v : json) : string :=
  match v with
  | JNull => "None"
  | JBool true => "True"
  | JBool false => "False"
  | JInt z => pretty z
  | JStr s => repr_str s
  | JArr l => "[" ++ String.concat ", " (map py_repr l) ++ "]"
  | JObj o => "{" ++ String.concat ", " (map (fun kv => repr_str (fst kv) ++ ": " ++ py_repr (snd kv)) o) ++ "}"
  end.

(** [str(v)], as an f-string interpolates it: a string is itself. *)
Definition py_str (v : json) : string :=
  match v with
  | JStr s => s
  | _ => py_repr v
  end.

(** ** The grid, lines 337-370 *)

(** The poster markup of lines 348-349 and 351. *)
Definition poster_img (poster title : string) : string :=
  "<img src=" ++ dq ++
  poster ++
  dq ++ " class=" ++ dq ++ "poster-img" ++ dq ++ " alt=" ++ dq ++
  title ++
  dq ++ " onerror=" ++ dq ++ "this.style.display='none'; this.nextElementSibling.style.display='flex'" ++ dq ++ ">".
Definition fallback_poster_hidden : string :=
  "<div class=" ++ dq ++ "fallback-poster" ++ dq ++ " style=" ++ dq ++ "display:none" ++ dq ++ "><span>üé¨</span></div>".
Definition fallback_poster : string :=
  "<div class=" ++ dq ++ "fallback-poster" ++ dq ++ "><span>üé¨</span></div>".

(** The card f-string of lines 353-369. *)
Definition movie_card (title poster_html year type_ imdb_id : string) : string :=
  "
        <div class=" ++ dq ++ "movie-card" ++ dq ++ " data-title=" ++ dq ++
  title ++
  dq ++ ">
            <div class=" ++ dq ++ "poster-container" ++ dq ++ ">
                " ++
  poster_html ++
  "
            </div>
            <div class=" ++ dq ++ "card-content" ++ dq ++ ">
                <h3 class=" ++ dq ++ "movie-title" ++ dq ++ " title=" ++ dq ++
  title ++
  dq ++ ">" ++
  title ++
  "</h3>
                <div class=" ++ dq ++ "movie-meta" ++ dq ++ ">
                    <span>" ++
  year ++
  "</span>
                    <span class=" ++ dq ++ "type-badge" ++ dq ++ ">" ++
  type_ ++
  "</span>
                </div>
                <div class=" ++ dq ++ "links" ++ dq ++ ">
                    <a href=" ++ dq ++ "https://www.imdb.com/title/" ++
  imdb_id ++
  dq ++ " target=" ++ dq ++ "_blank" ++ dq ++ " class=" ++ dq ++ "imdb-link" ++ dq ++ ">IMDb ‚Üó</a>
                </div>
            </div>
        </div>
        ".

(** One iteration of the loop, lines 340-369, on the item dict [item]. *)
Definition grid_item (item : list (string * json)) : string :=
  let poster := field item "poster" JNull in
  let title := py_str (field item "Title" (JStr "Unknown")) in
  let year := py_str (field item "year" (JStr EmptyString)) in
  let imdb_id := py_str (field item "imdbID" (JStr EmptyString)) in
  let type_ := py_str (field item "type" (JStr "movie")) in
  let poster_html :=
    if py_truthy poster then poster_img (py_str poster) title ++ fallback_poster_hidden
    else fallback_poster in
  movie_card title poster_html year type_ imdb_id.

(** [_generate_grid_items(items)]: [html += ...] for each item. *)
Definition generate_grid_items (items : list (list (string * json))) : string :=
  fold_left (fun html item => html ++ grid_item item) items EmptyString.

(** The dict [movie_data] of [parse_library_data], lines 92-98, which is
    what the renderer receives for a parsed item. *)
Definition movie_dict (m : movie) : list (string * json) :=
  [("imdbID", imdbID m); ("Title", Title m); ("poster", poster m); ("year", year m);
   ("type", movie_type m)].

(** ** The page, lines 7-335 *)

(** [datetime.now()], to the minute. *)
Record timestamp : Type := mk_timestamp {
  ts_year : nat; ts_month : nat; ts_day : nat; ts_hour : nat; ts_minute : nat
}.

Definition pad2 (n : nat) : string := if Nat.ltb n 10 then "0" ++ pretty n else pretty n.

(** [strftime("%Y-%m-%d %H:%M")]. *)
Definition strftime_ymd_hm (t : timestamp) : string :=
  pretty (ts_year t) ++ "-" ++ pad2 (ts_month t) ++ "-" ++ pad2 (ts_day t) ++ " " ++
  pad2 (ts_hour t) ++ ":" ++ pad2 (ts_minute t).

(** The text of the page f-string before the date, in its parts: the
    document head up to [<style>], the style rules of the page chrome, of
    the tabs and the search box, of the grid and its cards, and of the
    sections, then the end of the head and the page header. *)
Definition html_doc_head : string :=
  "
<!DOCTYPE html>
<html lang=" ++ dq ++ "en" ++ dq ++ ">
<head>
    <meta charset=" ++ dq ++ "UTF-8" ++ dq ++ ">
    <meta name=" ++ dq ++ "viewport" ++ dq ++ " content=" ++ dq ++ "width=device-width, initial-scale=1.0" ++ dq ++ ">
    <title>Stremio Library Export</title>
    <style>
".
Definition css_page : string :=
  "        :root {
            --bg-color: #121212;
            --card-bg: #1e1e1e;
            --text-color: #e0e0e0;
            --accent-color: #6c5ce7;
            --secondary-text: #a0a0a0;
        }
        
        body {
            font-family: 'Segoe UI', Roboto, Helvetica, Arial, sans-serif;
            background-color: var(--bg-color);
            color: var(--text-color);
            margin: 0;
            padding: 20px;
        }
        
        header {
            text-align: center;
            margin-bottom: 40px;
            padding: 20px 0;
            border-bottom: 1px solid #333;
        }
        
        h1 {
            color: var(--accent-color);
            margin-bottom: 10px;
        }
        
        .stats {
            display: flex;
            justify-content: center;
            gap: 20px;
            margin-bottom: 20px;
        }
        
        .stat-box {
            background: var(--card-bg);
            padding: 10px 20px;
            border-radius: 8px;
            text-align: center;
        }
        
        .stat-number {
            display: block;
            font-size: 1.5em;
            font-weight: bold;
            color: var(--accent-color);
        }
        
".
Definition css_tabs : string :=
  "        .tabs {
            display: flex;
            justify-content: center;
            gap: 10px;
            margin-bottom: 30px;
        }
        
        .tab-btn {
            background: var(--card-bg);
            border: none;
            color: var(--text-color);
            padding: 10px 25px;
            border-radius: 20px;
            cursor: pointer;
            transition: all 0.3s ease;
            font-size: 1em;
        }
        
        .tab-btn.active {
            background: var(--accent-color);
            color: white;
        }
        
        .tab-btn:hover:not(.active) {
            background: #2d2d2d;
        }
        
        .search-container {
            text-align: center;
            margin-bottom: 30px;
        }
        
        #search-input {
            padding: 10px 15px;
            width: 300px;
            border-radius: 20px;
            border: 1px solid #333;
            background: var(--card-bg);
            color: var(--text-color);
            font-size: 1em;
        }
        
".
Definition css_cards : string :=
  "        .grid-container {
            display: grid;
            grid-template-columns: repeat(auto-fill, minmax(200px, 1fr));
            gap: 25px;
            padding: 0 20px;
            max-width: 1400px;
            margin: 0 auto;
        }
        
        .movie-card {
            background: var(--card-bg);
            border-radius: 10px;
            overflow: hidden;
            transition: transform 0.3s ease, box-shadow 0.3s ease;
            position: relative;
            height: 100%;
            display: flex;
            flex-direction: column;
        }
        
        .movie-card:hover {
            transform: translateY(-5px);
            box-shadow: 0 10px 20px rgba(0,0,0,0.3);
        }
        
        .poster-container {
            position: relative;
            padding-top: 150%; /* 2:3 aspect ratio */
            background-color: #2a2a2a;
            overflow: hidden;
        }
        
        .poster-img {
            position: absolute;
            top: 0;
            left: 0;
            width: 100%;
            height: 100%;
            object-fit: cover;
            transition: transform 0.3s ease;
        }
        
        .movie-card:hover .poster-img {
            transform: scale(1.05);
        }
        
        .card-content {
            padding: 15px;
            flex-grow: 1;
            display: flex;
            flex-direction: column;
        }
        
        .movie-title {
            font-size: 1.1em;
            margin: 0 0 5px 0;
            white-space: nowrap;
            overflow: hidden;
            text-overflow: ellipsis;
        }
        
        .movie-meta {
            font-size: 0.9em;
            color: var(--secondary-text);
            display: flex;
            justify-content: space-between;
            margin-bottom: 10px;
        }
        
        .type-badge {
            background: #333;
            padding: 2px 8px;
            border-radius: 4px;
            font-size: 0.8em;
            text-transform: uppercase;
        }
        
        .links {
            margin-top: auto;
            text-align: right;
        }
        
        .imdb-link {
            color: #f5c518;
            text-decoration: none;
            font-size: 0.9em;
        }
        
".
Definition css_sections : string :=
  "        .section {
            display: none;
        }
        
        .section.active {
            display: block;
            animation: fadeIn 0.5s ease;
        }
        
        @keyframes fadeIn {
            from { opacity: 0; }
            to { opacity: 1; }
        }
        
        .fallback-poster {
            display: flex;
            align-items: center;
            justify-content: center;
            position: absolute;
            top: 0;
            left: 0;
            width: 100%;
            height: 100%;
            color: #555;
            font-size: 3em;
            background: #2a2a2a;
        }
".
Definition html_body_open : string :=
  "    </style>
</head>
<body>
    <header>
        <h1>Stremio Library Export</h1>
        <p>Generated on ".

Definition html_head : string :=
  html_doc_head ++ css_page ++ css_tabs ++ css_cards ++ css_sections ++ html_body_open.

(** The text of the page f-string between its other interpolations. *)
Definition html_after_date : string :=
  "</p>
        
        <div class=" ++ dq ++ "stats" ++ dq ++ ">
            <div class=" ++ dq ++ "stat-box" ++ dq ++ ">
                <span class=" ++ dq ++ "stat-number" ++ dq ++ ">".
Definition html_after_watched_count : string :=
  "</span>
                Watched
            </div>
            <div class=" ++ dq ++ "stat-box" ++ dq ++ ">
                <span class=" ++ dq ++ "stat-number" ++ dq ++ ">".
Definition html_after_watchlist_count : string :=
  "</span>
                Watchlist
            </div>
        </div>
    </header>
    
    <div class=" ++ dq ++ "search-container" ++ dq ++ ">
        <input type=" ++ dq ++ "text" ++ dq ++ " id=" ++ dq ++ "search-input" ++ dq ++ " placeholder=" ++ dq ++ "Search by title..." ++ dq ++ " onkeyup=" ++ dq ++ "filterMovies()" ++ dq ++ ">
    </div>
    
    <div class=" ++ dq ++ "tabs" ++ dq ++ ">
        <button class=" ++ dq ++ "tab-btn active" ++ dq ++ " onclick=" ++ dq ++ "switchTab('watched')" ++ dq ++ ">Watched</button>
        <button class=" ++ dq ++ "tab-btn" ++ dq ++ " onclick=" ++ dq ++ "switchTab('watchlist')" ++ dq ++ ">Watchlist</button>
        <button class=" ++ dq ++ "tab-btn" ++ dq ++ " onclick=" ++ dq ++ "switchTab('backup')" ++ dq ++ ">Backup & Restore</button>
    </div>
    
    <div id=" ++ dq ++ "watched" ++ dq ++ " class=" ++ dq ++ "section active" ++ dq ++ ">
        <div class=" ++ dq ++ "grid-container" ++ dq ++ ">
            ".
Definition html_after_watched_grid : string :=
  "
        </div>
    </div>
    
    <div id=" ++ dq ++ "watchlist" ++ dq ++ " class=" ++ dq ++ "section" ++ dq ++ ">
        <div class=" ++ dq ++ "grid-container" ++ dq ++ ">
            ".
Definition html_tail : string :=
  "
        </div>
    </div>

    <div id=" ++ dq ++ "backup" ++ dq ++ " class=" ++ dq ++ "section" ++ dq ++ ">
        <div style=" ++ dq ++ "max-width: 800px; margin: 0 auto; color: var(--text-color); background: var(--card-bg); padding: 30px; border-radius: 10px;" ++ dq ++ ">
            <h2 style=" ++ dq ++ "color: var(--accent-color); border-bottom: 1px solid #333; padding-bottom: 15px;" ++ dq ++ ">Backup & Restore</h2>
            
            <h3>üì¶ Backup Contents</h3>
            <p>Your export folder contains a ZIP file named <code>stremio_library_backup_TIMESTAMP.zip</code>. This archive includes:</p>
            <ul style=" ++ dq ++ "line-height: 1.6;" ++ dq ++ ">
                <li><strong>HTML Report</strong>: This visual gallery.</li>
                <li><strong>CSV Files</strong>: Specific lists for watched movies and watchlist.</li>
                <li><strong>library_backup.json</strong>: The raw data needed for restoration.</li>
            </ul>
            
            <h3 style=" ++ dq ++ "margin-top: 30px;" ++ dq ++ ">‚ôªÔ∏è How to Restore</h3>
            <p>To import this library into a new Stremio account (or restore to an existing one), follow these steps:</p>
            <ol style=" ++ dq ++ "line-height: 1.6;" ++ dq ++ ">
                <li>Unzip the backup file.</li>
                <li>Make sure you have Python installed.</li>
                <li>Run the importer tool from the command line:</li>
            </ol>
            <pre style=" ++ dq ++ "background: #000; padding: 15px; border-radius: 5px; overflow-x: auto;" ++ dq ++ "><code>python library_importer.py library_backup.json</code></pre>
            <p><em>Note: You will be asked to log in to the destination account.</em></p>
        </div>
    </div>

    <script>
        function switchTab(tabName) {
            // Hide all sections
            document.querySelectorAll('.section').forEach(el => {
                el.classList.remove('active');
            });
            
            // Show new section
            document.getElementById(tabName).classList.add('active');
            
            // Update buttons
            document.querySelectorAll('.tab-btn').forEach(btn => {
                btn.classList.remove('active');
            });
            event.target.classList.add('active');
        }
        
        function filterMovies() {
            const input = document.getElementById('search-input');
            const filter = input.value.toLowerCase();
            const cards = document.querySelectorAll('.movie-card');
            
            cards.forEach(card => {
                const title = card.getAttribute('data-title').toLowerCase();
                if (title.indexOf(filter) > -1) {
                    card.style.display = " ++ dq ++ dq ++ ";
                } else {
                    card.style.display = " ++ dq ++ "none" ++ dq ++ ";
                }
            });
        }
    </script>
</body>
</html>
    ".

(** [html_content], lines 13-326. *)
Definition html_content (now : timestamp) (watched_items watchlist_items : list (list (string * json)))
  : string :=
  html_head ++ strftime_ymd_hm now ++ html_after_date ++
  pretty (length watched_items) ++ html_after_watched_count ++
  pretty (length watchlist_items) ++ html_after_watchlist_count ++
  generate_grid_items watched_items ++ html_after_watched_grid ++
  generate_grid_items watchlist_items ++ html_tail.

Section Report.
(** [open(output_path, 'w', encoding='utf-8')] and [f.write], which may
    raise. *)
Variable write_file : string -> string -> result unit.

(** The [try] of lines 328-335: [True] after the write, [False] when it
    raised. *)
Definition write_report (output_path content : string) : bool :=
  match write_file output_path content with
  | Ok _ => true
  | Err _ => false
  end.

(** [generate_html(watched_items, watchlist_items, output_path)], lines
    7-335. *)
Definition generate_html (now : timestamp) (watched_items watchlist_items : list (list (string * json)))
  (output_path : string) : bool :=
  write_report output_path (html_content now watched_items watchlist_items).

End Report.

(** ** Theorems *)

Lemma grid_fold_acc (items : list (list (string * json))) (acc : string) :
  fold_left (fun html item => html ++ grid_item item) items acc =
  acc ++ String.concat EmptyString (map grid_item items).
Proof.
  revert acc. induction items as [|it items IH]; intros acc; cbn [fold_left map].
  - rewrite string_app_nil_r. reflexivity.
  - rewrite IH, string_concat_cons, string_app_assoc. reflexivity.
Qed.

(** One card per item, in order: the [html += ...] loop of
    [_generate_grid_items] builds the concatenation of the items' cards. *)
Theorem generate_grid_items_cards (items : list (list (string * json))) :
  generate_grid_items items = String.concat EmptyString (map grid_item items).
Proof. unfold generate_grid_items. apply grid_fold_acc. Qed.

(** The card of an item is in the page: the page holds the cards of the
    two grids. *)
Lemma html_content_card (now : timestamp) (w wl : list (list (string * json)))
  (it : list (string * json)) :
  In it (w ++ wl) -> occurs_in (grid_item it) (html_content now w wl).
Proof.
  intros Hin. unfold html_content. rewrite !generate_grid_items_cards.
  do 7 apply occurs_in_app_r.
  apply in_app_or in Hin as [Hin | Hin]; [apply occurs_in_app_l | do 2 apply occurs_in_app_r; apply occurs_in_app_l];
    apply occurs_in_concat, in_map, Hin.
Qed.

(** The card of the item dict of a parsed item reads its five fields:
    the dict always has the keys, so no default of [item.get] applies. *)
Lemma grid_item_movie (m : movie) :
  grid_item (movie_dict m) =
    movie_card (py_str (Title m))
      (if py_truthy (poster m) then poster_img (py_str (poster m)) (py_str (Title m)) ++ fallback_poster_hidden
       else fallback_poster)
      (py_str (year m)) (py_str (movie_type m)) (py_str (imdbID m)).
Proof. reflexivity. Qed.

(** The title of a card sits between the quotes of [data-title]. *)
Lemma movie_card_title (title poster_html year type_ imdb_id : string) :
  occurs_in (" data-title=" ++ dq ++ title ++ dq ++ ">") (movie_card title poster_html year type_ imdb_id).
Proof.
  unfold movie_card.
  exists (newline ++ "        <div class=" ++ dq ++ "movie-card" ++ dq). eexists.
  rewrite ?string_app_assoc. reflexivity.
Qed.

(** C35. No HTML escaping, from the API answer to the page: the [name] of
    every item the exporter keeps appears in the report exactly as the API
    sent it, between the quotes of a [data-title] attribute. A double quote
    in a name therefore ends the attribute, and the rest of the name is
    markup of the page. *)
Theorem grid_item_title_unescaped (now : timestamp) (items : list json) (w wl : list movie)
  (o : list (string * json)) :
  parse_library_data (JObj [("result", JArr items)]) = Ok (w, wl) ->
  In (JObj o) items -> keep o = true ->
  str_contains (" data-title=" ++ dq ++ py_str (field o "name" (JStr "")) ++ dq ++ ">")
    (html_content now (map movie_dict w) (map movie_dict wl)) = true.
Proof.
  intros Hp Hin Hk.
  destruct (parse_library_data_kept_in _ _ _ _ Hp Hin Hk) as (m & b & Hm & Hmw).
  destruct (parse_item_fields _ _ _ Hm) as (_ & Ht & _).
  apply str_contains_occurs; [discriminate |].
  eapply occurs_in_trans; [| apply html_content_card; rewrite <- map_app; apply in_map, Hmw].
  rewrite grid_item_movie, <- Ht. apply movie_card_title.
Qed.

(** C36. A missing year is shown as [None]: for every item the exporter
    keeps whose dict and [meta] have no [year], the report holds its card
    with the year text [None], not the empty default of
    [item.get('year', '')]: [parse_library_data] always stores the key. *)
Theorem report_missing_year (now : timestamp) (items : list json) (w wl : list movie)
  (o : list (string * json)) :
  parse_library_data (JObj [("result", JArr items)]) = Ok (w, wl) ->
  In (JObj o) items -> keep o = true ->
  assoc_lookup "year" o = None ->
  (forall mf, assoc_lookup "meta" o = Some (JObj mf) -> assoc_lookup "year" mf = None) ->
  exists poster_html,
    str_contains (movie_card (py_str (field o "name" (JStr ""))) poster_html "None"
                    (py_str (field o "type" (JStr "movie"))) (py_str (field o "_id" (JStr ""))))
      (html_content now (map movie_dict w) (map movie_dict wl)) = true.
Proof.
  intros Hp Hin Hk Hy Hmeta.
  destruct (parse_library_data_kept_in _ _ _ _ Hp Hin Hk) as (m & b & Hm & Hmw).
  destruct (parse_item_fields _ _ _ Hm) as (Hi & Ht & _ & Hry & Hty).
  assert (year m = JNull) as Hym.
  { unfold resolve_year in Hry. rewrite py_get_field in Hry. unfold field in Hry. rewrite Hy in Hry.
    simpl in Hry. destruct (assoc_lookup "meta" o) as [meta|] eqn:Em; simpl in Hry;
      [| unfold ret in Hry; congruence].
    destruct meta as [| | | | |mf]; simpl in Hry; try discriminate.
    rewrite (Hmeta mf eq_refl) in Hry. unfold ret in Hry. congruence. }
  exists (if py_truthy (poster m) then poster_img (py_str (poster m)) (py_str (Title m)) ++ fallback_poster_hidden
          else fallback_poster).
  apply str_contains_occurs; [unfold movie_card; discriminate |].
  change "None" with (py_str JNull). rewrite <- Ht, <- Hi, <- Hty, <- Hym, <- grid_item_movie.
  apply html_content_card. rewrite <- map_app. apply in_map, Hmw.
Qed.

(** A page of one watched item whose name ends the [data-title]
    attribute and adds an event handler. *)
Definition injection_item : json :=
  JObj [("_id", JStr "tt1"); ("name", JStr ("x" ++ dq ++ " onmouseover=" ++ dq ++ "alert(1)"));
        ("state", JObj [("timesWatched", JInt 1)])].

Definition injection_movie : movie :=
  mk_movie (JStr "tt1") (JStr ("x" ++ dq ++ " onmouseover=" ++ dq ++ "alert(1)")) JNull JNull (JStr "movie").

Lemma grid_item_title_unescaped_witness :
  parse_library_data (JObj [("result", JArr [injection_item])]) = Ok ([injection_movie], []) /\
  In injection_item [injection_item] /\
  keep [("_id", JStr "tt1"); ("name", JStr ("x" ++ dq ++ " onmouseover=" ++ dq ++ "alert(1)"));
        ("state", JObj [("timesWatched", JInt 1)])] = true /\
  str_contains (" data-title=" ++ dq ++ "x" ++ dq ++ " onmouseover=" ++ dq ++ "alert(1)" ++ dq ++ ">")
    (html_content (mk_timestamp 2024 1 2 3 4) (map movie_dict [injection_movie]) []) = true.
Proof.
  split; [vm_compute; reflexivity | split; [left; reflexivity | split; [reflexivity |]]].
  apply (grid_item_title_unescaped (mk_timestamp 2024 1 2 3 4) [injection_item] [injection_movie] []
           [("_id", JStr "tt1"); ("name", JStr ("x" ++ dq ++ " onmouseover=" ++ dq ++ "alert(1)"));
            ("state", JObj [("timesWatched", JInt 1)])]);
    [vm_compute; reflexivity | left; reflexivity | reflexivity].
Defined.

Lemma report_missing_year_witness :
  parse_library_data (JObj [("result", JArr [JObj [("_id", JStr "tt1"); ("name", JStr "A");
                                                   ("meta", JObj [])]])]) =
    Ok ([], [mk_movie (JStr "tt1") (JStr "A") JNull JNull (JStr "movie")]) /\
  exists poster_html,
    str_contains (movie_card "A" poster_html "None" "movie" "tt1")
      (html_content (mk_timestamp 2024 1 2 3 4)
         [] (map movie_dict [mk_movie (JStr "tt1") (JStr "A") JNull JNull (JStr "movie")])) = true.
Proof.
  split; [vm_compute; reflexivity |].
  apply (report_missing_year (mk_timestamp 2024 1 2 3 4)
           [JObj [("_id", JStr "tt1"); ("name", JStr "A"); ("meta", JObj [])]]
           [] [mk_movie (JStr "tt1") (JStr "A") JNull JNull (JStr "movie")]
           [("_id", JStr "tt1"); ("name", JStr "A"); ("meta", JObj [])]);
    [vm_compute; reflexivity | left; reflexivity | reflexivity | reflexivity |].
  intros mf Hmf. simpl in Hmf. injection Hmf as <-. reflexivity.
Defined.
