(* ===== verification/ExportFiles.v ===== *)
(** * ExportFiles: the files [movie_extractor.main] leaves in [output/]

    The exporter's output steps write to one directory: the two CSV files
    (only for non-empty lists), the HTML report and [library_backup.json].
    Then [create_backup_zip] archives every file whose name contains the
    run's timestamp and whose suffix is not [.zip], plus
    [library_backup.json] under the name [library_backup_<timestamp>.json].
    The directory is a finite map from file names to contents (stdpp's
    [gmap]). The effects that [ExportDriver.export_main] records are run on
    it, in order. The CSV contents are the rows [csv.DictWriter] receives,
    as strings. The JSON file holds the value [json.dump] serialises. *)

From Stdlib Require Import String Ascii ZArith List Bool Lia.
From stdpp Require Import base gmap strings list.
From S2P Require Import Prelude Json Http Categorizer LibraryReader ExportDriver Html.
Import ListNotations.
Open Scope string_scope.

(** stdpp stops [simpl] at [String.append]; the file names here are
    appends of literals, which should compute. *)
#[local] Arguments String.append : simpl nomatch.

(** ** Files and the directory *)

(** A file the exporter writes. *)
Inductive data_file : Type :=
| CsvFile (rows : list (list string))
| HtmlFile (text : string)
| JsonFile (data : json).

(** A directory entry: a written file, or a ZIP archive with its entries
    (arcname and content) in the order they were added. *)
Inductive file : Type :=
| Plain (d : data_file)
| Archive (entries : list (string * data_file)).

Abbreviation directory := (gmap string file).

(** ** Names *)

(** The position of the last ['.'] of a name. *)
Fixpoint rfind_dot (s : string) : option nat :=
  match s with
  | EmptyString => None
  | String c s' =>
      match rfind_dot s' with
      | Some j => Some (S j)
      | None => if Ascii.eqb c "."%char then Some 0 else None
      end
  end.

(** [PurePath.suffix]: from the last dot, unless that dot starts or ends
    the name. *)
Definition py_suffix (name : string) : string :=
  match rfind_dot name with
  | Some i =>
      if Nat.ltb 0 i && Nat.ltb i (String.length name - 1)
      then substring i (String.length name - i) name else EmptyString
  | None => EmptyString
  end.

(** [output_dir.glob(f"*{timestamp}*")] with [file_path.suffix != '.zip']:
    the names the archive takes from the directory. *)
Definition globbed (ts name : string) : bool :=
  str_contains ts name && negb (String.eqb (py_suffix name) ".zip").

Definition csv_name (kind ts : string) : string := kind ++ "_api_" ++ ts ++ ".csv".
Definition html_name (ts : string) : string := "stremio_library_" ++ ts ++ ".html".
Definition backup_name : string := "library_backup.json".
Definition backup_arcname (ts : string) : string := "library_backup_" ++ ts ++ ".json".
Definition zip_name (ts : string) : string := "stremio_library_backup_" ++ ts ++ ".zip".

(** ** The output steps *)

(** [fieldnames] of [save_to_csv], line 117. *)
Definition csv_fieldnames : list string := ["imdbID"; "Title"; "year"; "type"; "poster"].

(** A cell of [csv.writer]: [None] is written as the empty string, every
    other value as [str()]. *)
Definition csv_cell (v : json) : string :=
  match v with
  | JNull => EmptyString
  | _ => py_str v
  end.

(** [writer.writerow(item)]: the fields in [fieldnames] order, a missing
    key giving [restval = ""]; [extrasaction='ignore'] drops the others. *)
Definition csv_row (item : list (string * json)) : list string :=
  map (fun f => csv_cell (field item f (JStr EmptyString))) csv_fieldnames.

(** The rows of [save_to_csv(items, ...)], lines 114-122: the header, then
    one row per item. *)
Definition csv_rows (items : list movie) : list (list string) :=
  csv_fieldnames :: map (fun m => csv_row (movie_dict m)) items.

(** [create_backup_zip], lines 137-158: the globbed files in the
    directory's enumeration order, then the raw backup if it exists. A
    globbed archive would be copied as it is; the model keeps written files
    only, which is all the glob can meet when the timestamp is fresh. *)
Definition glob_entry (ts : string) (kv : string * file) : option (string * data_file) :=
  match snd kv with
  | Plain d => if globbed ts (fst kv) then Some (fst kv, d) else None
  | Archive _ => None
  end.

Definition zip_entries (ts : string) (dir : directory) : list (string * data_file) :=
  omap (glob_entry ts) (map_to_list dir) ++
  match dir !! backup_name with
  | Some (Plain d) => [(backup_arcname ts, d)]
  | _ => []
  end.

(** The file [save_to_csv(items, filename)] writes, lines 114-122: the
    rows [DictWriter] receives. *)
Definition write_csv_file (items : list movie) (filename : string) (dir : directory) : directory :=
  <[filename := Plain (CsvFile (csv_rows items))]> dir.

(** [save_json_backup(data, filename)], lines 127-134: [json.dump] of the
    response. Its exceptions are logged and swallowed, and the model's write
    does not fail. *)
Definition save_json_backup (data : json) (filename : string) (dir : directory) : directory :=
  <[filename := Plain (JsonFile data)]> dir.

(** [create_backup_zip(output_dir, timestamp)], lines 137-158: the
    archive, added to the directory it was built from. *)
Definition create_backup_zip (ts : string) (dir : directory) : directory :=
  <[zip_name ts := Archive (zip_entries ts dir)]> dir.

(** One recorded step of [main] on the directory. [now] is the clock the
    report prints, [ts] the timestamp of the file names. *)
Definition apply_effect (now : timestamp) (ts : string) (dir : directory) (e : export_effect)
  : directory :=
  match e with
  | SaveCsv kind items => write_csv_file items (csv_name kind ts) dir
  | GenerateHtml w wl =>
      <[html_name ts := Plain (HtmlFile (html_content now (map movie_dict w) (map movie_dict wl)))]> dir
  | SaveJsonBackup data => save_json_backup data backup_name dir
  | CreateZip => create_backup_zip ts dir
  | OpenReport => dir
  end.

Definition run_effects (now : timestamp) (ts : string) (dir : directory) (effs : list export_effect)
  : directory :=
  fold_left (apply_effect now ts) effs dir.

(** ** The archive a successful export leaves *)

(** The CSV a list gets: none for an empty list. *)
Definition csv_entry (kind ts : string) (items : list movie) : list (string * data_file) :=
  match items with
  | [] => []
  | _ :: _ => [(csv_name kind ts, CsvFile (csv_rows items))]
  end.

(** The entries of [stremio_library_backup_<ts>.zip] after a run that
    exported [w] and [wl] from the response [data]. *)
Definition export_archive (now : timestamp) (ts : string) (w wl : list movie) (data : json)
  : list (string * data_file) :=
  csv_entry "watched" ts w ++ csv_entry "watchlist" ts wl ++
  [(html_name ts, HtmlFile (html_content now (map movie_dict w) (map movie_dict wl)));
   (backup_arcname ts, JsonFile data)].

(** The restore command the report's "Backup & Restore" tab prints. *)
Definition restore_command : string := "python library_importer.py library_backup.json".

(** ** Lemmas on names *)




Lemma rfind_dot_app (a b : string) :
  rfind_dot (a ++ b) =
  match rfind_dot b with Some j => Some (String.length a + j) | None => rfind_dot a end.
Proof.
  induction a as [|c a IH]; simpl; [destruct (rfind_dot b); reflexivity |].
  rewrite IH. destruct (rfind_dot b); reflexivity.
Qed.

(** The suffix of [p ++ e], for an extension [e] that is a dot followed by
    at least one character and no other dot. *)
Lemma py_suffix_app (p e : string) :
  p <> EmptyString -> rfind_dot e = Some 0 -> 2 <= String.length e -> py_suffix (p ++ e) = e.
Proof.
  intros Hp He Hl. unfold py_suffix. rewrite rfind_dot_app, He, Nat.add_0_r, string_length_app.
  destruct p as [|c p]; [contradiction |]. simpl String.length.
  replace (Nat.ltb 0 (S (String.length p)) && Nat.ltb (S (String.length p)) (S (String.length p) + String.length e - 1))
    with true by (symmetry; apply andb_true_intro; split; apply Nat.ltb_lt; lia).
  replace (S (String.length p) + String.length e - S (String.length p)) with (String.length e) by lia.
  rewrite <- (string_app_nil_r e) at 2. exact (substring_app (String c p) e EmptyString).
Qed.

Lemma globbed_csv (kind ts : string) : ts <> EmptyString -> globbed ts (csv_name kind ts) = true.
Proof.
  intros Hts. unfold globbed, csv_name.
  rewrite <- string_app_assoc, str_contains_app by exact Hts.
  rewrite <- !string_app_assoc, py_suffix_app; [reflexivity | | reflexivity | simpl; lia].
  destruct kind; discriminate.
Qed.

Lemma globbed_html (ts : string) : ts <> EmptyString -> globbed ts (html_name ts) = true.
Proof.
  intros Hts. unfold globbed, html_name.
  rewrite str_contains_app by exact Hts.
  rewrite <- string_app_assoc, py_suffix_app; [reflexivity | discriminate | reflexivity | simpl; lia].
Qed.

(** ** Lemmas on the directory *)

Section Directory.
Variable ts : string.

(** A file absent from the directory: every name of a fresh directory
    misses the timestamp. *)
Lemma fresh_lookup (dir : directory) (k : string) :
  map_Forall (fun n _ => str_contains ts n = false) dir -> str_contains ts k = true ->
  dir !! k = None.
Proof.
  intros Hf Hk. destruct (dir !! k) as [v|] eqn:E; [|reflexivity].
  rewrite (Hf k v E) in Hk. discriminate.
Qed.

(** A fresh directory gives the archive nothing. *)
Lemma glob_fresh (dir : directory) :
  map_Forall (fun n _ => str_contains ts n = false) dir -> omap (glob_entry ts) (map_to_list dir) = [].
Proof.
  intros Hf.
  assert (Hl : Forall (fun kv => str_contains ts (fst kv) = false) (map_to_list dir)).
  { apply Forall_forall. intros [k v] Hin. apply (Hf k v). apply elem_of_map_to_list. exact Hin. }
  revert Hl. generalize (map_to_list dir) as l. intros l Hl.
  induction Hl as [|[k v] l Hk _ IH]; [reflexivity |].
  simpl in *. unfold glob_entry, globbed. simpl. rewrite Hk. destruct v; exact IH.
Qed.

(** Writing a new file adds its entry to the archive, when the glob takes
    it. *)
Lemma glob_insert (dir : directory) (k : string) (d : data_file) :
  dir !! k = None ->
  omap (glob_entry ts) (map_to_list (<[k := Plain d]> dir)) ≡ₚ
  (if globbed ts k then [(k, d)] else []) ++ omap (glob_entry ts) (map_to_list dir).
Proof.
  intros Hk. rewrite (map_to_list_insert dir k (Plain d) Hk). simpl.
  unfold glob_entry at 1. simpl. destruct (globbed ts k); reflexivity.
Qed.

(** Overwriting a file the glob does not take leaves the globbed entries
    of the rest. *)
Lemma glob_overwrite (dir : directory) (k : string) (v : file) :
  globbed ts k = false ->
  omap (glob_entry ts) (map_to_list (<[k := v]> dir)) ≡ₚ
  omap (glob_entry ts) (map_to_list (delete k dir)).
Proof.
  intros Hk. rewrite <- (insert_delete_eq dir k v).
  rewrite (map_to_list_insert (delete k dir) k v (lookup_delete_eq dir k)). simpl.
  unfold glob_entry at 1. simpl. destruct v; [rewrite Hk |]; reflexivity.
Qed.

End Directory.

(** The directory after [save_to_csv] of [items]. *)
Definition csv_dir (now : timestamp) (kind ts : string) (items : list movie) (dir : directory)
  : directory :=
  fold_left (apply_effect now ts) (match items with [] => [] | _ :: _ => [SaveCsv kind items] end) dir.

Lemma save_to_csv_effects (write_csv : string -> list movie -> result unit) (kind : string)
  (items : list movie) (e : list export_effect) :
  save_to_csv write_csv kind items = Ok e ->
  e = match items with [] => [] | _ :: _ => [SaveCsv kind items] end.
Proof.
  unfold save_to_csv. destruct items; [injection 1 as <-; reflexivity |].
  destruct (write_csv _ _); [injection 1 as <-; reflexivity | discriminate].
Qed.


Section CsvDir.
Variables (now : timestamp) (ts : string).

Lemma csv_dir_lookup_ne (kind : string) (items : list movie) (dir : directory) (k : string) :
  k <> csv_name kind ts -> csv_dir now kind ts items dir !! k = dir !! k.
Proof.
  intros Hk. destruct items; cbn [csv_dir fold_left apply_effect]; try unfold write_csv_file;
    [reflexivity | apply lookup_insert_ne; congruence].
Qed.

Lemma csv_dir_delete (kind : string) (items : list movie) (dir : directory) (k : string) :
  k <> csv_name kind ts -> delete k (csv_dir now kind ts items dir) = csv_dir now kind ts items (delete k dir).
Proof.
  intros Hk. destruct items; cbn [csv_dir fold_left apply_effect]; try unfold write_csv_file;
    [reflexivity | apply delete_insert_ne; congruence].
Qed.

Lemma glob_csv_dir (kind : string) (items : list movie) (dir : directory) :
  ts <> EmptyString -> dir !! csv_name kind ts = None ->
  omap (glob_entry ts) (map_to_list (csv_dir now kind ts items dir)) ≡ₚ
  csv_entry kind ts items ++ omap (glob_entry ts) (map_to_list dir).
Proof.
  intros Hts Hk. destruct items as [|m items]; cbn [csv_dir fold_left apply_effect csv_entry]; try unfold write_csv_file;
    [reflexivity |].
  rewrite glob_insert by exact Hk. rewrite globbed_csv by exact Hts. reflexivity.
Qed.

End CsvDir.



(** The page's restore tab, whatever the lists, prints [restore_command]. *)
Lemma html_content_restore_command (now : timestamp) (w wl : list (list (string * json))) :
  str_contains restore_command (html_content now w wl) = true.
Proof. unfold html_content. do 10 apply str_contains_app_r. vm_compute. reflexivity. Qed.

Section Archive.
Context {Server : Type}.
Variable post : Server -> json -> http_response * Server.
Variable write_csv : string -> list movie -> result unit.
Variable open_report : result unit.
Variable make_output_dir : result unit.
Variables (now : timestamp) (ts : string) (dir0 : directory).
Hypothesis Hts : ts <> EmptyString.
Hypothesis Hbackup : str_contains ts backup_name = false.
Hypothesis Hfresh : map_Forall (fun n _ => str_contains ts n = false) dir0.

(** The archive of a successful run, up to the order of the directory's
    enumeration. *)
Lemma export_zip_entries (auth : result json) (srv srv' : Server) (effs : list export_effect) :
  export_main post write_csv open_report make_output_dir auth srv = (0%Z, effs, srv') ->
  exists key data w wl,
    make_api_request post key srv = (Ok data, srv') /\ parse_library_data data = Ok (w, wl) /\
    run_effects now ts dir0 effs !! zip_name ts =
      Some (Archive (zip_entries ts (<[backup_name := Plain (JsonFile data)]>
        (<[html_name ts := Plain (HtmlFile (html_content now (map movie_dict w) (map movie_dict wl)))]>
          (csv_dir now "watchlist" ts wl (csv_dir now "watched" ts w dir0)))))) /\
    zip_entries ts (<[backup_name := Plain (JsonFile data)]>
        (<[html_name ts := Plain (HtmlFile (html_content now (map movie_dict w) (map movie_dict wl)))]>
          (csv_dir now "watchlist" ts wl (csv_dir now "watched" ts w dir0)))) ≡ₚ
      export_archive now ts w wl data.
Proof.
  intros (key & data & w & wl & e1 & e2 & _ & _ & Hm & Hpd & _ & H1 & H2 & _ & ->)%export_main_success_inv.
  apply save_to_csv_effects in H1, H2. subst e1 e2.
  exists key, data, w, wl. split; [exact Hm | split; [exact Hpd | split]].
  - unfold run_effects. rewrite !fold_left_app. cbn [fold_left apply_effect]. unfold create_backup_zip.
    apply lookup_insert_eq.
  - unfold zip_entries.
    rewrite lookup_insert_eq.
    assert (Hb : globbed ts backup_name = false) by (unfold globbed; rewrite Hbackup; reflexivity).
    rewrite (glob_overwrite ts _ _ _ Hb).
    rewrite delete_insert_ne by discriminate.
    rewrite !csv_dir_delete by discriminate.
    rewrite glob_insert.
    2: { rewrite !csv_dir_lookup_ne by discriminate.
         rewrite lookup_delete_ne by discriminate.
         apply (fresh_lookup ts); [exact Hfresh |].
         pose proof (globbed_html ts Hts) as G. unfold globbed in G. apply andb_prop in G. tauto. }
    rewrite globbed_html by exact Hts.
    rewrite glob_csv_dir; [| exact Hts |].
    2: { rewrite csv_dir_lookup_ne by discriminate.
         rewrite lookup_delete_ne by discriminate.
         apply (fresh_lookup ts); [exact Hfresh |].
         pose proof (globbed_csv "watchlist" ts Hts) as G. unfold globbed in G.
         apply andb_prop in G. tauto. }
    rewrite glob_csv_dir; [| exact Hts |].
    2: { rewrite lookup_delete_ne by discriminate.
         apply (fresh_lookup ts); [exact Hfresh |].
         pose proof (globbed_csv "watched" ts Hts) as G. unfold globbed in G.
         apply andb_prop in G. tauto. }
    rewrite (glob_fresh ts (delete backup_name dir0)) by (apply map_Forall_delete; exact Hfresh).
    unfold export_archive. rewrite !app_nil_r. simpl. solve_Permutation.
Qed.

End Archive.

(** ** Theorems *)

Section ArchiveTheorems.
Context {Server : Type}.
Variable post : Server -> json -> http_response * Server.
Variable write_csv : string -> list movie -> result unit.
Variable open_report : result unit.
Variable make_output_dir : result unit.

(** C20. The backup archive of a successful export, written into a
    directory that holds no other file with the run's timestamp, contains
    exactly: the CSV of each non-empty list, the HTML report of the two
    lists, and the raw API response under [library_backup_<ts>.json]. *)
Theorem export_zip_contents (auth : result json) (srv srv' : Server) (effs : list export_effect)
  (now : timestamp) (ts : string) (dir0 : directory) :
  export_main post write_csv open_report make_output_dir auth srv = (0%Z, effs, srv') ->
  ts <> EmptyString -> str_contains ts backup_name = false ->
  map_Forall (fun n _ => str_contains ts n = false) dir0 ->
  exists key data w wl entries,
    make_api_request post key srv = (Ok data, srv') /\ parse_library_data data = Ok (w, wl) /\
    run_effects now ts dir0 effs !! zip_name ts = Some (Archive entries) /\
    entries ≡ₚ export_archive now ts w wl data.
Proof.
  intros Hrun Hts Hb Hf.
  destruct (export_zip_entries post write_csv open_report make_output_dir now ts dir0 Hts Hb Hf auth srv srv' effs Hrun)
    as (key & data & w & wl & Hm & Hpd & Hz & Hp).
  eauto 10.
Qed.

(** C23. The report's restore instructions name a file the archive does
    not hold. The archived report tells the user to run
    [python library_importer.py library_backup.json]. The archive stores
    the backup as [library_backup_<ts>.json] and has no entry
    [library_backup.json]. *)
Theorem export_zip_restore_name (auth : result json) (srv srv' : Server) (effs : list export_effect)
  (now : timestamp) (ts : string) (dir0 : directory) :
  export_main post write_csv open_report make_output_dir auth srv = (0%Z, effs, srv') ->
  ts <> EmptyString -> str_contains ts backup_name = false ->
  map_Forall (fun n _ => str_contains ts n = false) dir0 ->
  exists entries text,
    run_effects now ts dir0 effs !! zip_name ts = Some (Archive entries) /\
    In (html_name ts, HtmlFile text) entries /\ str_contains restore_command text = true /\
    ~ In backup_name (map fst entries).
Proof.
  intros Hrun Hts Hb Hf.
  destruct (export_zip_entries post write_csv open_report make_output_dir now ts dir0 Hts Hb Hf auth srv srv' effs Hrun)
    as (key & data & w & wl & Hm & Hpd & Hz & Hp).
  eexists _, _. split; [exact Hz | split; [| split; [apply html_content_restore_command |]]].
  - apply (Permutation_in _ (Permutation_sym Hp)). unfold export_archive.
    apply in_or_app. right. apply in_or_app. right. left. reflexivity.
  - intros Hin. apply (Permutation_in _ (Permutation_map fst Hp)) in Hin.
    unfold export_archive, csv_entry in Hin.
    destruct w, wl; simpl in Hin; intuition discriminate.
Qed.

End ArchiveTheorems.

(** A directory left by an earlier run. *)
Definition earlier_run : directory :=
  {[ "watched_api_20230101_000000.csv" := Plain (CsvFile [csv_fieldnames]) ]}.

Definition report_clock : timestamp := mk_timestamp 2024 3 7 9 5.

Lemma export_zip_contents_witness :
  export_main one_item_server (fun _ _ => Ok tt) (Ok tt) (Ok tt) (Ok (JStr "key")) 0 =
    (0%Z, one_item_effects, 1) /\
  "20240307_090501" <> EmptyString /\ str_contains "20240307_090501" backup_name = false /\
  map_Forall (fun n _ => str_contains "20240307_090501" n = false) earlier_run /\
  exists key data w wl entries,
    make_api_request one_item_server key 0 = (Ok data, 1) /\ parse_library_data data = Ok (w, wl) /\
    run_effects report_clock "20240307_090501" earlier_run one_item_effects !! zip_name "20240307_090501" =
      Some (Archive entries) /\
    entries ≡ₚ export_archive report_clock "20240307_090501" w wl data.
Proof.
  assert (Hf : map_Forall (fun n _ => str_contains "20240307_090501" n = false) earlier_run)
    by (apply map_Forall_singleton; vm_compute; reflexivity).
  split; [vm_compute; reflexivity | split; [discriminate | split; [vm_compute; reflexivity | split; [exact Hf |]]]].
  apply (export_zip_contents one_item_server (fun _ _ => Ok tt) (Ok tt) (Ok tt) (Ok (JStr "key")) 0 1
           one_item_effects report_clock "20240307_090501" earlier_run);
    [vm_compute; reflexivity | discriminate | vm_compute; reflexivity | exact Hf].
Defined.

Lemma export_zip_restore_name_witness :
  export_main one_item_server (fun _ _ => Ok tt) (Ok tt) (Ok tt) (Ok (JStr "key")) 0 =
    (0%Z, one_item_effects, 1) /\
  "20240307_090501" <> EmptyString /\ str_contains "20240307_090501" backup_name = false /\
  map_Forall (fun n _ => str_contains "20240307_090501" n = false) earlier_run /\
  exists entries text,
    run_effects report_clock "20240307_090501" earlier_run one_item_effects !! zip_name "20240307_090501" =
      Some (Archive entries) /\
    In (html_name "20240307_090501", HtmlFile text) entries /\ str_contains restore_command text = true /\
    ~ In backup_name (map fst entries).
Proof.
  assert (Hf : map_Forall (fun n _ => str_contains "20240307_090501" n = false) earlier_run)
    by (apply map_Forall_singleton; vm_compute; reflexivity).
  split; [vm_compute; reflexivity | split; [discriminate | split; [vm_compute; reflexivity | split; [exact Hf |]]]].
  apply (export_zip_restore_name one_item_server (fun _ _ => Ok tt) (Ok tt) (Ok tt) (Ok (JStr "key")) 0 1
           one_item_effects report_clock "20240307_090501" earlier_run);
    [vm_compute; reflexivity | discriminate | vm_compute; reflexivity | exact Hf].
Defined.
