(* ===== verification/OutputInvariant.v ===== *)
(** * OutputInvariant: well-formed output directories

    The files the exporter writes have shapes a reader relies on. A CSV file
    has the header [fieldnames] and one row of that width per item. A ZIP
    archive has distinct entry names; Python's [zipfile] writes a second
    entry of the same name with only a warning. This file states these
    shapes as a predicate [dir_wf] on the directory of [ExportFiles]. Every
    output step of [movie_extractor.main] preserves the predicate, and so
    does any sequence of steps.

    The archive's renamed backup [library_backup_<ts>.json] contains the
    timestamp and is not a [.zip], so the glob of [create_backup_zip] would
    also take a file of that name. The predicate therefore includes that no
    such file is in the directory. No step of the exporter writes one. *)

From Stdlib Require Import String Ascii ZArith List Bool Lia.
From stdpp Require Import base gmap strings list.
From S2P Require Import Prelude Json Http Categorizer LibraryReader ExportDriver Html ExportFiles.
Import ListNotations.
Open Scope string_scope.

#[local] Arguments String.append : simpl nomatch.

(** ** The shapes *)

(** The rows [DictWriter] wrote: the header, then rows of its width. *)
Definition csv_wf (rows : list (list string)) : Prop :=
  match rows with
  | header :: body => header = csv_fieldnames /\ Forall (fun r => length r = length csv_fieldnames) body
  | [] => False
  end.

Definition data_wf (d : data_file) : Prop :=
  match d with
  | CsvFile rows => csv_wf rows
  | HtmlFile _ | JsonFile _ => True
  end.

(** An archive: distinct entry names, and well-formed entries. *)
Definition file_wf (f : file) : Prop :=
  match f with
  | Plain d => data_wf d
  | Archive es => NoDup (map fst es) /\ Forall (fun e => data_wf (snd e)) es
  end.

(** The directory of a run with timestamp [ts]. *)
Definition dir_wf (ts : string) (dir : directory) : Prop :=
  map_Forall (fun _ f => file_wf f) dir /\ dir !! backup_arcname ts = None.

#[export] Instance csv_wf_dec (rows : list (list string)) : Decision (csv_wf rows).
Proof. destruct rows; simpl; apply _. Defined.
#[export] Instance data_wf_dec (d : data_file) : Decision (data_wf d).
Proof. destruct d; simpl; apply _. Defined.
#[export] Instance file_wf_dec (f : file) : Decision (file_wf f).
Proof. destruct f; simpl; apply _. Defined.
#[export] Instance dir_wf_dec (ts : string) (dir : directory) : Decision (dir_wf ts dir).
Proof. unfold dir_wf. apply _. Defined.

(** ** Lemmas *)

Create HintDb output_wf discriminated.

Lemma csv_rows_wf (items : list movie) : csv_wf (csv_rows items).
Proof.
  unfold csv_rows. split; [reflexivity |].
  apply Forall_forall. intros r (m & <- & _)%list_elem_of_In%in_map_iff.
  unfold csv_row. apply length_map.
Qed.

(** Two names with different extensions differ. *)
Lemma names_suffix_ne (p q e f : string) :
  p <> EmptyString -> q <> EmptyString -> rfind_dot e = Some 0 -> rfind_dot f = Some 0 ->
  2 <= String.length e -> 2 <= String.length f -> e <> f -> p ++ e <> q ++ f.
Proof.
  intros Hp Hq He Hf Le Lf Hef Heq. apply Hef.
  rewrite <- (py_suffix_app p e), <- (py_suffix_app q f) by assumption. congruence.
Qed.

Lemma csv_name_not_arcname (kind ts : string) : csv_name kind ts <> backup_arcname ts.
Proof.
  unfold csv_name, backup_arcname. rewrite <- !string_app_assoc.
  apply names_suffix_ne; try discriminate; try reflexivity; simpl; try lia.
  destruct kind; discriminate.
Qed.

Lemma html_name_not_arcname (ts : string) : html_name ts <> backup_arcname ts.
Proof.
  unfold html_name, backup_arcname. rewrite <- !string_app_assoc.
  apply names_suffix_ne; try discriminate; try reflexivity; simpl; lia.
Qed.

#[export] Hint Resolve csv_rows_wf csv_name_not_arcname html_name_not_arcname I : output_wf.

(** The entries the glob takes keep their names from the directory. *)
Lemma glob_entries_names (ts : string) (l : list (string * file)) (x : string) :
  In x (map fst (omap (glob_entry ts) l)) -> In x (map fst l).
Proof.
  induction l as [|[k v] l IH]; simpl; [tauto |].
  unfold glob_entry at 1. simpl.
  destruct v; [destruct (globbed ts k) |]; simpl; intuition.
Qed.

Lemma glob_entries_nodup (ts : string) (l : list (string * file)) :
  NoDup (map fst l) -> NoDup (map fst (omap (glob_entry ts) l)).
Proof.
  induction l as [|[k v] l IH]; simpl; [constructor |].
  intros [Hk Hl]%NoDup_cons. unfold glob_entry at 1. simpl.
  destruct v; [destruct (globbed ts k) |]; simpl; auto.
  constructor; [| auto]. intros Hin. apply Hk.
  apply list_elem_of_In, glob_entries_names with (ts := ts), list_elem_of_In. exact Hin.
Qed.

Lemma glob_entries_wf (ts : string) (l : list (string * file)) :
  Forall (fun kv => file_wf (snd kv)) l ->
  Forall (fun e => data_wf (snd e)) (omap (glob_entry ts) l).
Proof.
  induction 1 as [|[k v] l Hv _ IH]; simpl; [constructor |].
  unfold glob_entry at 1. simpl.
  destruct v; [destruct (globbed ts k) |]; simpl; auto.
Qed.

(** The archive of a well-formed directory is well-formed. *)
Lemma zip_entries_wf (ts : string) (dir : directory) :
  dir_wf ts dir -> file_wf (Archive (zip_entries ts dir)).
Proof.
  intros [Hf Ha]. unfold zip_entries. simpl. split.
  - rewrite map_app. apply NoDup_app. split; [| split].
    + apply glob_entries_nodup. exact (NoDup_fst_map_to_list dir).
    + intros x Hx. destruct (dir !! backup_name) as [[d|es]|]; simpl; [| set_solver | set_solver].
      apply list_elem_of_In, glob_entries_names, list_elem_of_In in Hx.
      intros ->%list_elem_of_singleton.
      apply list_elem_of_fmap in Hx as ([k v] & Hk & Hin%elem_of_map_to_list). simpl in Hk. subst k. congruence.
    + destruct (dir !! backup_name) as [[d|es]|]; simpl; [apply NoDup_singleton | constructor | constructor].
  - apply Forall_app. split.
    + apply glob_entries_wf. apply Forall_forall. intros [k v] Hin. apply (Hf k v).
      apply elem_of_map_to_list. exact Hin.
    + destruct (dir !! backup_name) as [[d|es]|] eqn:Hb; simpl; try constructor.
      * exact (Hf _ _ Hb).
      * constructor.
Qed.

(** Each output step preserves the shapes. *)
Lemma apply_effect_wf (now : timestamp) (ts : string) (dir : directory) (e : export_effect) :
  dir_wf ts dir -> dir_wf ts (apply_effect now ts dir e).
Proof.
  intros Hw. pose proof (zip_entries_wf ts dir Hw) as Hz. destruct Hw as [Hf Ha].
  destruct e as [kind items|w wl|data| |]; cbn [apply_effect];
    unfold write_csv_file, save_json_backup, create_backup_zip; [| | | | split; assumption];
    (split; [apply map_Forall_insert_2; [| exact Hf] | rewrite lookup_insert_ne; [exact Ha |]]).
  all: first [discriminate | exact Hz | cbn [file_wf data_wf]; auto with output_wf].
Qed.

(** ** Theorem *)

(** C21. Well-formed output: from a directory whose files are well-formed
    and that holds no [library_backup_<ts>.json], every sequence of the
    exporter's output steps leaves a directory of the same kind. Every CSV
    file has the header [imdbID, Title, year, type, poster] and rows of
    five cells. Every archive, the run's ZIP included, has distinct entry
    names and well-formed CSV entries. *)
Theorem run_effects_wf (now : timestamp) (ts : string) (dir : directory)
  (effs : list export_effect) :
  dir_wf ts dir -> dir_wf ts (run_effects now ts dir effs).
Proof.
  unfold run_effects. revert dir.
  induction effs as [|e effs IH]; intros dir Hw; simpl; [exact Hw |].
  apply IH, apply_effect_wf, Hw.
Qed.

Lemma run_effects_wf_witness :
  dir_wf "20240307_090500" earlier_run /\
  dir_wf "20240307_090500" (run_effects report_clock "20240307_090500" earlier_run one_item_effects).
Proof.
  assert (H : dir_wf "20240307_090500" earlier_run) by (apply (bool_decide_unpack _); vm_compute; reflexivity).
  split; [exact H | exact (run_effects_wf report_clock "20240307_090500" earlier_run one_item_effects H)].
Defined.

(** Without the side condition the archive can repeat a name: a file
    [library_backup_<ts>.json] already in [output/] is taken by the glob,
    and the renamed backup is added under the same name. *)
Example zip_duplicate_entry :
  let dir : directory :=
    {[ "library_backup_20240307_090500.json" := Plain (JsonFile JNull);
       backup_name := Plain (JsonFile (JObj [])) ]} in
  map fst (zip_entries "20240307_090500" dir) =
    ["library_backup_20240307_090500.json"; "library_backup_20240307_090500.json"] /\
  ~ file_wf (Archive (zip_entries "20240307_090500" dir)).
Proof.
  split; [vm_compute; reflexivity |].
  apply (bool_decide_unpack _). vm_compute. reflexivity.
Qed.
