(* ===== verification/EndToEnd.v ===== *)
(** * EndToEnd: an export followed by an import

    The two programs meet at [output/library_backup.json].
    [movie_extractor.main] writes the raw [datastoreGet] answer there
    ([save_json_backup]). [library_importer.main] tests that the file exists,
    [load_backup] opens it and decodes it, and [restore_library] replays
    it. This file models the importer's two reads of the file on the
    exporter's output directory ([ExportFiles.directory]). Its theorem
    composes [ExportDriver.export_main], the directory the run leaves
    ([ExportFiles.run_effects]) and [ImportDriver.importer_main]. The
    importer's server is any oracle, observed through [recording].
    [json_load_file] reads a JSON file as the value that was dumped;
    [json_load_file_text] shows that this is what [json.dump] and
    [json.load] do on the text (JsonText.v). *)

From Stdlib Require Import String ZArith List Bool Lia.
From stdpp Require Import base gmap.
From S2P Require Import Prelude Json Unicode JsonText Http Batching Categorizer LibraryReader Synchronizer ExportDriver ImportDriver Html ExportFiles.
Import ListNotations.
Open Scope string_scope.
Open Scope list_scope.

(** ** The importer reading the output directory *)

Section Handoff.
Context {ImportServer : Type}.
Variable post' : ImportServer -> json -> http_response * ImportServer.
(** What [json.load] makes of a file the exporter did not write as JSON:
    a CSV, the HTML report or a ZIP. The exception is left open. *)
Variable load_other : file -> result json.

(** [Path(args.backup_file).exists()], line 86. *)
Definition path_exists (dir : directory) (path : string) : bool :=
  match dir !! path with Some _ => true | None => false end.

(** [open(filepath)] and [json.load(f)] in [load_backup], lines 26-27. A
    file [json.dump] wrote decodes to the value it was given. *)
Definition json_load_file (dir : directory) (path : string) : result json :=
  match dir !! path with
  | Some (Plain (JsonFile data)) => Ok data
  | Some f => load_other f
  | None => Err (FileNotFoundError path)
  end.

(** [python library_importer.py path] run against [dir]: [main] with the
    existence test and the file's contents. *)
Definition import_file (dir : directory) (path : string) (auth : result json) (srv : ImportServer)
  : Z * list import_effect * ImportServer :=
  importer_main post' (path_exists dir path) (json_load_file dir path) auth srv.

End Handoff.

(** ** Lemmas *)

(** The importer's read of the backup, as this file models it, is
    what Python does with the text. When the output directory holds the
    value [data] under [path], and [data]'s dicts have distinct keys and
    its integers at most 4300 digits, [json.dump] writes [data] without
    error, and [json.load] of that text gives what [json_load_file]
    gives: [data] itself. *)
Lemma json_load_file_text (parse_float : list Z -> json) (load_other : file -> result json)
  (dir : directory) (path : string) (data : json) :
  dir !! path = Some (Plain (JsonFile data)) -> distinct_keys data = true -> ints_fit data = true ->
  exists text, json_dump data = Ok text /\ json_load parse_float text = json_load_file load_other dir path.
Proof.
  intros Hf Hk Hi. rewrite <- (iterencode_is_ok 0 data) in Hi.
  destruct (iterencode 0 data) as [t|e] eqn:Ht; [| discriminate].
  exists (string_of_list_ascii (Unicode.utf8_encode t)). unfold json_dump. rewrite Ht. split; [reflexivity |].
  unfold json_load, json_load_file. rewrite Hf, read_text_printable by exact (iterencode_printable _ _ _ Ht).
  apply json_loads_iterencode; assumption.
Qed.

(** [load_backup] of a dict returns its ["result"]. *)
Lemma load_backup_result (o : list (string * json)) (r : json) :
  assoc_lookup "result" o = Some r -> load_backup (Ok (JObj o)) = Ok r.
Proof. intros Hl. unfold load_backup. simpl. rewrite Hl. reflexivity. Qed.

(** The backup file of a successful export holds the API's answer: the
    ZIP and the report opening come after it and leave it alone. *)
Lemma export_backup_file {Server : Type} (post : Server -> json -> http_response * Server)
  (write_csv : string -> list movie -> result unit) (open_report make_output_dir : result unit)
  (auth : result json) (srv srv' : Server) (effs : list export_effect)
  (now : timestamp) (ts : string) (dir0 : directory) :
  export_main post write_csv open_report make_output_dir auth srv = (0%Z, effs, srv') ->
  exists key data w wl,
    make_api_request post key srv = (Ok data, srv') /\ parse_library_data data = Ok (w, wl) /\
    run_effects now ts dir0 effs !! backup_name = Some (Plain (JsonFile data)).
Proof.
  intros (key & data & w & wl & e1 & e2 & _ & _ & Hm & Hpd & _ & _ & _ & _ & ->)%export_main_success_inv.
  exists key, data, w, wl. split; [exact Hm | split; [exact Hpd |]].
  unfold run_effects. rewrite !fold_left_app. cbn [fold_left apply_effect].
  unfold create_backup_zip, save_json_backup.
  rewrite lookup_insert_ne by discriminate. apply lookup_insert_eq.
Qed.

Section Replay.
Context {ImportServer : Type}.
Variable post' : ImportServer -> json -> http_response * ImportServer.

(** The importer on a backup whose ["result"] iterates to nothing: an
    empty list, str or dict. It logs in and posts nothing. *)
Lemma importer_main_empty_result (o : list (string * json)) (r : json) (key : json)
  (s0 : ImportServer) :
  assoc_lookup "result" o = Some r -> py_iter r = Ok [] ->
  importer_main (recording post') true (Ok (JObj o)) (Ok key) (s0, []) =
    (0%Z, [ExtractKey; RestoreDone 0 0], (s0, [])).
Proof.
  intros Hl Hi. unfold importer_main. rewrite (load_backup_result o r Hl). simpl.
  destruct r as [| | |s|[|x l]|[|kv o']]; try discriminate; try reflexivity.
  simpl in Hi. unfold restore_items, py_len. destruct (py_chars s); [reflexivity | discriminate].
Qed.

(** The importer on a response [parse_library_data] accepted. *)
Lemma importer_main_parsed (data key : json) (w wl : list movie) (s0 : ImportServer) :
  parse_library_data data = Ok (w, wl) ->
  (exists o, data = JObj o /\ assoc_lookup "result" o = None /\
     importer_main (recording post') true (Ok data) (Ok key) (s0, []) = (1%Z, [], (s0, []))) \/
  (exists items kept,
     bind (load_backup (Ok data)) py_iter = Ok items /\
     normalize items = Ok kept /\ parse_library_data data = Ok (categorize kept) /\
     exists restored s1 tr,
       importer_main (recording post') true (Ok data) (Ok key) (s0, []) =
         (0%Z, [ExtractKey; RestoreDone restored (length items)], (s1, tr)) /\
       map fst tr = map (fun b => put_payload key (JArr b)) (batches batch_size items)).
Proof.
  intros Hpd.
  destruct (parse_library_data_shape _ _ _ Hpd) as (o & items & kept & -> & Hn & Hc & Hr).
  destruct (assoc_lookup "result" o) as [r|] eqn:Hl.
  2: { left. exists o. unfold importer_main, load_backup. simpl. rewrite Hl. auto. }
  right. exists items, kept. destruct Hr as [Hi [-> | ->]].
  - rewrite (load_backup_result o _ Hl), Hpd, Hc. do 3 (split; [reflexivity || assumption |]).
    unfold importer_main. rewrite (load_backup_result o _ Hl). simpl.
    destruct (restore_library_recorded post' JArr key items s0) as (Hm & _ & _).
    destruct (restore_library (recording post') JArr key items (s0, [])) as [[restored [s1 tr]] log].
    exists restored, s1, tr. auto.
  - rewrite (importer_main_empty_result o r key s0 Hl Hi).
    rewrite (load_backup_result o r Hl), Hpd, Hc.
    do 3 (split; [reflexivity || assumption |]). exists 0, s0, []. auto.
Qed.

End Replay.

(** ** Theorem *)

Section EndToEnd.
Context {ExportServer ImportServer : Type}.
Variable post : ExportServer -> json -> http_response * ExportServer.
Variable write_csv : string -> list movie -> result unit.
Variable open_report : result unit.
Variable make_output_dir : result unit.
Variable post' : ImportServer -> json -> http_response * ImportServer.
Variable load_other : file -> result json.

(** C14. Export then import replays the library. Take a run of the
    exporter that exits 0, and run the importer on the
    [library_backup.json] it left in the output directory. The file holds
    the API's answer. If that answer had no ["result"], the importer
    rejects the file and exits 1 before logging in or posting. Otherwise
    the importer exits 0. Its [load_backup] yields a value that iterates to
    exactly the items the exporter parsed into its two lists. It posts
    those items in batches of 50, in their order, one post per batch,
    whatever the server answers. *)
Theorem export_import_replays_library (auth : result json) (srv srv' : ExportServer)
  (effs : list export_effect) (now : timestamp) (ts : string) (dir0 : directory)
  (key : json) (s0 : ImportServer) :
  export_main post write_csv open_report make_output_dir auth srv = (0%Z, effs, srv') ->
  exists key0 data,
    make_api_request post key0 srv = (Ok data, srv') /\
    run_effects now ts dir0 effs !! backup_name = Some (Plain (JsonFile data)) /\
    let dir := run_effects now ts dir0 effs in
    ((exists o, data = JObj o /\ assoc_lookup "result" o = None /\
       import_file (recording post') load_other dir backup_name (Ok key) (s0, []) =
         (1%Z, [], (s0, []))) \/
     (exists items kept,
       bind (load_backup (Ok data)) py_iter = Ok items /\
       normalize items = Ok kept /\ parse_library_data data = Ok (categorize kept) /\
       exists restored s1 tr,
         import_file (recording post') load_other dir backup_name (Ok key) (s0, []) =
           (0%Z, [ExtractKey; RestoreDone restored (length items)], (s1, tr)) /\
         map fst tr = map (fun b => put_payload key (JArr b)) (batches batch_size items))).
Proof.
  intros Hx.
  destruct (export_backup_file post write_csv open_report make_output_dir auth srv srv' effs now ts dir0 Hx)
    as (key0 & data & w & wl & Hm & Hpd & Hf).
  exists key0, data. split; [exact Hm | split; [exact Hf |]].
  cbv zeta. unfold import_file, path_exists, json_load_file. rewrite Hf.
  exact (importer_main_parsed post' data key w wl s0 Hpd).
Qed.

End EndToEnd.

Lemma export_import_replays_library_witness :
  export_main one_item_server (fun _ _ => Ok tt) (Ok tt) (Ok tt) (Ok (JStr "key")) 0 =
    (0%Z, one_item_effects, 1) /\
  exists key0 data,
    make_api_request one_item_server key0 0 = (Ok data, 1) /\
    run_effects report_clock "20240307_090500" ∅ one_item_effects !! backup_name =
      Some (Plain (JsonFile data)) /\
    let dir := run_effects report_clock "20240307_090500" ∅ one_item_effects in
    ((exists o, data = JObj o /\ assoc_lookup "result" o = None /\
       import_file (recording ok_server) (fun _ => Err JSONDecodeError) dir backup_name
         (Ok (JStr "key")) (0, []) = (1%Z, [], (0, []))) \/
     (exists items kept,
       bind (load_backup (Ok data)) py_iter = Ok items /\
       normalize items = Ok kept /\ parse_library_data data = Ok (categorize kept) /\
       exists restored s1 tr,
         import_file (recording ok_server) (fun _ => Err JSONDecodeError) dir backup_name
           (Ok (JStr "key")) (0, []) =
           (0%Z, [ExtractKey; RestoreDone restored (length items)], (s1, tr)) /\
         map fst tr = map (fun b => put_payload (JStr "key") (JArr b)) (batches batch_size items))).
Proof.
  split; [vm_compute; reflexivity |].
  apply (export_import_replays_library one_item_server (fun _ _ => Ok tt) (Ok tt) (Ok tt) ok_server
           (fun _ => Err JSONDecodeError) (Ok (JStr "key")) 0 1 one_item_effects report_clock
           "20240307_090500" ∅ (JStr "key") 0).
  vm_compute. reflexivity.
Defined.
